(** * PayLink: outcome resolution and retry logic of the purchase screens

  A shallow embedding of the TypeScript sources that decide how an
  aggregator (VTPass) response is classified, how request ids are made,
  how the purchase screens retry, and how the wallet balance is refreshed:

  - [Helpers]        src/lib/vtpass-helpers   (generateUniqueRequestId,
                     extractVTPassErrorMessage, isVTPassSuccess)
  - [Api]            src/lib/api.ts           (purchaseService, getVTPassBalance)
  - [VTPassContext]  the VTPass context       (makePurchase, fetchBalance)
  - [AirtimePage], [DataPage], [ElectricityPage]   the purchase screens

  JavaScript values are modelled after the TypeScript interfaces of the
  sources: an optional field [f?: string] is an [option string], [null] and
  [undefined] objects are [None]. *)

From Stdlib Require Import String Ascii List Bool Arith NArith ZArith Lia.
From Stdlib Require Import DecimalString DecimalN.
Import ListNotations.

Local Open Scope string_scope.
Local Open Scope bool_scope.

(** ** JavaScript primitives used by the sources *)

Module JS.

(** [s.includes(needle)] *)
Fixpoint includes (s needle : string) : bool :=
  if String.prefix needle s then true
  else match s with
       | EmptyString => false
       | String _ rest => includes rest needle
       end.

(** [s.substring(start, end)]: the arguments are swapped when
    [start > end] and the result is clamped to the string. *)
Definition substring (s : string) (start end_ : nat) : string :=
  let lo := Nat.min start end_ in
  let hi := Nat.max start end_ in
  String.substring lo (hi - lo) s.

(** Truthiness of a [string | undefined]: the empty string is falsy. *)
Definition truthy (o : option string) : bool :=
  match o with
  | Some s => negb (s =? "")
  | None => false
  end.

(** [o === lit] for a [string | undefined]. *)
Definition strictEq (o : option string) (lit : string) : bool :=
  match o with
  | Some s => s =? lit
  | None => false
  end.

(** [a || b] on strings. *)
Definition orElse (a b : string) : string :=
  if a =? "" then b else a.

(** [o || b] for a [string | undefined]. *)
Definition orDefault (o : option string) (b : string) : string :=
  match o with
  | Some s => orElse s b
  | None => b
  end.

(** [o?.includes(needle)], read in a boolean context. *)
Definition optIncludes (o : option string) (needle : string) : bool :=
  match o with
  | Some s => includes s needle
  | None => false
  end.

(** [`${n}`] for a non-negative integer-valued number such as [Date.now()]. *)
Definition numberToString (n : N) : string :=
  NilEmpty.string_of_uint (N.to_uint n).

(** A double as data.  No arithmetic is modelled; the functions that
    produce doubles from text ([parseFloat]) are taken as arguments where
    the sources call them. *)
Inductive number : Type :=
| NaN
| Infinity (negative : bool)
| Finite (negative : bool) (mantissa : N) (exponent : Z).

Definition zero : number := Finite false 0%N 0%Z.

(** The outcome of an [await]: the promise resolves or rejects. *)
Inductive Completion (A E : Type) : Type :=
| Returned (a : A)
| Thrown (e : E).
Arguments Returned {A E} a.
Arguments Thrown {A E} e.

(** [l] without its [n]-th element: the pending requests once the [n]-th
    has been answered. *)
Fixpoint removeNth {A} (n : nat) (l : list A) : list A :=
  match l, n with
  | [], _ => []
  | _ :: rest, 0 => rest
  | x :: rest, S n => x :: removeNth n rest
  end.

End JS.

(** ** src/lib/vtpass-helpers *)

Module Helpers.
Import JS.

(** What a key generation reads from its environment: [Date.now()] and
    [Math.random().toString(36)] (a text such as ["0.4fzyo82mvyr"]). *)
Record Entropy : Type := mkEntropy {
  dateNow : N;
  mathRandom36 : string
}.

(** [generateUniqueRequestId(prefix = 'tx')] *)
Definition generateUniqueRequestId (prefix : option string) (env : Entropy) : string :=
  let prefix := match prefix with Some p => p | None => "tx" end in
  let timestamp := dateNow env in
  let randomStr := substring (mathRandom36 env) 2 7 in
  prefix ++ "-" ++ numberToString timestamp ++ "-" ++ randomStr.

(** [content.transactions] of a response. *)
Record Transactions : Type := mkTransactions {
  status : option string;
  product_name : option string;
  tx_amount : option string
}.

Record Content : Type := mkContent {
  transactions : option Transactions
}.

(** [transaction] of the context's VTPassTransactionResponse. *)
Record TransactionInfo : Type := mkTransactionInfo {
  transaction_status : option string
}.

(** The response object.  One type covers the three interfaces through
    which the sources read it (VTPassResponseData of the helpers,
    VTPassResponse of api.ts with its nested [response], and
    VTPassTransactionResponse of the context), since the same object is
    passed from one to the next. *)
#[warnings="-register-all"] Inductive VTPassResponseData : Type := mkResponse {
  code : option string;
  response_description : option string;
  content : option Content;
  error_message : option string;
  suggested_action : option string;
  transaction : option TransactionInfo;
  response : option VTPassResponseData
}.

(** [{}] *)
Definition emptyResponse : VTPassResponseData :=
  mkResponse None None None None None None None.

(** Optional chaining [responseData?.f]. *)
Definition field {A} (f : VTPassResponseData -> option A)
    (responseData : option VTPassResponseData) : option A :=
  match responseData with
  | Some r => f r
  | None => None
  end.

(** [content?.transactions?.f] *)
Definition transactionsField {A} (f : Transactions -> option A)
    (r : VTPassResponseData) : option A :=
  match content r with
  | Some c => match transactions c with
              | Some t => f t
              | None => None
              end
  | None => None
  end.

(** The [switch (responseData?.code)] of extractVTPassErrorMessage either
    returns from the function or leaves with an updated [errorMessage]. *)
Inductive Switch : Type :=
| Return (result : string)
| Break (errorMessage : string).

Definition switchOnCode (responseData : option VTPassResponseData)
    (errorMessage : string) : Switch :=
  match field code responseData with
  | None => Break errorMessage
  | Some c =>
    if c =? "000" then
      if optIncludes (field response_description responseData) "SUCCESSFUL"
      then Return "Transaction completed successfully!"
      else Break errorMessage
    else if c =? "099" then
      Return "Transaction is pending. Please wait for confirmation."
    else if c =? "016" then
      Break ("Transaction failed: " ++ orElse errorMessage "Unknown reason")
    else if c =? "014" then
      Break "Insufficient funds in your account. Please add funds and try again."
    else if c =? "010" then
      Break "The selected variation code does not exist for this product. Please try a different bundle."
    else if c =? "009" then
      Break "Duplicate transaction detected. Please check if your previous transaction was successful."
    else if c =? "018" then
      Break "Invalid phone number format. Please check and try again."
    else if c =? "020" then
      Break "Transaction verification failed. Please contact support."
    else if c =? "021" then
      Break "Network error or service unavailable. Please try again later."
    else if c =? "025" then
      Break "Invalid amount for this service. Please enter a valid amount."
    else if c =? "026" then
      Break "Invalid variation code. Please select a different bundle."
    else Break errorMessage
  end.

(** [extractVTPassErrorMessage(responseData)] *)
Definition extractVTPassErrorMessage (responseData : option VTPassResponseData) : string :=
  if strictEq (field code responseData) "000"
     && optIncludes (field response_description responseData) "TRANSACTION SUCCESSFUL"
  then "Transaction completed successfully!"
  else
    let errorMessage := "An error occurred with your transaction." in
    let errorMessage :=
      if truthy (field error_message responseData)
      then orDefault (field error_message responseData) errorMessage
      else if truthy (field response_description responseData)
      then orDefault (field response_description responseData) errorMessage
      else errorMessage in
    match switchOnCode responseData errorMessage with
    | Return result => result
    | Break errorMessage =>
      match field suggested_action responseData with
      | Some action =>
        if action =? "" then errorMessage
        else errorMessage ++ " " ++ action
      | None => errorMessage
      end
    end.

(** [isVTPassSuccess(response)] *)
Definition isVTPassSuccess (response : option VTPassResponseData) : bool :=
  match response with
  | None => false
  | Some r =>
    strictEq (code r) "000"
    || strictEq (code r) "01"
    || (truthy (response_description r)
        && optIncludes (response_description r) "SUCCESSFUL")
  end.

End Helpers.

(** ** src/lib/api.ts *)

Module Api.
Import JS Helpers.

(** [AppError]: an [Error] with the properties the sources attach to it.
    [preventDefault] records whether a function was stored under that name. *)
Record AppError : Type := mkAppError {
  name : string;
  message : string;
  insufficientBalance : bool;
  managedError : bool;
  handled : bool;
  responseData : option VTPassResponseData;
  preventDefault : bool
}.

(** [new Error(message)] *)
Definition newError (message : string) : AppError :=
  mkAppError "Error" message false false false None false.

(** The [TypeError] raised by reading a property of [null] or [undefined]. *)
Definition typeError (property : string) : AppError :=
  mkAppError "TypeError"
    ("Cannot read properties of null (reading '" ++ property ++ "')")
    false false false None false.

(** [PurchaseData], with the [retryCount] property that the airtime and data
    screens add to the objects they keep for a retry. *)
Record PurchaseData : Type := mkPurchaseData {
  service_id : string;
  variation_code : option string;
  amount : number;
  phone : string;
  email : string;
  pin : string;
  transaction_type : string;
  request_id : option string;
  auto_retry : option bool;
  billersCode : option string;
  pd_retryCount : option nat
}.

(** [{...d, request_id: id}] *)
Definition withRequestId (d : PurchaseData) (id : string) : PurchaseData :=
  mkPurchaseData (service_id d) (variation_code d) (amount d) (phone d) (email d)
    (pin d) (transaction_type d) (Some id) (auto_retry d) (billersCode d)
    (pd_retryCount d).

(** [{...d, retryCount: n}] *)
Definition withRetryCount (d : PurchaseData) (n : nat) : PurchaseData :=
  mkPurchaseData (service_id d) (variation_code d) (amount d) (phone d) (email d)
    (pin d) (transaction_type d) (request_id d) (auto_retry d) (billersCode d)
    (Some n).

(** What [await apiRequest('/users/purchase/', ...)] gives: the parsed body
    ([None] for a [null] body) or a rejection. *)
Definition ApiResult : Type := Completion (option VTPassResponseData) AppError.

(** [content?.transactions && (status === 'delivered' || status === 'successful')] *)
Definition deliveredOrSuccessful (r : VTPassResponseData) : bool :=
  match content r with
  | Some c =>
    match transactions c with
    | Some t => strictEq (status t) "delivered" || strictEq (status t) "successful"
    | None => false
    end
  | None => false
  end.

(** [content?.transactions && status === "failed"] *)
Definition statusFailed (r : VTPassResponseData) : bool :=
  match content r with
  | Some c =>
    match transactions c with
    | Some t => strictEq (status t) "failed"
    | None => false
    end
  | None => false
  end.

(** The [try] block of purchaseService, after [apiRequest] has resolved. *)
Definition purchaseService_try (rawResponse : option VTPassResponseData) : ApiResult :=
  match rawResponse with
  | Some response =>
    if strictEq (code response) "000"
       || strictEq (code response) "01"
       || deliveredOrSuccessful response
    then Returned (Some response)
    else
      match Helpers.response response with
      | Some vtpassResponse =>
        if strictEq (code vtpassResponse) "000"
           || deliveredOrSuccessful vtpassResponse
        then Returned (Some vtpassResponse)
        else if strictEq (code vtpassResponse) "016"
                || strictEq (code vtpassResponse) "010"
                || statusFailed vtpassResponse
        then
          let errorMessage :=
            orDefault (response_description vtpassResponse)
              (orDefault (error_message vtpassResponse)
                 "Transaction failed on VTPass") in
          Thrown (mkAppError "Error" errorMessage false true true
                    (Some vtpassResponse) true)
        else Returned rawResponse
      | None => Returned rawResponse
      end
  | None => Returned rawResponse
  end.

(** The [catch] block of purchaseService: an abort is rethrown as it is,
    any other error is marked as handled and rethrown. *)
Definition purchaseService_catch (error : AppError) : ApiResult :=
  if name error =? "AbortError" then Thrown error
  else Thrown (mkAppError (name error) (message error) (insufficientBalance error)
                 (managedError error) true (responseData error) true).

(** [purchaseService(purchaseData, signal)], as a function of what the
    request to the backend gives. *)
Definition purchaseService (api : ApiResult) : ApiResult :=
  match api with
  | Returned rawResponse =>
    match purchaseService_try rawResponse with
    | Returned r => Returned r
    | Thrown error => purchaseService_catch error
    end
  | Thrown error => purchaseService_catch error
  end.

(** A value found under a [balance] key: by its declared type a text or a
    number; [OtherValue] is anything else the parsed body may hold there
    ([null], a boolean, an object). *)
Inductive StringOrNumber : Type :=
| Str (s : string)
| Num (n : number)
| OtherValue.

(** [data], when it is truthy; [data_balance] is [None] when [data] has no
    [balance] property. *)
Record BalanceData : Type := mkBalanceData {
  data_balance : option StringOrNumber
}.

(** The body of [/users/balance/] as getVTPassBalance reads it. *)
Record BalanceResponse : Type := mkBalanceResponse {
  data : option BalanceData;
  balance : option StringOrNumber
}.

(** [{ balance: number }] *)
Record Balance : Type := mkBalance {
  balance_value : number
}.

Section Balance.

(** [parseFloat], whose rounding to a double is not modelled. *)
Variable parseFloat : string -> number.

(** The [try] block of getVTPassBalance. *)
Definition getVTPassBalance_try
    (api : Completion (option BalanceResponse) AppError) : Completion Balance AppError :=
  match api with
  | Thrown error => Thrown error
  | Returned None => Thrown (typeError "data")
  | Returned (Some typedResponse) =>
    match data typedResponse with
    | Some (mkBalanceData (Some (Str s))) => Returned (mkBalance (parseFloat s))
    | Some (mkBalanceData (Some (Num n))) => Returned (mkBalance n)
    | _ =>
      match balance typedResponse with
      | Some (Num n) => Returned (mkBalance n)
      | Some (Str s) => Returned (mkBalance (parseFloat s))
      | _ => Returned (mkBalance zero)
      end
    end
  end.

(** [getVTPassBalance()]: the [catch] block logs and returns a zero balance. *)
Definition getVTPassBalance
    (api : Completion (option BalanceResponse) AppError) : Completion Balance AppError :=
  match getVTPassBalance_try api with
  | Returned b => Returned b
  | Thrown _ => Returned (mkBalance zero)
  end.

End Balance.

End Api.

(** ** The VTPass context *)

Module VTPassContext.
Import JS Helpers Api.

(** A user-visible text: a template literal whose interpolated numbers are
    kept as they are, [${n}] as [Interp n] and [${n.toFixed(d)}] as
    [ToFixed n d]. *)
Inductive Part : Type :=
| Lit (s : string)
| Interp (n : number)
| ToFixed (n : number) (digits : nat).

Definition Message : Type := list Part.

Definition Text (s : string) : Message := [Lit s].

(** What a handler does besides updating the state of its component. *)
Inductive Effect : Type :=
| ToastSuccess (m : Message)
| ToastError (m : Message)
| ToastInfo (m : Message)
| FetchTransactions
| FetchBalance.

(** [transaction?.status === 'successful' ||
     response?.transaction?.status === 'successful'] *)
Definition isSuccessful (response : VTPassResponseData) : bool :=
  strictEq (match transaction response with
            | Some t => transaction_status t
            | None => None
            end) "successful"
  || strictEq (match Helpers.response response with
               | Some inner =>
                 match transaction inner with
                 | Some t => transaction_status t
                 | None => None
                 end
               | None => None
               end) "successful".

(** The inner [try]/[catch] of makePurchase around purchaseService. *)
Definition makePurchase_inner (api : ApiResult) : ApiResult * list Effect :=
  match purchaseService api with
  | Returned None => (Thrown (typeError "transaction"), [])
  | Returned (Some response) =>
    if isSuccessful response
    then (Returned (Some response),
          [ToastSuccess (Text "Purchase successful!"); FetchTransactions; FetchBalance])
    else (Returned (Some response),
          [ToastInfo (Text "Purchase is being processed. Check transactions for updates.")])
  | Thrown err =>
    if name err =? "AbortError"
    then (Thrown (newError "The purchase request timed out. Please check your network connection and try again."), [])
    else (Thrown err, [])
  end.

(** [makePurchase(purchaseData)] once the request to the backend has
    completed with [api].  The outer [catch] turns every error into an
    error-shaped response. *)
Definition makePurchase_authenticated (api : ApiResult) : ApiResult * list Effect :=
  match makePurchase_inner api with
  | (Returned response, effects) => (Returned response, effects)
  | (Thrown error, effects) =>
    let errorResponse :=
      mkResponse (Some "error")
        (Some (orElse (message error) "Purchase failed"))
        None
        (Some (orElse (message error) "An unknown error occurred"))
        None None None in
    (Returned (Some errorResponse), effects)
  end.

(** [makePurchase(purchaseData)]: without a session no request is sent. *)
Definition makePurchase (isAuthenticated : bool) (api : ApiResult) : ApiResult * list Effect :=
  if isAuthenticated
  then makePurchase_authenticated api
  else (Returned None, [ToastError (Text "You must be logged in to make a purchase")]).

End VTPassContext.

(** ** src/app/dashboard/airtime/page.tsx *)

Module AirtimePage.
Import JS Helpers Api VTPassContext.

(** The component's own extractVTPassErrorMessage, which shadows the
    helper of the same name inside AirtimePage. *)
Definition extractVTPassErrorMessage (responseData : option VTPassResponseData) : string :=
  match responseData with
  | None => "Unknown VTPass error"
  | Some r =>
    if truthy (error_message r) then
      let message := orDefault (error_message r) "" in
      if truthy (suggested_action r)
      then message ++ " " ++ orDefault (suggested_action r) ""
      else message
    else if strictEq (code r) "016" then
      if strictEq (transactionsField status r) "failed"
      then "Transaction failed: " ++ orDefault (response_description r) "Unknown reason"
           ++ ". Please try again or contact support."
      else orDefault (response_description r) "Transaction failed on VTPass"
    else if strictEq (code r) "014" then
      "Insufficient funds at the provider. Please try again later or contact support."
    else if strictEq (code r) "009" then
      "Duplicate transaction detected. Please check if your previous transaction was successful before trying again."
    else orDefault (response_description r) "Error processing transaction"
  end.

(** The [useState] cells that the purchase and retry handlers read or write. *)
Record State : Type := mkState {
  isPurchasing : bool;
  retryCount : nat;
  transactionFailed : bool;
  errorMessage : string;
  transactionSuccessful : bool;
  failedTransaction : option PurchaseData
}.

Definition initialState : State := mkState false 0 false "" false None.

(** [clearFailedState()] *)
Definition clearFailedState (st : State) : State :=
  mkState (isPurchasing st) 0 false "" (transactionSuccessful st) None.

(** The text of the success toast. *)
Definition successMessage (response : VTPassResponseData) (purchaseData : PurchaseData) : Message :=
  if truthy (transactionsField product_name response)
  then Text ("Successfully purchased " ++ orDefault (transactionsField product_name response) "")
  else [Lit "Successfully purchased ₦"; Interp (amount purchaseData);
        Lit (" airtime for " ++ phone purchaseData)].

(** [handlePurchaseWithData(purchaseData)] from the point where
    [await makePurchase(purchaseData)] has completed with [made].  On
    success the form fields are emptied as well; they are not part of
    [State]. *)
Definition handlePurchaseWithData (st : State) (purchaseData : PurchaseData)
    (made : ApiResult) : State * list Effect :=
  match made with
  | Returned response =>
    let failed :=
      let errorMessage := extractVTPassErrorMessage response in
      (mkState false (retryCount st) true errorMessage
         (transactionSuccessful st) (Some (withRetryCount purchaseData 0)),
       [ToastError (Text errorMessage)]) in
    match response with
    | Some r =>
      if isVTPassSuccess response
      then (mkState false (retryCount st) (transactionFailed st) (errorMessage st)
              true (failedTransaction st),
            [ToastSuccess (successMessage r purchaseData); FetchBalance])
      else failed
    | None => failed
    end
  | Thrown error =>
    let errorMessage :=
      if insufficientBalance error
      then "Insufficient balance to complete this transaction."
      else match responseData error with
           | Some _ => extractVTPassErrorMessage (responseData error)
           | None => orElse (message error) "Failed to complete purchase. Please try again."
           end in
    (mkState false (retryCount st) true errorMessage
       (transactionSuccessful st) (failedTransaction st),
     [ToastError (Text errorMessage)])
  end.

(** What the form validation at the head of handlePurchase finds. *)
Inductive Form : Type :=
| FormIncomplete
| NetworkNotFound
| InvalidAmount
| InsufficientBalance (amountValue balance : number)
| FormValid (serviceID : string) (amountValue : number)
    (phoneNumber email pin : string) (autoRetry : bool).

(** The synchronous part of [handlePurchase()]: the new state, the toasts,
    and the purchase it goes on to send, if any. *)
Definition handlePurchase (st : State) (form : Form) (env : Entropy)
    : State * list Effect * option PurchaseData :=
  match form with
  | FormIncomplete =>
    (st, [ToastError (Text "Please fill all required fields")], None)
  | NetworkNotFound =>
    (mkState false (retryCount st) (transactionFailed st) (errorMessage st)
       (transactionSuccessful st) (failedTransaction st), [], None)
  | InvalidAmount =>
    (st, [ToastError (Text "Please enter a valid amount (minimum ₦50)")], None)
  | InsufficientBalance amountValue balance =>
    (st, [ToastError [Lit "Insufficient balance. Required: ₦"; ToFixed amountValue 2;
                      Lit ", Available: ₦"; ToFixed balance 2]], None)
  | FormValid serviceID amountValue phoneNumber email pin autoRetry =>
    let st := clearFailedState st in
    let st := mkState true (retryCount st) (transactionFailed st) (errorMessage st)
                (transactionSuccessful st) (failedTransaction st) in
    let uniqueRequestId := generateUniqueRequestId (Some "air") env in
    let purchaseData :=
      mkPurchaseData serviceID None amountValue phoneNumber email pin "airtime"
        (Some uniqueRequestId) (Some autoRetry) None None in
    (st, [], Some purchaseData)
  end.

(** The synchronous part of [handleRetryTransaction()]. *)
Definition handleRetryTransaction (st : State) (env : Entropy)
    : State * option PurchaseData :=
  match failedTransaction st with
  | None => (st, None)
  | Some failed =>
    let uniqueRequestId := generateUniqueRequestId (Some "air-retry") env in
    let retryData :=
      withRetryCount (withRequestId failed uniqueRequestId) (retryCount st + 1) in
    (mkState true (retryCount st + 1) false ""
       (transactionSuccessful st) (failedTransaction st),
     Some retryData)
  end.

(** [disabled] of the purchase button, as far as the handlers' state goes
    (the form fields being filled is part of [Form]). *)
Definition purchaseDisabled (st : State) : bool := isPurchasing st.

(** The retry button is rendered inside [{transactionFailed && ...}] with
    [disabled={retryCount >= 3 || isPurchasing}]. *)
Definition retryDisabled (st : State) : bool :=
  negb (transactionFailed st) || (3 <=? retryCount st)%nat || isPurchasing st.

(** The component together with what it has put on the network. *)
Record Page : Type := mkPage {
  ui : State;
  inFlight : list PurchaseData;
  attempts : list PurchaseData;
  effects : list Effect
}.

Definition initialPage : Page := mkPage initialState [] [] [].

Inductive Event : Type :=
| ClickPurchase (form : Form) (env : Entropy)
| ClickRetry (env : Entropy)
| Response (n : nat) (api : ApiResult).

(** [handlePurchaseWithData(purchaseData)] up to its [await]: with a session
    the request goes out and the handler waits; without one makePurchase
    returns [null] at once. *)
Definition send (isAuthenticated : bool) (st : State) (purchaseData : PurchaseData)
    (p : Page) (attempts : list PurchaseData) (toasts : list Effect) : Page :=
  if isAuthenticated
  then mkPage st (inFlight p ++ [purchaseData]) (purchaseData :: attempts)
         (effects p ++ toasts)
  else
    let '(made, e1) := makePurchase false (Returned None) in
    let '(st', e2) := handlePurchaseWithData st purchaseData made in
    mkPage st' (inFlight p) attempts (effects p ++ toasts ++ e1 ++ e2).

(** One event of the UI loop.  A click on a disabled button does nothing;
    [attempts] collects the requests sent since handlePurchase last reset
    the retry state. *)
Definition step (isAuthenticated : bool) (p : Page) (e : Event) : Page :=
  match e with
  | ClickPurchase form env =>
    if purchaseDisabled (ui p) then p
    else
      match handlePurchase (ui p) form env with
      | (st, toasts, Some purchaseData) =>
        send isAuthenticated st purchaseData p [] toasts
      | (st, toasts, None) =>
        mkPage st (inFlight p) (attempts p) (effects p ++ toasts)
      end
  | ClickRetry env =>
    if retryDisabled (ui p) then p
    else
      match handleRetryTransaction (ui p) env with
      | (st, Some retryData) => send isAuthenticated st retryData p (attempts p) []
      | (st, None) => mkPage st (inFlight p) (attempts p) (effects p)
      end
  | Response n api =>
    match nth_error (inFlight p) n with
    | Some purchaseData =>
      let '(made, e1) := makePurchase true api in
      let '(st, e2) := handlePurchaseWithData (ui p) purchaseData made in
      mkPage st (removeNth n (inFlight p)) (attempts p) (effects p ++ e1 ++ e2)
    | None => p
    end
  end.

Definition run (isAuthenticated : bool) (p : Page) (events : list Event) : Page :=
  fold_left (step isAuthenticated) events p.

End AirtimePage.

(** ** The data bundle screen (DataBundlePage) *)

Module DataPage.
Import JS Helpers Api VTPassContext.

Record State : Type := mkState {
  isPurchasing : bool;
  retryCount : nat;
  transactionFailed : bool;
  errorMessage : string;
  transactionSuccessful : bool;
  failedMessage : string;
  failedTransaction : option PurchaseData
}.

Definition initialState : State := mkState false 0 false "" false "" None.

(** [clearFailedState()], the handler of the Dismiss button. *)
Definition clearFailedState (st : State) : State :=
  mkState (isPurchasing st) 0 false "" (transactionSuccessful st)
    (failedMessage st) (failedTransaction st).

Definition successMessage (response : VTPassResponseData) (purchaseData : PurchaseData) : Message :=
  if truthy (transactionsField product_name response)
  then Text ("Successfully purchased " ++ orDefault (transactionsField product_name response) "")
  else [Lit "Successfully purchased "; Interp (amount purchaseData); Lit " data bundle"].

(** [handlePurchaseWithData(purchaseData)] from the point where
    [await makePurchase(purchaseData)] has completed with [made].  The
    success test is written out in the component. *)
Definition handlePurchaseWithData (st : State) (purchaseData : PurchaseData)
    (made : ApiResult) : State * list Effect :=
  match made with
  | Returned response =>
    let failed :=
      let errorText := Helpers.extractVTPassErrorMessage response in
      (mkState false (retryCount st) true (errorMessage st)
         (transactionSuccessful st) errorText (Some (withRetryCount purchaseData 0)),
       [ToastError (Text errorText)]) in
    match response with
    | Some r =>
      if strictEq (code r) "000"
         || strictEq (code r) "01"
         || (truthy (response_description r)
             && optIncludes (response_description r) "SUCCESSFUL")
      then (mkState false (retryCount st) (transactionFailed st) (errorMessage st)
              true (failedMessage st) (failedTransaction st),
            ToastSuccess (successMessage r purchaseData)
            :: (if truthy (transactionsField tx_amount r) then [FetchBalance] else []))
      else failed
    | None => failed
    end
  | Thrown error =>
    let errorText :=
      if insufficientBalance error
      then "Insufficient balance to complete this transaction."
      else match responseData error with
           | Some _ => Helpers.extractVTPassErrorMessage (responseData error)
           | None => orElse (message error) "Failed to complete purchase. Please try again."
           end in
    (mkState false (retryCount st) true (errorMessage st)
       (transactionSuccessful st) errorText (failedTransaction st),
     [ToastError (Text errorText)])
  end.

(** What handlePurchase finds in the form: one of its validation toasts,
    a declined [window.confirm], or the purchase to make. *)
Inductive Form : Type :=
| FormRejected (toast : Message)
| NotConfirmed
| FormValid (serviceID variation_code : string) (price : number)
    (phoneNumber email pin : string).

(** The synchronous part of [handlePurchase()].  It writes no state: in
    particular [isPurchasing] is never set to [true] in this component. *)
Definition handlePurchase (st : State) (form : Form) (env : Entropy)
    : State * list Effect * option PurchaseData :=
  match form with
  | FormRejected toast => (st, [ToastError toast], None)
  | NotConfirmed => (st, [], None)
  | FormValid serviceID variation_code price phoneNumber email pin =>
    let requestId := generateUniqueRequestId (Some "data") env in
    (st, [],
     Some (mkPurchaseData serviceID (Some variation_code) price phoneNumber email pin
             "data" (Some requestId) None None None))
  end.

(** What handleRetryTransaction finds in the form. *)
Inductive RetryForm : Type :=
| BundleNotFound
| BundleFound (serviceID variation_code : string) (price : number)
    (phoneNumber email pin : string).

(** The synchronous part of [handleRetryTransaction()]; the request id is
    built in place. *)
Definition handleRetryTransaction (st : State) (form : RetryForm) (env : Entropy)
    : State * list Effect * option PurchaseData :=
  let st := mkState (isPurchasing st) (retryCount st) false ""
              (transactionSuccessful st) (failedMessage st) (failedTransaction st) in
  match form with
  | BundleNotFound => (st, [ToastError (Text "Bundle not found for retry")], None)
  | BundleFound serviceID variation_code price phoneNumber email pin =>
    let requestId :=
      "data-" ++ numberToString (dateNow env) ++ "-retry-"
      ++ numberToString (N.of_nat (retryCount st))
      ++ substring (mathRandom36 env) 2 7 in
    let purchaseData :=
      mkPurchaseData serviceID (Some variation_code) price phoneNumber email pin
        "data" (Some requestId) (Some true) None None in
    (mkState (isPurchasing st) (retryCount st + 1) (transactionFailed st)
       (errorMessage st) (transactionSuccessful st) (failedMessage st) None,
     [], Some purchaseData)
  end.

Definition purchaseDisabled (st : State) : bool := isPurchasing st.

(** The retry and Dismiss buttons are rendered inside
    [{transactionFailed && ...}]; retry has
    [disabled={isPurchasing || retryCount >= 3}]. *)
Definition retryDisabled (st : State) : bool :=
  negb (transactionFailed st) || isPurchasing st || (3 <=? retryCount st)%nat.

Record Page : Type := mkPage {
  ui : State;
  inFlight : list PurchaseData;
  sent : list PurchaseData;
  effects : list Effect
}.

Definition initialPage : Page := mkPage initialState [] [] [].

Inductive Event : Type :=
| ClickPurchase (form : Form) (env : Entropy)
| ClickRetry (form : RetryForm) (env : Entropy)
| ClickDismiss
| Response (n : nat) (api : ApiResult).

Definition send (isAuthenticated : bool) (st : State) (purchaseData : PurchaseData)
    (p : Page) (toasts : list Effect) : Page :=
  if isAuthenticated
  then mkPage st (inFlight p ++ [purchaseData]) (purchaseData :: sent p)
         (effects p ++ toasts)
  else
    let '(made, e1) := makePurchase false (Returned None) in
    let '(st', e2) := handlePurchaseWithData st purchaseData made in
    mkPage st' (inFlight p) (sent p) (effects p ++ toasts ++ e1 ++ e2).

(** One event of the UI loop; [sent] collects every request put on the
    network, latest first. *)
Definition step (isAuthenticated : bool) (p : Page) (e : Event) : Page :=
  match e with
  | ClickPurchase form env =>
    if purchaseDisabled (ui p) then p
    else
      match handlePurchase (ui p) form env with
      | (st, toasts, Some purchaseData) => send isAuthenticated st purchaseData p toasts
      | (st, toasts, None) => mkPage st (inFlight p) (sent p) (effects p ++ toasts)
      end
  | ClickRetry form env =>
    if retryDisabled (ui p) then p
    else
      match handleRetryTransaction (ui p) form env with
      | (st, toasts, Some purchaseData) => send isAuthenticated st purchaseData p toasts
      | (st, toasts, None) => mkPage st (inFlight p) (sent p) (effects p ++ toasts)
      end
  | ClickDismiss =>
    if transactionFailed (ui p)
    then mkPage (clearFailedState (ui p)) (inFlight p) (sent p) (effects p)
    else p
  | Response n api =>
    match nth_error (inFlight p) n with
    | Some purchaseData =>
      let '(made, e1) := makePurchase true api in
      let '(st, e2) := handlePurchaseWithData (ui p) purchaseData made in
      mkPage st (removeNth n (inFlight p)) (sent p) (effects p ++ e1 ++ e2)
    | None => p
    end
  end.

Definition run (isAuthenticated : bool) (p : Page) (events : list Event) : Page :=
  fold_left (step isAuthenticated) events p.

End DataPage.

(** ** src/app/dashboard/electricity/page.tsx *)

Module ElectricityPage.
Import JS Helpers Api VTPassContext.

Record State : Type := mkState {
  isPurchasing : bool;
  transactionSuccessful : bool;
  transactionFailed : bool;
  errorMessage : string;
  failedMessage : string;
  failedTransaction : option PurchaseData
}.

Definition initialState : State := mkState false false false "" "" None.

(** [resetForm()], behind "Make Another Payment" and "Start Over". *)
Definition resetForm (st : State) : State :=
  mkState (isPurchasing st) false false "" "" None.

(** [refreshBalance()]: the context's fetchBalance, then a toast. *)
Definition refreshBalance : list Effect :=
  [FetchBalance; ToastSuccess (Text "Balance refreshed")].

(** The [catch] block shared by handlePurchase and handleRetry. *)
Definition handleError (st : State) (error : AppError) : State * list Effect :=
  (mkState false (transactionSuccessful st) true (message error)
     (failedMessage st) (failedTransaction st),
   [ToastError (Text (message error))]).

(** [handlePurchase()] from the point where [await makePurchase(purchaseData)]
    has completed with [made]; the object kept for a retry repeats the
    fields of [purchaseData].  The customer details shown on success are
    not part of [State]. *)
Definition handlePurchase_resume (st : State) (purchaseData : PurchaseData)
    (made : ApiResult) : State * list Effect :=
  match made with
  | Returned response =>
    if isVTPassSuccess response
    then (mkState false true (transactionFailed st) (errorMessage st)
            (failedMessage st) (failedTransaction st),
          ToastSuccess (Text "Payment successful!") :: refreshBalance)
    else
      let errorMsg := Helpers.extractVTPassErrorMessage response in
      (mkState false (transactionSuccessful st) true (errorMessage st)
         errorMsg (Some purchaseData),
       [ToastError (Text (orElse errorMsg "Payment failed. Please try again."))])
  | Thrown error => handleError st error
  end.

(** [handleRetry()] from the point where [await makePurchase(retryData)]
    has completed with [made]. *)
Definition handleRetry_resume (st : State) (made : ApiResult) : State * list Effect :=
  match made with
  | Returned response =>
    if isVTPassSuccess response
    then (mkState false true (transactionFailed st) (errorMessage st)
            (failedMessage st) (failedTransaction st),
          ToastSuccess (Text "Payment successful!") :: refreshBalance)
    else
      let errorMsg := Helpers.extractVTPassErrorMessage response in
      (mkState false (transactionSuccessful st) true (errorMessage st)
         errorMsg (failedTransaction st),
       [ToastError (Text (orElse errorMsg "Retry failed. Please try again."))])
  | Thrown error => handleError st error
  end.

(** What handlePurchase finds in the form: one of its validation toasts or
    the payment to make. *)
Inductive Form : Type :=
| FormRejected (toast : string)
| FormValid (serviceID variationCode meterNumber : string) (numAmount : number)
    (phoneNumber email pin : string).

(** The synchronous part of [handlePurchase()]. *)
Definition handlePurchase (st : State) (form : Form) (env : Entropy)
    : State * list Effect * option PurchaseData :=
  match form with
  | FormRejected toast => (st, [ToastError (Text toast)], None)
  | FormValid serviceID variationCode meterNumber numAmount phoneNumber email pin =>
    let purchaseRequestId := generateUniqueRequestId (Some "electricity") env in
    (mkState true false false "" "" (failedTransaction st), [],
     Some (mkPurchaseData serviceID (Some variationCode) numAmount phoneNumber email
             pin "electricity" (Some purchaseRequestId) None (Some meterNumber) None))
  end.

(** The synchronous part of [handleRetry()]. *)
Definition handleRetry (st : State) (env : Entropy) : State * option PurchaseData :=
  match failedTransaction st with
  | None => (st, None)
  | Some failed =>
    let retryRequestId := generateUniqueRequestId (Some "elect-retry") env in
    (mkState true (transactionSuccessful st) false "" (failedMessage st)
       (failedTransaction st),
     Some (withRequestId failed retryRequestId))
  end.

(** The form, with its purchase button, is rendered only when neither the
    success card nor the error card is. *)
Definition purchaseDisabled (st : State) : bool :=
  transactionSuccessful st || transactionFailed st || isPurchasing st.

(** The retry button sits on the error card with
    [disabled={!failedTransaction}]: no count of retries is kept. *)
Definition retryDisabled (st : State) : bool :=
  transactionSuccessful st || negb (transactionFailed st)
  || match failedTransaction st with Some _ => false | None => true end.

Inductive Origin : Type := FromPurchase | FromRetry.

Record Page : Type := mkPage {
  ui : State;
  inFlight : list (Origin * PurchaseData);
  attempts : list PurchaseData;
  effects : list Effect
}.

Definition initialPage : Page := mkPage initialState [] [] [].

Inductive Event : Type :=
| ClickPurchase (form : Form) (env : Entropy)
| ClickRetry (env : Entropy)
| ClickReset
| Response (n : nat) (api : ApiResult).

Definition resume (st : State) (origin : Origin) (purchaseData : PurchaseData)
    (made : ApiResult) : State * list Effect :=
  match origin with
  | FromPurchase => handlePurchase_resume st purchaseData made
  | FromRetry => handleRetry_resume st made
  end.

Definition send (isAuthenticated : bool) (st : State) (origin : Origin)
    (purchaseData : PurchaseData) (p : Page) (attempts : list PurchaseData)
    (toasts : list Effect) : Page :=
  if isAuthenticated
  then mkPage st (inFlight p ++ [(origin, purchaseData)]) (purchaseData :: attempts)
         (effects p ++ toasts)
  else
    let '(made, e1) := makePurchase false (Returned None) in
    let '(st', e2) := resume st origin purchaseData made in
    mkPage st' (inFlight p) attempts (effects p ++ toasts ++ e1 ++ e2).

(** One event of the UI loop; [attempts] collects the requests sent since
    handlePurchase was last run on a valid form. *)
Definition step (isAuthenticated : bool) (p : Page) (e : Event) : Page :=
  match e with
  | ClickPurchase form env =>
    if purchaseDisabled (ui p) then p
    else
      match handlePurchase (ui p) form env with
      | (st, toasts, Some purchaseData) =>
        send isAuthenticated st FromPurchase purchaseData p [] toasts
      | (st, toasts, None) =>
        mkPage st (inFlight p) (attempts p) (effects p ++ toasts)
      end
  | ClickRetry env =>
    if retryDisabled (ui p) then p
    else
      match handleRetry (ui p) env with
      | (st, Some retryData) =>
        send isAuthenticated st FromRetry retryData p (attempts p) []
      | (st, None) => mkPage st (inFlight p) (attempts p) (effects p)
      end
  | ClickReset =>
    if transactionSuccessful (ui p) || transactionFailed (ui p)
    then mkPage (resetForm (ui p)) (inFlight p) (attempts p) (effects p)
    else p
  | Response n api =>
    match nth_error (inFlight p) n with
    | Some (origin, purchaseData) =>
      let '(made, e1) := makePurchase true api in
      let '(st, e2) := resume (ui p) origin purchaseData made in
      mkPage st (removeNth n (inFlight p)) (attempts p) (effects p ++ e1 ++ e2)
    | None => p
    end
  end.

Definition run (isAuthenticated : bool) (p : Page) (events : list Event) : Page :=
  fold_left (step isAuthenticated) events p.

End ElectricityPage.

(** ** What the screens make of a completed request *)

Module Flow.
Import JS Helpers Api VTPassContext.

(** The test on which every screen branches once makePurchase has returned:
    [true] leads to the success toast, [false] to the error card. *)
Definition presentedAsSuccess (isAuthenticated : bool) (api : ApiResult) : bool :=
  match fst (makePurchase isAuthenticated api) with
  | Returned response => isVTPassSuccess response
  | Thrown _ => false
  end.

(** Whether makePurchase itself refreshes the balance: its test
    [isSuccessful] reads the object that purchaseService returns to it, which
    is the body of the backend or the [response] wrapped in that body. *)
Definition refreshedByContext (api : ApiResult) : bool :=
  match purchaseService api with
  | Returned (Some response) => isSuccessful response
  | _ => false
  end.

(** The success markers that purchaseService looks for at the top of the
    body and in the [response] it wraps, and its failure marks. *)
Definition bodyMarked (body : VTPassResponseData) : bool :=
  strictEq (code body) "000" || strictEq (code body) "01" || deliveredOrSuccessful body.

Definition wrappedMarked (wrapped : VTPassResponseData) : bool :=
  strictEq (code wrapped) "000" || deliveredOrSuccessful wrapped.

Definition wrappedFailed (wrapped : VTPassResponseData) : bool :=
  strictEq (code wrapped) "016" || strictEq (code wrapped) "010" || statusFailed wrapped.

(** The number of calls of the context's fetchBalance among [effects]. *)
Fixpoint countFetchBalance (effects : list Effect) : nat :=
  match effects with
  | [] => 0
  | FetchBalance :: rest => S (countFetchBalance rest)
  | _ :: rest => countFetchBalance rest
  end.

(** The airtime screen from the completion of the request to the end of
    handlePurchaseWithData: the new state and everything that was done. *)
Definition airtimeOutcome (st : AirtimePage.State) (purchaseData : PurchaseData)
    (api : ApiResult) : AirtimePage.State * list Effect :=
  let '(made, e1) := makePurchase true api in
  let '(st', e2) := AirtimePage.handlePurchaseWithData st purchaseData made in
  (st', (e1 ++ e2)%list).

(** [{code: c}] *)
Definition withCode (c : string) : VTPassResponseData :=
  mkResponse (Some c) None None None None None None.

(** [{content: {transactions: {status: s}}}] *)
Definition withStatus (s : string) : VTPassResponseData :=
  mkResponse None None (Some (mkContent (Some (mkTransactions (Some s) None None))))
    None None None None.

(** [{response: inner}] *)
Definition nested (inner : VTPassResponseData) : VTPassResponseData :=
  mkResponse None None None None None None (Some inner).

(** A field that is absent ([undefined]) or empty. *)
Definition blank (empty : bool) : option string :=
  if empty then Some "" else None.

(** The characters of which the decimal text of a timestamp is made. *)
Definition isDigit (c : ascii) : bool :=
  ((48 <=? nat_of_ascii c) && (nat_of_ascii c <=? 57))%nat.

Fixpoint allDigits (s : string) : bool :=
  match s with
  | EmptyString => true
  | String c rest => isDigit c && allDigits rest
  end.

(** The five characters that generateUniqueRequestId keeps of a random draw. *)
Definition randomStr (env : Entropy) : string :=
  substring (mathRandom36 env) 2 7.

(** What holds of the airtime screen after every event: the requests of
    the current purchase number at most one more than the retries counted,
    the count stops at three, and a request is pending only while
    [isPurchasing] is set, and then only one. *)
Definition airtimeInvariant (p : AirtimePage.Page) : Prop :=
  length (AirtimePage.attempts p) <= AirtimePage.retryCount (AirtimePage.ui p) + 1
  /\ AirtimePage.retryCount (AirtimePage.ui p) <= 3
  /\ (AirtimePage.inFlight p = []
      \/ (AirtimePage.isPurchasing (AirtimePage.ui p) = true
          /\ exists d, AirtimePage.inFlight p = [d])).








(** Inputs for the runs below: a body with the failure code 016, a random
    draw, and a filled form for each screen. *)
Definition failedBody : ApiResult := Returned (Some (withCode "016")).

Definition draw (timestamp : N) : Entropy := mkEntropy timestamp "0.4fzyo82mvyr".

Definition airtimeForm : AirtimePage.Form :=
  AirtimePage.FormValid "mtn" (Finite false 100 0) "08030000000"
    "user@example.com" "1234" false.

Definition dataForm : DataPage.Form :=
  DataPage.FormValid "mtn-data" "MTN1GB-7days" (Finite false 250 0) "08030000000"
    "user@example.com" "1234".

Definition electricityForm : ElectricityPage.Form :=
  ElectricityPage.FormValid "ikeja-electric" "prepaid" "1111111111111"
    (Finite false 1000 0) "08030000000" "user@example.com" "1234".


(** Airtime: the same with three different clock readings. *)
Definition airtimeTwoRetries : list AirtimePage.Event :=
  [AirtimePage.ClickPurchase airtimeForm (draw 1700000000000);
   AirtimePage.Response 0 failedBody;
   AirtimePage.ClickRetry (draw 1700000004000);
   AirtimePage.Response 0 failedBody;
   AirtimePage.ClickRetry (draw 1700000009000)].

(** Data: a purchase that fails and a retry, at two different times. *)
Definition dataOneRetry : list DataPage.Event :=
  [DataPage.ClickPurchase dataForm (draw 1700000000000);
   DataPage.Response 0 failedBody;
   DataPage.ClickRetry
     (DataPage.BundleFound "mtn-data" "MTN1GB-7days" (Finite false 250 0)
        "08030000000" "user@example.com" "1234")
     (draw 1700000004000)].

(** Electricity: a payment that fails and five retries, each answered with
    a failure before the next. *)
Definition electricityFiveRetries : list ElectricityPage.Event :=
  [ElectricityPage.ClickPurchase electricityForm (draw 1700000000000);
   ElectricityPage.Response 0 failedBody;
   ElectricityPage.ClickRetry (draw 1700000004000);
   ElectricityPage.Response 0 failedBody;
   ElectricityPage.ClickRetry (draw 1700000008000);
   ElectricityPage.Response 0 failedBody;
   ElectricityPage.ClickRetry (draw 1700000012000);
   ElectricityPage.Response 0 failedBody;
   ElectricityPage.ClickRetry (draw 1700000016000);
   ElectricityPage.Response 0 failedBody;
   ElectricityPage.ClickRetry (draw 1700000020000)].

(** Electricity: a payment that fails and [n] retries at the times
    [clock 1 .. clock n], each retry answered with a failure. *)
Definition electricityRetries (clock : nat -> N) (n : nat) : list ElectricityPage.Event :=
  [ElectricityPage.ClickPurchase electricityForm (draw (clock 0));
   ElectricityPage.Response 0 failedBody]
  ++ flat_map (fun k => [ElectricityPage.ClickRetry (draw (clock k));
                         ElectricityPage.Response 0 failedBody])
       (seq 1 n).

(** Data: the purchase button clicked twice, no answer in between. *)
Definition dataDoubleClick : list DataPage.Event :=
  [DataPage.ClickPurchase dataForm (draw 1700000000000);
   DataPage.ClickPurchase dataForm (draw 1700000000400)].

End Flow.

(** ** src/lib/api.ts: apiRequest *)

Module ApiRequest.
Import JS.

(** A parsed JSON value.  The fields of an object are its properties, each
    key once. *)
#[warnings="-register-all"] Inductive Json : Type :=
| JNull
| JBool (b : bool)
| JNumber (n : number)
| JString (s : string)
| JArray (items : list Json)
| JObject (fields : list (string * Json)).

(** The error objects of apiRequest: an [Error] with the [response] and
    [insufficientBalance] properties the function attaches. *)
Record ApiError : Type := mkApiError {
  name : string;
  message : string;
  insufficientBalance : bool;
  response : option (nat * Json)
}.

(** What [fetch] gives when it resolves: the status, and the body as text
    and as [JSON.parse] reads it ([None] when it is not JSON). *)
Record Response : Type := mkResponse {
  status : nat;
  bodyText : string;
  bodyJson : option Json
}.

(** [response.ok] *)
Definition ok (r : Response) : bool :=
  (200 <=? status r)%nat && (status r <=? 299)%nat.

(** [`${response.status}`] *)
Definition showStatus (status : nat) : string := numberToString (N.of_nat status).

(** Truthiness of a parsed value. *)
Definition truthyJson (j : Json) : bool :=
  match j with
  | JNull => false
  | JBool b => b
  | JNumber NaN => false
  | JNumber (Finite _ 0%N _) => false
  | JNumber _ => true
  | JString s => negb (s =? "")
  | JArray _ => true
  | JObject _ => true
  end.

Fixpoint lookupField (fields : list (string * Json)) (key : string) : option Json :=
  match fields with
  | [] => None
  | (k, v) :: rest => if k =? key then Some v else lookupField rest key
  end.

(** The body of a response can be read once: [bodyUsed] is threaded through
    the reads, and errors through the [try] blocks. *)
Definition M (A : Type) : Type := bool -> Completion A ApiError * bool.

Definition ret {A} (a : A) : M A := fun bodyUsed => (Returned a, bodyUsed).

Definition throw {A} (e : ApiError) : M A := fun bodyUsed => (Thrown e, bodyUsed).

Definition bind {A B} (m : M A) (k : A -> M B) : M B :=
  fun bodyUsed =>
    match m bodyUsed with
    | (Returned a, bodyUsed') => k a bodyUsed'
    | (Thrown e, bodyUsed') => (Thrown e, bodyUsed')
    end.

(** [try { body } catch (e) { handler(e) }] *)
Definition tryCatch {A} (body : M A) (handler : ApiError -> M A) : M A :=
  fun bodyUsed =>
    match body bodyUsed with
    | (Returned a, bodyUsed') => (Returned a, bodyUsed')
    | (Thrown e, bodyUsed') => handler e bodyUsed'
    end.

Notation "x <- m ;; k" := (bind m (fun x => k))
  (at level 61, m at next level, right associativity).

(** The errors of the platform.  Their texts are the engine's; none of them
    leaves apiRequest as it is. *)
Definition bodyUsedError : ApiError :=
  mkApiError "TypeError" "body stream already read" false None.

Definition syntaxError : ApiError :=
  mkApiError "SyntaxError" "Unexpected token in JSON" false None.

Definition nullPropertyError (key : string) : ApiError :=
  mkApiError "TypeError" ("Cannot read properties of null (reading '" ++ key ++ "')")
    false None.

(** [await response.json()] *)
Definition json (r : Response) : M Json :=
  fun bodyUsed =>
    if bodyUsed then (Thrown bodyUsedError, true)
    else match bodyJson r with
         | Some j => (Returned j, true)
         | None => (Thrown syntaxError, true)
         end.

(** [await response.text()] *)
Definition text (r : Response) : M string :=
  fun bodyUsed =>
    if bodyUsed then (Thrown bodyUsedError, true)
    else (Returned (bodyText r), true).

(** [j.key]: [undefined] is [None]; reading a property of [null] throws. *)
Definition getProperty (j : Json) (key : string) : M (option Json) :=
  match j with
  | JNull => throw (nullPropertyError key)
  | JObject fields => ret (lookupField fields key)
  | _ => ret None
  end.

Section Platform.

(** [String(value)] for a value that is neither a text nor [null]. *)
Variable stringOf : Json -> string.

(** The first group of [/<title>(.*?)<\/title>/] in a text, if it matches. *)
Variable titleOf : string -> option string.

(** [safeString(value)] *)
Definition safeString (value : option Json) : string :=
  match value with
  | Some (JString s) => s
  | Some JNull => ""
  | None => ""
  | Some j => stringOf j
  end.

(** The message of [new Error(a || b || ... || fallback)]. *)
Fixpoint firstTruthy (values : list (option Json)) (fallback : string) : string :=
  match values with
  | [] => fallback
  | Some j :: rest =>
    if truthyJson j
    then match j with JString s => s | _ => stringOf j end
    else firstTruthy rest fallback
  | None :: rest => firstTruthy rest fallback
  end.

Definition requestFailed (status : nat) : ApiError :=
  mkApiError "Error" ("Request failed with status " ++ showStatus status) false
    (Some (status, JObject [("error", JString ("HTTP " ++ showStatus status))])).

Definition sessionExpired : ApiError :=
  mkApiError "Error" "Session expired. Please login again." false
    (Some (401, JObject [("detail",
                           JString "Authentication credentials were not provided.")])).

Definition networkError : ApiError :=
  mkApiError "Error" "Network error. Please check your internet connection." false
    (Some (0, JObject [("error", JString "Network connection failed")])).

Definition timeoutError : ApiError :=
  mkApiError "Error" "Request timed out. Please try again." false
    (Some (0, JObject [("error", JString "Request timed out")])).

(** The [if (response.status === 400)] block: its [catch] is empty. *)
Definition insufficientBalanceBlock (r : Response) : M unit :=
  tryCatch
    (errorData <- json r ;;
     if truthyJson errorData then
       detail <- getProperty errorData "detail" ;;
       if includes (safeString detail) "insufficient balance"
          || includes (safeString detail) "Insufficient funds"
       then throw (mkApiError "Error"
                     (firstTruthy [detail]
                        "Insufficient balance to complete this transaction")
                     true (Some (status r, errorData)))
       else ret tt
     else ret tt)
    (fun _ => ret tt).

(** The [try] that builds an error from the JSON body. *)
Definition jsonErrorBlock (r : Response) : M Json :=
  errorData <- json r ;;
  detail <- getProperty errorData "detail" ;;
  error <- getProperty errorData "error" ;;
  message <- getProperty errorData "message" ;;
  throw (mkApiError "Error"
           (firstTruthy [detail; error; message]
              ("Request failed with status " ++ showStatus (status r)))
           false (Some (status r, errorData))).

(** The [try] that builds an error from the body as text. *)
Definition textErrorBlock (r : Response) : M Json :=
  textError <- text r ;;
  if includes textError "<!DOCTYPE html>" || includes textError "<html>"
  then throw (mkApiError "Error"
                (match titleOf textError with
                 | Some title => title
                 | None => "Server error (HTTP " ++ showStatus (status r) ++ ")"
                 end)
                false
                (Some (status r, JObject [("error", JString "HTML response received")])))
  else throw (mkApiError "Error"
                (orElse textError ("Request failed with status " ++ showStatus (status r)))
                false
                (Some (status r, JObject [("error", JString textError)]))).

(** The [if (!response.ok)] block below the 401 case. *)
Definition notOk (r : Response) : M Json :=
  _ <- (if (status r =? 400)%nat then insufficientBalanceBlock r else ret tt) ;;
  tryCatch (jsonErrorBlock r)
    (fun _ => tryCatch (textErrorBlock r)
                (fun _ => throw (requestFailed (status r)))).

(** The last [try]/[catch]: the body of a successful response. *)
Definition okBody (r : Response) : M Json :=
  tryCatch (json r)
    (fun _ =>
       if (200 <=? status r)%nat && (status r <? 300)%nat
       then ret (JObject [("success", JBool true)])
       else throw (mkApiError "Error" "Invalid response format" false
                     (Some (status r,
                            JObject [("error", JString "Invalid response format")])))).

(** What [await fetch(...)] gives; a throw of the statements before it
    (reading the stored tokens) counts as a rejection. *)
Inductive FetchOutcome : Type :=
| Rejected (e : ApiError)
| Responded (r : Response).

(** The outer [catch]: what it throws for the error it caught. *)
Definition outerCatch (error : ApiError) : ApiError :=
  if (name error =? "TypeError") && includes (message error) "NetworkError"
  then networkError
  else if name error =? "AbortError" then timeoutError
  else match response error with
       | Some _ => error
       | None =>
         mkApiError "Error" (orElse (message error) "Unknown error") false
           (Some (0, JObject [("error",
                                JString (orElse (message error) "Unknown error"))]))
       end.

(** The outer [try] block.  It completes with a value, throws into the
    outer [catch], or returns the promise of the repeated call, whose
    rejection the [catch] does not see. *)
Definition tryBlock (isAuthenticated : bool) (fetched : FetchOutcome)
    (refreshed : Completion bool ApiError) (retried : Completion Json ApiError)
    : Completion (Completion Json ApiError) ApiError :=
  match fetched with
  | Rejected e => Thrown e
  | Responded r =>
    if negb (ok r) then
      if (status r =? 401)%nat && isAuthenticated then
        match refreshed with
        | Returned true => Returned retried
        | Returned false => Thrown sessionExpired
        | Thrown e => Thrown e
        end
      else
        match fst (notOk r false) with
        | Returned data => Returned (Returned data)
        | Thrown e => Thrown e
        end
    else
      match fst (okBody r false) with
      | Returned data => Returned (Returned data)
      | Thrown e => Thrown e
      end
  end.

(** [apiRequest(endpoint, method, data, isAuthenticated, signal)] as a
    function of what [fetch] gives, of what [refreshToken()] gives after a
    401, and of what the repeated call gives after a successful refresh. *)
Definition apiRequest (isAuthenticated : bool) (fetched : FetchOutcome)
    (refreshed : Completion bool ApiError) (retried : Completion Json ApiError)
    : Completion Json ApiError :=
  match tryBlock isAuthenticated fetched refreshed retried with
  | Returned result => result
  | Thrown e => Thrown (outerCatch e)
  end.

End Platform.

(** The error as purchaseService and the screens read it: without
    [response], which they do not look at. *)
Definition toAppError (e : ApiError) : Api.AppError :=
  Api.mkAppError (name e) (message e) (insufficientBalance e) false false None false.

End ApiRequest.

(** ** The route middleware *)

Module Middleware.
Import JS.

(** What the middleware reads of a request: the path and three cookies. *)
Record Request : Type := mkRequest {
  pathname : string;
  access_token : option string;
  auth_tokens : option string;
  pin_set : option string
}.

Inductive Decision : Type :=
| Redirect (path : string)
| Next.

(** [safeIncludes(haystack, needle)] *)
Definition safeIncludes (haystack : option string) (needle : string) : bool :=
  if truthy haystack then optIncludes haystack needle else false.

(** [s.startsWith(p)] *)
Definition startsWith (s p : string) : bool := String.prefix p s.

Definition authPaths : list string :=
  ["/auth/login"; "/auth/register"; "/auth/forgot-password"; "/auth/setpin"].

Definition publicPaths : list string := "/" :: authPaths.

(** [!!accessToken || !!authTokens] *)
Definition isAuthenticated (r : Request) : bool :=
  truthy (access_token r) || truthy (auth_tokens r).

(** [pin_set === 'true'] *)
Definition hasPinSet (r : Request) : bool := strictEq (pin_set r) "true".

Definition isPublicPath (pathnameStr : string) : bool :=
  existsb (String.eqb pathnameStr) publicPaths
  || startsWith pathnameStr "/api/"
  || safeIncludes (Some pathnameStr) "/_next/"
  || safeIncludes (Some pathnameStr) "/favicon.ico".

(** [middleware(request)] *)
Definition middleware (r : Request) : Decision :=
  let pathnameStr := pathname r in
  if negb (isPublicPath pathnameStr) && negb (isAuthenticated r)
  then Redirect "/auth/login"
  else if isAuthenticated r && negb (hasPinSet r)
          && negb (safeIncludes (Some pathnameStr) "/auth/setpin")
          && negb (isPublicPath pathnameStr)
  then Redirect "/auth/setpin"
  else if isAuthenticated r && existsb (String.eqb (pathname r)) authPaths
  then if (pathname r =? "/auth/setpin") && negb (hasPinSet r)
       then Next
       else Redirect "/dashboard"
  else Next.

(** The request the browser makes after a redirect: the same cookies, the
    new path. *)
Definition follow (r : Request) (path : string) : Request :=
  mkRequest path (access_token r) (auth_tokens r) (pin_set r).

(** The page reached after at most [hops] redirects, if one is reached. *)
Fixpoint landing (hops : nat) (r : Request) : option string :=
  match middleware r with
  | Next => Some (pathname r)
  | Redirect path =>
    match hops with
    | 0 => None
    | S hops => landing hops (follow r path)
    end
  end.

End Middleware.

(** ** The airtime screen: recent phone numbers *)

Module RecentNumbers.

(** [NetworkProvider]; its field [image] is [provider_image] here, apart from
    the [image] of a recent number. *)
Record NetworkProvider : Type := mkNetworkProvider {
  id : string;
  name : string;
  provider_image : string;
  serviceID : string
}.

Definition defaultNetworks : list NetworkProvider :=
  [mkNetworkProvider "mtn" "MTN" "/providers/mtn.jpg" "mtn";
   mkNetworkProvider "airtel" "AIRTEL" "/providers/airtel.png" "airtel";
   mkNetworkProvider "9mobile" "9MOBILE" "/providers/9mobile.png" "etisalat";
   mkNetworkProvider "glo" "GLO" "/providers/glo.png" "glo"].

Record RecentPhoneNumber : Type := mkRecent {
  number : string;
  network : string;
  image : string
}.

(** What [localStorage.getItem('recentAirtimeNumbers')] holds: nothing (or
    the empty text), a text that [JSON.parse] or the list operations reject,
    or the list that was stored. *)
Inductive Stored : Type :=
| Absent
| Unusable
| Items (recents : list RecentPhoneNumber).

(** The stored item and the [recentNumbers] state of the component. *)
Record Recents : Type := mkRecents {
  stored : Stored;
  recentNumbers : list RecentPhoneNumber
}.

(** [recents.filter(r => r.number !== number)], [unshift], [slice(0, 5)] *)
Definition pushRecent (newRecent : RecentPhoneNumber) (recents : list RecentPhoneNumber)
    : list RecentPhoneNumber :=
  firstn 5 (newRecent
            :: filter (fun r => negb (number r =? number newRecent)) recents).

(** [saveRecentPhoneNumber(number, networkId)]: an unknown network returns
    at once, and the [catch] block leaves everything as it was. *)
Definition saveRecentPhoneNumber (networks : list NetworkProvider) (st : Recents)
    (phone networkId : string) : Recents :=
  match find (fun n => id n =? networkId) networks with
  | None => st
  | Some found =>
    let newRecent := mkRecent phone networkId (provider_image found) in
    match stored st with
    | Unusable => st
    | Absent => let recents := pushRecent newRecent [] in mkRecents (Items recents) recents
    | Items existing =>
      let recents := pushRecent newRecent existing in mkRecents (Items recents) recents
    end
  end.

(** The transactions as loadAirtimeData reads them. *)
Record Transaction : Type := mkTransaction {
  transaction_type : option string;
  service_id : string;
  phone_number : option string
}.

(** [c.toLowerCase()] on the letters A to Z; the sources use it only to
    compare with an all-ASCII word. *)
Definition lowerAscii (c : ascii) : ascii :=
  let n := nat_of_ascii c in
  if (65 <=? n)%nat && (n <=? 90)%nat then ascii_of_nat (n + 32) else c.

Fixpoint toLowerCase (s : string) : string :=
  match s with
  | EmptyString => EmptyString
  | String c rest => String (lowerAscii c) (toLowerCase rest)
  end.

(** [l.findIndex(p)], [None] for -1. *)
Fixpoint findIndex {A} (p : A -> bool) (l : list A) : option nat :=
  match l with
  | [] => None
  | x :: rest => if p x then Some 0 else option_map S (findIndex p rest)
  end.

(** [l.filter((item, index) => f(index, item))], counting from [start]. *)
Fixpoint filterIndexed {A} (f : nat -> A -> bool) (start : nat) (l : list A) : list A :=
  match l with
  | [] => []
  | x :: rest =>
    if f start x then x :: filterIndexed f (S start) rest
    else filterIndexed f (S start) rest
  end.

Definition isIndex (found : option nat) (index : nat) : bool :=
  match found with
  | Some i => (i =? index)%nat
  | None => false
  end.

(** The recent numbers that loadAirtimeData derives from the transactions. *)
Definition recentFromTransactions (transactionsData : list Transaction)
    : list RecentPhoneNumber :=
  let airtimeTransactions :=
    firstn 5
      (filter (fun tx =>
                 match transaction_type tx with
                 | Some t => toLowerCase t =? "airtime"
                 | None => false
                 end) transactionsData) in
  let phoneNumbers :=
    filter (fun item => negb (number item =? ""))
      (map (fun tx =>
              let net :=
                match find (fun n => serviceID n =? service_id tx) defaultNetworks with
                | Some n => n
                | None => hd (mkNetworkProvider "" "" "" "") defaultNetworks
                end in
              mkRecent (match phone_number tx with
                        | Some p => p
                        | None => ""
                        end)
                (id net) (provider_image net))
         airtimeTransactions) in
  let uniqueNumbers :=
    firstn 5
      (filterIndexed
         (fun index item =>
            isIndex (findIndex (fun t => number t =? number item) phoneNumbers) index)
         0 phoneNumbers) in
  uniqueNumbers.

End RecentNumbers.

(** ** The VTPass context: fetchBalance *)

Module BalanceContext.
Import JS Api VTPassContext.

(** What getVTPassBalance returns, read through the context's
    VTPassBalanceResponse: [code] and [data] are never there. *)
Record VTPassBalanceResponse : Type := mkVTPassBalanceResponse {
  code : option string;
  data : option string;
  balance : option number
}.

Definition ofBalance (b : Balance) : VTPassBalanceResponse :=
  mkVTPassBalanceResponse None None (Some (balance_value b)).

Record State : Type := mkState {
  balanceText : option string;
  isLoadingBalance : bool
}.

Section Numbers.

(** [n.toString()], whose digits are not modelled. *)
Variable numberToText : number -> string.

(** [fetchBalance()] from the point where [await getVTPassBalance()] has
    completed with [got]; [data] stands for [response.data.balance]. *)
Definition fetchBalance (isAuthenticated : bool) (st : State)
    (got : Completion VTPassBalanceResponse AppError) : State * list Effect :=
  if negb isAuthenticated then (st, [])
  else
    match got with
    | Returned response =>
      match strictEq (code response) "success", data response, balance response with
      | true, Some text, _ => (mkState (Some text) false, [])
      | _, _, Some n => (mkState (Some (numberToText n)) false, [])
      | _, _, None => (mkState (Some "0.00") false, [])
      end
    | Thrown _ =>
      (mkState (Some "0.00") false, [ToastError (Text "Failed to fetch balance")])
    end.

(** fetchBalance on top of getVTPassBalance, as a function of what the
    request to [/users/balance/] gives. *)
Definition refresh (parseFloat : string -> number) (isAuthenticated : bool) (st : State)
    (api : Completion (option BalanceResponse) AppError) : State * list Effect :=
  fetchBalance isAuthenticated st
    (match getVTPassBalance parseFloat api with
     | Returned b => Returned (ofBalance b)
     | Thrown e => Thrown e
     end).

End Numbers.

End BalanceContext.

(** ** src/lib/vtpass-helpers: variation codes and service ids *)

Module VariationCodes.

(** [c.toUpperCase()] and [c.toLowerCase()] on the letters of ASCII. *)
Definition upperAscii (c : ascii) : ascii :=
  let n := nat_of_ascii c in
  if (97 <=? n)%nat && (n <=? 122)%nat then ascii_of_nat (n - 32) else c.

Fixpoint toUpperCase (s : string) : string :=
  match s with
  | EmptyString => EmptyString
  | String c rest => String (upperAscii c) (toUpperCase rest)
  end.

(** The texts on which this model of [toUpperCase] is the function of
    JavaScript: those of ASCII characters. *)
Fixpoint isAscii (s : string) : bool :=
  match s with
  | EmptyString => true
  | String c rest => (nat_of_ascii c <? 128)%nat && isAscii rest
  end.

(** [VTPASS_VARIATION_CODES] *)
Definition VTPASS_VARIATION_CODES
    : list (string * list (string * list (string * string))) :=
  [("MTN", [("DATA", [("500MB-1Day", "mtn-daily-500mb");
                      ("1GB-7Days", "mtn-weekly-1gb");
                      ("2GB-30Days", "mtn-monthly-2gb");
                      ("3GB-30Days", "mtn-monthly-3gb");
                      ("5GB-30Days", "mtn-monthly-5gb");
                      ("10GB-30Days", "mtn-monthly-10gb")])]);
   ("AIRTEL", [("DATA", [("750MB", "airtel-750mb");
                         ("1.5GB", "airtel-1.5gb");
                         ("3GB", "airtel-3gb");
                         ("4.5GB", "airtel-4.5gb");
                         ("10GB", "airtel-10gb")])]);
   ("GLO", [("DATA", [("1GB", "glo-1gb");
                      ("2GB", "glo-2gb");
                      ("5GB", "glo-5gb");
                      ("10GB", "glo-10gb")])]);
   ("9MOBILE", [("DATA", [("1GB", "etisalat-1gb");
                          ("2.5GB", "etisalat-2.5gb");
                          ("11.5GB", "etisalat-11.5gb")])])].

Inductive Service : Type := AIRTIME | DATA.

Definition serviceText (service : Service) : string :=
  match service with
  | AIRTIME => "AIRTIME"
  | DATA => "DATA"
  end.

(** [service.toLowerCase()] *)
Definition serviceLower (service : Service) : string :=
  match service with
  | AIRTIME => "airtime"
  | DATA => "data"
  end.

(** [VTPASS_SERVICE_IDS] *)
Definition VTPASS_SERVICE_IDS : list (string * list (string * string)) :=
  [("MTN", [("AIRTIME", "mtn"); ("DATA", "mtn-data")]);
   ("AIRTEL", [("AIRTIME", "airtel"); ("DATA", "airtel-data")]);
   ("GLO", [("AIRTIME", "glo"); ("DATA", "glo-data")]);
   ("9MOBILE", [("AIRTIME", "etisalat"); ("DATA", "etisalat-data")])].

(** The properties every object literal inherits from [Object.prototype]:
    a read of one of these keys gives a function or an object, not
    [undefined]. *)
Definition objectPrototypeKeys : list string :=
  ["constructor"; "__proto__"; "hasOwnProperty"; "isPrototypeOf";
   "propertyIsEnumerable"; "toLocaleString"; "toString"; "valueOf";
   "__defineGetter__"; "__defineSetter__"; "__lookupGetter__"; "__lookupSetter__"].

(** What [object[key]] gives on an object literal. *)
Inductive Property (A : Type) : Type :=
| Own (value : A)
| Inherited (key : string)
| Undefined.
Arguments Own {A} value.
Arguments Inherited {A} key.
Arguments Undefined {A}.

Fixpoint assoc {A} (fields : list (string * A)) (key : string) : option A :=
  match fields with
  | [] => None
  | (k, v) :: rest => if k =? key then Some v else assoc rest key
  end.

Definition getProperty {A} (fields : list (string * A)) (key : string) : Property A :=
  match assoc fields key with
  | Some v => Own v
  | None =>
    if existsb (String.eqb key) objectPrototypeKeys then Inherited key else Undefined
  end.

(** What getCorrectVariationCode returns: a text, or the inherited value it
    found under [oldCode]. *)
Inductive Resolved : Type :=
| Code (code : string)
| InheritedValue (key : string).

(** [getCorrectVariationCode(networkId, service, oldCode)]; the type of
    [service] admits 'DATA' only. *)
Definition getCorrectVariationCode (networkId oldCode : string) : Resolved :=
  let networkKey := toUpperCase networkId in
  match getProperty VTPASS_VARIATION_CODES networkKey with
  | Own services =>
    match getProperty services (serviceText DATA) with
    | Own codes =>
      match getProperty codes oldCode with
      | Own code => if code =? "" then Code oldCode else Code code
      | Inherited key => InheritedValue key
      | Undefined => Code oldCode
      end
    | _ => Code oldCode
    end
  | _ => Code oldCode
  end.

(** [getCorrectServiceId(networkId, service)] *)
Definition getCorrectServiceId (networkId : string) (service : Service) : string :=
  let networkKey := toUpperCase networkId in
  let fallback := networkId ++ "-" ++ serviceLower service in
  match getProperty VTPASS_SERVICE_IDS networkKey with
  | Own services =>
    match getProperty services (serviceText service) with
    | Own serviceId => if serviceId =? "" then fallback else serviceId
    | _ => fallback
    end
  | _ => fallback
  end.

End VariationCodes.

(** ** src/lib/api.ts and the VTPass context: the services of a type *)

Module Services.
Import JS ApiRequest VTPassContext.

(** [j.key] for a value that is not [null]; [undefined] is [None]. *)
Definition property (j : Json) (key : string) : option Json :=
  match j with
  | JObject fields => lookupField fields key
  | _ => None
  end.

(** Truthiness of a value that may be [undefined]. *)
Definition truthyValue (v : option Json) : bool :=
  match v with
  | Some j => truthyJson j
  | None => false
  end.

(** The responses that getVTPassServices makes up itself. *)
Definition softResponse (code response_description : string) : Json :=
  JObject [("code", JString code);
           ("response_description", JString response_description);
           ("content", JObject [("message", JString "Using default bundles");
                                ("useDefaults", JBool true)])].

(** The inner [try] of getVTPassServices with its [catch], from the point
    where [await apiRequest(...)] has completed with [api]. *)
Definition getVTPassServices_inner (api : Completion Json ApiError)
    : Completion Json ApiError :=
  match api with
  | Returned rawResponse =>
    if negb (truthyJson rawResponse) || negb (truthyValue (property rawResponse "content"))
    then Returned (softResponse "error" "Invalid response from VTPass")
    else Returned rawResponse
  | Thrown err =>
    if name err =? "AbortError"
    then Returned (softResponse "timeout" "Request timed out")
    else Returned (softResponse "error" (orElse (message err) "Connection error"))
  end.

(** [getVTPassServices(serviceType)] *)
Definition getVTPassServices (api : Completion Json ApiError) : Completion Json ApiError :=
  match getVTPassServices_inner api with
  | Returned response => Returned response
  | Thrown error => Returned (softResponse "error" (orElse (message error) "Unknown error"))
  end.

(** The [services] state of the context and its loading flag. *)
Record State : Type := mkState {
  services : Json;
  isLoadingServices : bool
}.

(** [response.code === "success"] *)
Definition codeIsSuccess (response : Json) : bool :=
  match property response "code" with
  | Some (JString s) => s =? "success"
  | _ => false
  end.

(** [response.response?.content] *)
Definition nestedContent (response : Json) : option Json :=
  match property response "response" with
  | Some JNull => None
  | Some nested => property nested "content"
  | None => None
  end.

(** [fetchServices(serviceType)] from the point where
    [await getVTPassServices(serviceType)] has completed with [got]: what it
    returns, the state it leaves and its toasts. *)
Definition fetchServices (isAuthenticated : bool) (st : State)
    (got : Completion Json ApiError) : Json * State * list Effect :=
  if negb isAuthenticated then (JArray [], st, [])
  else
    let failed :=
      (JArray [], mkState (JArray []) false, [ToastError (Text "Failed to fetch services")]) in
    match got with
    | Returned JNull => failed
    | Returned response =>
      if codeIsSuccess response && truthyValue (property response "content")
      then match property response "content" with
           | Some content => (content, mkState content false, [])
           | None => (JArray [], mkState (JArray []) false, [])
           end
      else if truthyValue (nestedContent response)
      then match nestedContent response with
           | Some content => (content, mkState content false, [])
           | None => (JArray [], mkState (JArray []) false, [])
           end
      else (JArray [], mkState (JArray []) false, [])
    | Thrown _ => failed
    end.

End Services.

(** ** src/lib/api.ts: setPin, and the cookies the middleware reads *)

Module AuthContext.
Import JS ApiRequest.

(** The cookies of the browser that the middleware reads. *)
Record Cookies : Type := mkCookies {
  access_token : option string;
  auth_tokens : option string;
  pin_set : option string
}.

(** The request for [path] that the browser makes with its cookies. *)
Definition request (path : string) (cookies : Cookies) : Middleware.Request :=
  Middleware.mkRequest path (access_token cookies) (auth_tokens cookies) (pin_set cookies).

(** [typedResponse && typedResponse.success] *)
Definition succeeded (typedResponse : Json) : bool :=
  truthyJson typedResponse && Services.truthyValue (Services.property typedResponse "success").

(** [setPin(pinData)] from the point where [await apiRequest(...)] has
    completed with [api]: what it returns and the cookies it leaves. *)
Definition setPin (cookies : Cookies) (api : Completion Json ApiError) : Json * Cookies :=
  match api with
  | Returned typedResponse =>
    (typedResponse,
     if succeeded typedResponse
     then mkCookies (access_token cookies) (auth_tokens cookies) (Some "true")
     else cookies)
  | Thrown error =>
    (JObject [("success", JBool false);
              ("message",
               JString (orElse (message error) "Failed to set PIN. Please try again."))],
     cookies)
  end.

(** The cookies after [logout()] of the auth context: the access token
    cookie is expired, the others are left. *)
Definition logout (cookies : Cookies) : Cookies :=
  mkCookies None (auth_tokens cookies) (pin_set cookies).

End AuthContext.

(** ** The cable TV screen: what a payment and its retry send *)

Module CableTvPage.
Import JS Helpers Api VTPassContext.

(** The value of a field of a request body. *)
Inductive Value : Type :=
| VText (s : string)
| VNumber (n : number).

(** An object literal sent as the body of a request: its fields in order. *)
Definition Body : Type := list (string * Value).

(** [body[key]] *)
Fixpoint get (body : Body) (key : string) : option Value :=
  match body with
  | [] => None
  | (k, v) :: rest => if k =? key then Some v else get rest key
  end.

(** [{...body, key: v}] *)
Fixpoint set (key : string) (v : Value) (body : Body) : Body :=
  match body with
  | [] => [(key, v)]
  | (k, w) :: rest => if k =? key then (k, v) :: rest else (k, w) :: set key v rest
  end.

Record State : Type := mkState {
  isPurchasing : bool;
  transactionSuccessful : bool;
  transactionFailed : bool;
  errorMessage : string;
  failedMessage : string;
  failedTransaction : option Body
}.

Definition initialState : State := mkState false false false "" "" None.

(** [resetForm()], behind "Make Another Payment" and "Start Over". *)
Definition resetForm (st : State) : State :=
  mkState (isPurchasing st) false false "" "" None.

(** [refreshBalance()]: the context's fetchBalance, then a toast. *)
Definition refreshBalance : list Effect :=
  [FetchBalance; ToastSuccess (Text "Balance refreshed")].

(** What handlePurchase has read from the form once its checks have passed;
    [smartCard] is [smartCardNumber.trim()]. *)
Record Payment : Type := mkPayment {
  serviceID : string;
  variationCode : string;
  smartCard : string;
  price : number;
  phoneNumber : string;
  email : string;
  pin : string
}.

(** The [purchaseData] literal of handlePurchase. *)
Definition purchaseDataOf (pay : Payment) (purchaseRequestId : string) : Body :=
  [("service_id", VText (serviceID pay));
   ("serviceID", VText (serviceID pay));
   ("variation_code", VText (variationCode pay));
   ("variationCode", VText (variationCode pay));
   ("billersCode", VText (smartCard pay));
   ("billers_code", VText (smartCard pay));
   ("biller_code", VText (smartCard pay));
   ("smart_card_number", VText (smartCard pay));
   ("smartCardNumber", VText (smartCard pay));
   ("amount", VNumber (price pay));
   ("price", VNumber (price pay));
   ("phone", VText (phoneNumber pay));
   ("email", VText (email pay));
   ("pin", VText (pin pay));
   ("transaction_pin", VText (pin pay));
   ("subscription_type", VText "change");
   ("transaction_type", VText "tv-subscription");
   ("type", VText "tv-subscription");
   ("request_id", VText purchaseRequestId)].

(** The literal that handlePurchase keeps for a retry. *)
Definition failedTransactionOf (pay : Payment) (purchaseRequestId : string) : Body :=
  [("service_id", VText (serviceID pay));
   ("variation_code", VText (variationCode pay));
   ("billersCode", VText (smartCard pay));
   ("amount", VNumber (price pay));
   ("phone", VText (phoneNumber pay));
   ("email", VText (email pay));
   ("pin", VText (pin pay));
   ("transaction_type", VText "tv-subscription");
   ("request_id", VText purchaseRequestId)].

(** What handlePurchase finds in the form: one of its validation toasts or
    the payment to make. *)
Inductive Form : Type :=
| FormRejected (toast : string)
| FormValid (pay : Payment).

(** The synchronous part of [handlePurchase()]: the state it leaves, its
    toasts, and the payment with the request id it has drawn. *)
Definition handlePurchase (st : State) (form : Form) (env : Entropy)
    : State * list Effect * option (Payment * string) :=
  match form with
  | FormRejected toast => (st, [ToastError (Text toast)], None)
  | FormValid pay =>
    let purchaseRequestId := generateUniqueRequestId (Some "cable-tv") env in
    (mkState true false false "" "" (failedTransaction st), [],
     Some (pay, purchaseRequestId))
  end.

(** The [catch] block shared by handlePurchase and handleRetry. *)
Definition handleError (st : State) (error : AppError) : State * list Effect :=
  (mkState false (transactionSuccessful st) true (message error)
     (failedMessage st) (failedTransaction st),
   [ToastError (Text (message error))]).

(** [handlePurchase()] from the point where [await makePurchase(purchaseData)]
    has completed with [made].  The customer details shown on success are
    not part of [State]. *)
Definition handlePurchase_resume (st : State) (pay : Payment) (purchaseRequestId : string)
    (made : ApiResult) : State * list Effect :=
  match made with
  | Returned response =>
    if isVTPassSuccess response
    then (mkState false true (transactionFailed st) (errorMessage st)
            (failedMessage st) (failedTransaction st),
          ToastSuccess (Text "Payment successful!") :: refreshBalance)
    else
      let errorMsg := Helpers.extractVTPassErrorMessage response in
      (mkState false (transactionSuccessful st) true (errorMessage st)
         errorMsg (Some (failedTransactionOf pay purchaseRequestId)),
       [ToastError (Text (orElse errorMsg "Payment failed. Please try again."))])
  | Thrown error => handleError st error
  end.

(** The synchronous part of [handleRetry()]: the state it leaves and the
    body it sends. *)
Definition handleRetry (st : State) (env : Entropy) : State * option Body :=
  match failedTransaction st with
  | None => (st, None)
  | Some failed =>
    let retryRequestId := generateUniqueRequestId (Some "cable-retry") env in
    (mkState true (transactionSuccessful st) false "" (failedMessage st)
       (failedTransaction st),
     Some (set "request_id" (VText retryRequestId) failed))
  end.

(** [handleRetry()] from the point where [await makePurchase(retryData)]
    has completed with [made]. *)
Definition handleRetry_resume (st : State) (made : ApiResult) : State * list Effect :=
  match made with
  | Returned response =>
    if isVTPassSuccess response
    then (mkState false true (transactionFailed st) (errorMessage st)
            (failedMessage st) (failedTransaction st),
          ToastSuccess (Text "Payment successful!") :: refreshBalance)
    else
      let errorMsg := Helpers.extractVTPassErrorMessage response in
      (mkState false (transactionSuccessful st) true (errorMessage st)
         errorMsg (failedTransaction st),
       [ToastError (Text (orElse errorMsg "Retry failed. Please try again."))])
  | Thrown error => handleError st error
  end.

(** The retry button sits on the error card with
    [disabled={!failedTransaction}]. *)
Definition retryDisabled (st : State) : bool :=
  transactionSuccessful st || negb (transactionFailed st)
  || match failedTransaction st with Some _ => false | None => true end.

End CableTvPage.

(** ** Invariants of the screens and inputs for the properties below *)

Module Extra.
Import JS Helpers Api VTPassContext.

(** What a purchase request asks for: every field but the request id and
    the retry count. *)
Definition purchased (d : PurchaseData) :=
  (service_id d, variation_code d, amount d, phone d, email d, pin d,
   transaction_type d, auto_retry d, billersCode d).

(** On the airtime screen [isPurchasing] is set exactly while one request
    is pending. *)
Definition airtimePending (p : AirtimePage.Page) : Prop :=
  (AirtimePage.isPurchasing (AirtimePage.ui p) = true
   /\ exists d, AirtimePage.inFlight p = [d])
  \/ (AirtimePage.isPurchasing (AirtimePage.ui p) = false
      /\ AirtimePage.inFlight p = []).

(** On the airtime screen the requests of the current purchase, the pending
    request and the purchase kept for a retry all ask for the same thing. *)
Definition airtimeSamePurchase (p : AirtimePage.Page) : Prop :=
  exists base,
    (forall d, In d (AirtimePage.attempts p) -> purchased d = base)
    /\ (forall d, In d (AirtimePage.inFlight p) -> purchased d = base)
    /\ (forall d, AirtimePage.failedTransaction (AirtimePage.ui p) = Some d ->
                  purchased d = base).

(** On the electricity screen a request is pending only while the form is
    shown with [isPurchasing] set, and then only one. *)
Definition electricityPending (p : ElectricityPage.Page) : Prop :=
  ElectricityPage.inFlight p = []
  \/ (ElectricityPage.isPurchasing (ElectricityPage.ui p) = true
      /\ ElectricityPage.transactionFailed (ElectricityPage.ui p) = false
      /\ ElectricityPage.transactionSuccessful (ElectricityPage.ui p) = false
      /\ exists x, ElectricityPage.inFlight p = [x]).

(** What writes the recent numbers of the airtime screen: loadAirtimeData,
    once the transactions have come ([None] when what came is not a list,
    which leaves the numbers as they are), and saveRecentPhoneNumber. *)
Inductive RecentChange : Type :=
| TransactionsLoaded (transactionsData : option (list RecentNumbers.Transaction))
| PurchaseSaved (phone networkId : string).

Definition recentChange (networks : list RecentNumbers.NetworkProvider)
    (st : RecentNumbers.Recents) (change : RecentChange) : RecentNumbers.Recents :=
  match change with
  | TransactionsLoaded (Some transactionsData) =>
    RecentNumbers.mkRecents (RecentNumbers.stored st)
      (RecentNumbers.recentFromTransactions transactionsData)
  | TransactionsLoaded None => st
  | PurchaseSaved phone networkId =>
    RecentNumbers.saveRecentPhoneNumber networks st phone networkId
  end.

(** The stored item and the numbers on screen after [changes], in turn. *)
Definition recentChanges (networks : list RecentNumbers.NetworkProvider)
    (st : RecentNumbers.Recents) (changes : list RecentChange) : RecentNumbers.Recents :=
  fold_left (recentChange networks) changes st.

(** A list of at most five recent numbers, no phone number twice. *)
Definition fiveDistinct (recents : list RecentNumbers.RecentPhoneNumber) : Prop :=
  length recents <= 5 /\ NoDup (map RecentNumbers.number recents).

(** The numbers on screen and the stored ones are each at most five, no
    number twice, and the storage is usable. *)
Definition recentsKept (st : RecentNumbers.Recents) : Prop :=
  fiveDistinct (RecentNumbers.recentNumbers st)
  /\ match RecentNumbers.stored st with
     | RecentNumbers.Items recents => fiveDistinct recents
     | RecentNumbers.Absent => True
     | RecentNumbers.Unusable => False
     end.

(** The result of apiRequest as purchaseService awaits it; [decode] is the
    cast of the parsed body to the response type. *)
Definition asApiResult (decode : ApiRequest.Json -> option VTPassResponseData)
    (c : Completion ApiRequest.Json ApiRequest.ApiError) : ApiResult :=
  match c with
  | Returned j => Returned (decode j)
  | Thrown e => Thrown (ApiRequest.toAppError e)
  end.

(** The error-shaped response that makePurchase builds from a message. *)
Definition errorResponse (message : string) : VTPassResponseData :=
  mkResponse (Some "error") (Some message) None (Some message) None None None.

(** Inputs for the instances below. *)
Definition quoted (s : string) : string :=
  String (ascii_of_nat 34) s ++ String (ascii_of_nat 34) "".

Definition badRequest : ApiRequest.Response :=
  ApiRequest.mkResponse 400
    ("{" ++ quoted "detail" ++ ": " ++ quoted "insufficient balance" ++ "}")
    (Some (ApiRequest.JObject
             [("detail", ApiRequest.JString "insufficient balance")])).

Definition emptyOk : ApiRequest.Response := ApiRequest.mkResponse 200 "" None.

Definition aborted : ApiRequest.ApiError :=
  ApiRequest.mkApiError "AbortError" "The user aborted a request." false None.

Definition samplePurchase : PurchaseData :=
  mkPurchaseData "mtn" None (Finite false 100 0) "08030000000" "user@example.com"
    "1234" "airtime" (Some "air-1700000000000-4fzyo") (Some false) None None.

End Extra.

(** * Properties *)

Import JS Helpers Api VTPassContext Flow.

(** ** Strings *)

Lemma prefix_append (t s : string) :
  String.prefix t s = true <-> exists post, s = t ++ post.
Proof.
  revert s; induction t as [|c t IH]; intros s; simpl.
  - split; [intros _; exists s; reflexivity | intros _; destruct s; reflexivity].
  - destruct s as [|c' s].
    + split; [discriminate | intros [post H]; discriminate].
    + simpl. destruct (Ascii.ascii_dec c c') as [->|Hne].
      * rewrite IH. split; intros [post H]; exists post; congruence.
      * split; [discriminate | intros [post H]; congruence].
Qed.

Lemma includes_unfold (s needle : string) :
  includes s needle =
  if String.prefix needle s then true
  else match s with
       | EmptyString => false
       | String _ rest => includes rest needle
       end.
Proof. destruct s; reflexivity. Qed.

Lemma includes_occurs (s needle : string) :
  includes s needle = true <-> exists pre post, s = pre ++ needle ++ post.
Proof.
  induction s as [|c s IH]; rewrite includes_unfold;
    destruct (String.prefix needle _) eqn:Hp.
  - split; [intros _ | reflexivity].
    apply prefix_append in Hp. destruct Hp as [post H]. exists "", post. exact H.
  - split; [discriminate|].
    intros [pre [post H]]. destruct pre; simpl in H.
    + assert (String.prefix needle "" = true) by (apply prefix_append; eauto).
      congruence.
    + discriminate.
  - split; [intros _ | reflexivity].
    apply prefix_append in Hp. destruct Hp as [post H]. exists "", post. exact H.
  - rewrite IH. split.
    + intros [pre [post H]]. exists (String c pre), post. simpl. congruence.
    + intros [pre [post H]]. destruct pre as [|c' pre]; simpl in H.
      * assert (String.prefix needle (String c s) = true)
          by (apply prefix_append; eauto).
        congruence.
      * exists pre, post. congruence.
Qed.

Lemma append_nonempty_l (a b : string) : a <> "" -> a ++ b <> "".
Proof. destruct a; simpl; [congruence | discriminate]. Qed.

Lemma append_cancel_l (p a b : string) : p ++ a = p ++ b -> a = b.
Proof. induction p; simpl; intros H; [exact H | apply IHp; congruence]. Qed.

Lemma truthy_nonempty (o : option string) (d : string) :
  truthy o = true -> orDefault o d <> "".
Proof.
  destruct o as [s|]; simpl; [|discriminate].
  unfold orElse. destruct (s =? "") eqn:E; [discriminate|].
  intros _. apply String.eqb_neq. exact E.
Qed.

Lemma orElse_nonempty (a b : string) : b <> "" -> orElse a b <> "".
Proof.
  unfold orElse. destruct (a =? "") eqn:E; [tauto|].
  intros _. apply String.eqb_neq. exact E.
Qed.

Lemma orDefault_nonempty (o : option string) (d : string) :
  d <> "" -> orDefault o d <> "".
Proof. destruct o; simpl; [apply orElse_nonempty | tauto]. Qed.

Example includes_unsuccessful :
  includes "TRANSACTION UNSUCCESSFUL" "SUCCESSFUL" = true.
Proof. reflexivity. Qed.

Example substring_random : substring "0.4fzyo82mvyr" 2 7 = "4fzyo".
Proof. reflexivity. Qed.

Example generateUniqueRequestId_air :
  generateUniqueRequestId (Some "air") (mkEntropy 1700000000000 "0.4fzyo82mvyr")
  = "air-1700000000000-4fzyo".
Proof. reflexivity. Qed.

(** ** Request ids *)

Lemma string_of_uint_digits (d : Decimal.uint) :
  allDigits (NilEmpty.string_of_uint d) = true.
Proof. induction d; simpl; try rewrite IHd; reflexivity. Qed.

Lemma numberToString_digits (n : N) : allDigits (numberToString n) = true.
Proof. apply string_of_uint_digits. Qed.

Lemma numberToString_inj (n m : N) : numberToString n = numberToString m -> n = m.
Proof.
  unfold numberToString. intros H.
  apply DecimalN.Unsigned.to_uint_inj.
  apply (f_equal NilEmpty.uint_of_string) in H.
  rewrite !NilEmpty.usu in H. congruence.
Qed.

(** A text of digits followed by a dash is split at that dash. *)
Lemma split_at_dash (a c b d : string) :
  allDigits a = true -> allDigits c = true ->
  a ++ "-" ++ b = c ++ "-" ++ d -> a = c /\ b = d.
Proof.
  revert c; induction a as [|x a IH]; intros [|y c] Ha Hc H; simpl in *.
  - split; [reflexivity | congruence].
  - apply andb_prop in Hc. destruct Hc as [Hy _].
    injection H as Hxy _. subst y. discriminate Hy.
  - apply andb_prop in Ha. destruct Ha as [Hx _].
    injection H as Hxy _. subst x. discriminate Hx.
  - apply andb_prop in Ha. destruct Ha as [_ Ha].
    apply andb_prop in Hc. destruct Hc as [_ Hc].
    injection H as Hxy H. destruct (IH c Ha Hc H) as [-> ->].
    split; congruence.
Qed.

(** With the same prefix, two request ids are equal exactly when the clock
    readings and the five random characters are. *)
Lemma generateUniqueRequestId_eq (prefix : option string) (e1 e2 : Entropy) :
  generateUniqueRequestId prefix e1 = generateUniqueRequestId prefix e2
  <-> dateNow e1 = dateNow e2 /\ randomStr e1 = randomStr e2.
Proof.
  unfold generateUniqueRequestId, randomStr. split.
  - intros H. apply append_cancel_l in H. simpl in H. injection H as H.
    apply split_at_dash in H; try apply numberToString_digits.
    destruct H as [Ht Hr]. split; [apply numberToString_inj; exact Ht | exact Hr].
  - intros [Ht Hr]. rewrite Ht, Hr. reflexivity.
Qed.


(** C9, as the code has it: two calls of generateUniqueRequestId with the
    same prefix return the same text exactly when they read the same clock
    value and their random draws agree in the five characters that are kept;
    so the two texts differ as soon as the timestamps differ or those
    characters differ, and not otherwise. *)
Theorem generateUniqueRequestId_distinct_iff (prefix : option string) (e1 e2 : Entropy) :
  generateUniqueRequestId prefix e1 <> generateUniqueRequestId prefix e2
  <-> (dateNow e1 <> dateNow e2 \/ randomStr e1 <> randomStr e2).
Proof.
  rewrite generateUniqueRequestId_eq. split.
  - intros H.
    destruct (N.eq_dec (dateNow e1) (dateNow e2)) as [Ht|Ht]; [|left; exact Ht].
    destruct (string_dec (randomStr e1) (randomStr e2)) as [Hr|Hr]; [|right; exact Hr].
    exfalso. apply H. split; assumption.
  - intros [H|H] [Ht Hr]; contradiction.
Qed.

(** C9 fails as stated: two calls in immediate succession with the same
    prefix, reading the same clock value and drawing two different random
    numbers that agree in their first five base-36 digits, return the same
    text. *)
Lemma generateUniqueRequestId_same_clock_collision :
  mathRandom36 (mkEntropy 1700000000000 "0.4fzyo82mvyr")
  <> mathRandom36 (mkEntropy 1700000000000 "0.4fzyo9k1x3c")
  /\ generateUniqueRequestId (Some "air") (mkEntropy 1700000000000 "0.4fzyo82mvyr")
     = generateUniqueRequestId (Some "air") (mkEntropy 1700000000000 "0.4fzyo9k1x3c").
Proof. split; [discriminate | reflexivity]. Qed.

(** ** The success test and the error messages *)

(** C2: a response whose [response_description] contains SUCCESSFUL passes
    isVTPassSuccess whatever its [code] is, and handlePurchaseWithData of the
    airtime screen then marks the purchase as successful, shows the success
    toast and refreshes the balance. *)
Theorem description_successful_presented_as_success
    (r : VTPassResponseData) (description pre post : string)
    (st : AirtimePage.State) (purchaseData : PurchaseData) :
  response_description r = Some description ->
  description = pre ++ "SUCCESSFUL" ++ post ->
  isVTPassSuccess (Some r) = true
  /\ AirtimePage.handlePurchaseWithData st purchaseData (Returned (Some r))
     = (AirtimePage.mkState false (AirtimePage.retryCount st)
          (AirtimePage.transactionFailed st) (AirtimePage.errorMessage st)
          true (AirtimePage.failedTransaction st),
        [ToastSuccess (AirtimePage.successMessage r purchaseData); FetchBalance]).
Proof.
  intros Hd Hsub.
  assert (Hinc : includes description "SUCCESSFUL" = true)
    by (apply includes_occurs; eauto).
  assert (Hne : (description =? "") = false).
  { apply String.eqb_neq. intros ->.
    destruct pre; simpl in Hsub; discriminate Hsub. }
  assert (Hs : isVTPassSuccess (Some r) = true).
  { unfold isVTPassSuccess. rewrite Hd. simpl. rewrite Hne, Hinc. simpl.
    apply orb_true_r. }
  split; [exact Hs|].
  unfold AirtimePage.handlePurchaseWithData. rewrite Hs. reflexivity.
Qed.

(** C2 at [{code: "016", response_description: "TRANSACTION UNSUCCESSFUL"}]. *)
Lemma description_successful_presented_as_success_witness :
  isVTPassSuccess
    (Some (mkResponse (Some "016") (Some "TRANSACTION UNSUCCESSFUL")
             None None None None None)) = true
  /\ AirtimePage.transactionSuccessful
       (fst (AirtimePage.handlePurchaseWithData AirtimePage.initialState
               (mkPurchaseData "mtn" None (Finite false 100 0) "08030000000"
                  "user@example.com" "1234" "airtime" (Some "air-1-abcde")
                  (Some false) None None)
               (Returned (Some (mkResponse (Some "016")
                                  (Some "TRANSACTION UNSUCCESSFUL")
                                  None None None None None))))) = true.
Proof.
  destruct (description_successful_presented_as_success
              (mkResponse (Some "016") (Some "TRANSACTION UNSUCCESSFUL")
                 None None None None None)
              "TRANSACTION UNSUCCESSFUL" "TRANSACTION UN" ""
              AirtimePage.initialState
              (mkPurchaseData "mtn" None (Finite false 100 0) "08030000000"
                 "user@example.com" "1234" "airtime" (Some "air-1-abcde")
                 (Some false) None None)
              eq_refl eq_refl) as [H1 H2].
  split; [exact H1 | rewrite H2; reflexivity].
Defined.

(** The same through the whole chain: the backend wraps a failed
    transaction whose description reads TRANSACTION UNSUCCESSFUL;
    purchaseService throws it, makePurchase turns the error into a response
    with that description, and the screen presents a success. *)
Example unsuccessful_presented_as_success :
  presentedAsSuccess true
    (Returned (Some (nested (mkResponse (Some "016") (Some "TRANSACTION UNSUCCESSFUL")
                               None None None None None)))) = true.
Proof. reflexivity. Qed.

(** C7: the response [{code: "014"}] fails the success test; the helper
    gives it the insufficient-funds message and the airtime screen its own
    insufficient-funds message, both non-empty and neither the pending
    message; the screens end on their error card with that message. *)
Theorem code_014_is_failed_insufficient_funds
    (st : AirtimePage.State) (st' : ElectricityPage.State) (purchaseData : PurchaseData) :
  let r := withCode "014" in
  isVTPassSuccess (Some r) = false
  /\ presentedAsSuccess true (Returned (Some r)) = false
  /\ Helpers.extractVTPassErrorMessage (Some r)
     = "Insufficient funds in your account. Please add funds and try again."
  /\ AirtimePage.extractVTPassErrorMessage (Some r)
     = "Insufficient funds at the provider. Please try again later or contact support."
  /\ Helpers.extractVTPassErrorMessage (Some r) <> ""
  /\ AirtimePage.extractVTPassErrorMessage (Some r) <> ""
  /\ Helpers.extractVTPassErrorMessage (Some r)
     <> "Transaction is pending. Please wait for confirmation."
  /\ Helpers.extractVTPassErrorMessage (Some r) <> "Transaction completed successfully!"
  /\ airtimeOutcome st purchaseData (Returned (Some r))
     = (AirtimePage.mkState false (AirtimePage.retryCount st) true
          "Insufficient funds at the provider. Please try again later or contact support."
          (AirtimePage.transactionSuccessful st)
          (Some (withRetryCount purchaseData 0)),
        [ToastInfo (Text "Purchase is being processed. Check transactions for updates.");
         ToastError (Text "Insufficient funds at the provider. Please try again later or contact support.")])
  /\ ElectricityPage.handlePurchase_resume st' purchaseData
       (fst (makePurchase true (Returned (Some r))))
     = (ElectricityPage.mkState false (ElectricityPage.transactionSuccessful st') true
          (ElectricityPage.errorMessage st')
          "Insufficient funds in your account. Please add funds and try again."
          (Some purchaseData),
        [ToastError (Text "Insufficient funds in your account. Please add funds and try again.")]).
Proof.
  cbv zeta.
  repeat match goal with |- _ /\ _ => split end;
    try reflexivity; try discriminate.
Qed.

Lemma switchOnCode_nonempty (responseData : option VTPassResponseData) (m : string) :
  m <> "" ->
  match switchOnCode responseData m with
  | Return result => result <> ""
  | Break errorMessage => errorMessage <> ""
  end.
Proof.
  intros Hm. unfold switchOnCode.
  destruct (field code responseData) as [c|]; [|exact Hm].
  repeat match goal with
         | |- context [if ?b then _ else _] => destruct b
         end; try exact Hm; simpl; discriminate.
Qed.

Lemma extractVTPassErrorMessage_nonempty (responseData : option VTPassResponseData) :
  Helpers.extractVTPassErrorMessage responseData <> "".
Proof.
  unfold Helpers.extractVTPassErrorMessage.
  destruct (strictEq _ "000" && _); [discriminate|].
  set (m := if truthy (field error_message responseData) then _ else _).
  assert (Hm : m <> "").
  { subst m.
    destruct (truthy (field error_message responseData)) eqn:E1;
      [apply truthy_nonempty; exact E1|].
    destruct (truthy (field response_description responseData)) eqn:E2;
      [apply truthy_nonempty; exact E2 | discriminate]. }
  pose proof (switchOnCode_nonempty responseData m Hm) as Hs.
  destruct (switchOnCode responseData m) as [result|errorMessage]; [exact Hs|].
  destruct (field suggested_action responseData) as [action|]; [|exact Hs].
  destruct (action =? ""); [exact Hs|].
  apply append_nonempty_l. exact Hs.
Qed.

(** C8: extractVTPassErrorMessage is a total function whose result is never
    the empty text, for a [null] argument as for any object; when [code],
    [response_description], [error_message] and [suggested_action] are all
    absent or empty it returns the generic message. *)
Theorem extractVTPassErrorMessage_total_nonempty :
  (forall responseData, Helpers.extractVTPassErrorMessage responseData <> "")
  /\ Helpers.extractVTPassErrorMessage None = "An error occurred with your transaction."
  /\ Helpers.extractVTPassErrorMessage (Some emptyResponse)
     = "An error occurred with your transaction."
  /\ (forall (c d e a : bool) content transaction inner,
        Helpers.extractVTPassErrorMessage
          (Some (mkResponse (blank c) (blank d) content (blank e) (blank a)
                   transaction inner))
        = "An error occurred with your transaction.").
Proof.
  split; [exact extractVTPassErrorMessage_nonempty|].
  split; [reflexivity|]. split; [reflexivity|].
  intros [] [] [] [] content transaction inner; reflexivity.
Qed.

(** The airtime screen's own extractor is never empty either. *)
Lemma airtime_extractVTPassErrorMessage_nonempty (responseData : option VTPassResponseData) :
  AirtimePage.extractVTPassErrorMessage responseData <> "".
Proof.
  unfold AirtimePage.extractVTPassErrorMessage.
  destruct responseData as [r|]; [|discriminate].
  destruct (truthy (error_message r)) eqn:E1.
  - destruct (truthy (suggested_action r));
      [apply append_nonempty_l|]; apply truthy_nonempty; exact E1.
  - destruct (strictEq (code r) "016").
    + destruct (strictEq _ "failed"); [discriminate|].
      apply orDefault_nonempty; discriminate.
    + destruct (strictEq (code r) "014"); [discriminate|].
      destruct (strictEq (code r) "009"); [discriminate|].
      apply orDefault_nonempty; discriminate.
Qed.

(** ** purchaseService, makePurchase and the success test in a row *)

Lemma makePurchase_returns (isAuthenticated : bool) (api : ApiResult) :
  exists response, fst (makePurchase isAuthenticated api) = Returned response.
Proof.
  unfold makePurchase. destruct isAuthenticated; [|eexists; reflexivity].
  unfold makePurchase_authenticated.
  destruct (makePurchase_inner api) as [[response|error] effects];
    eexists; reflexivity.
Qed.

(** A success code at the top of the body is presented as a success,
    whatever else the body holds. *)
Lemma top_level_code_presented_as_success (r : VTPassResponseData) :
  strictEq (code r) "000" || strictEq (code r) "01" = true ->
  presentedAsSuccess true (Returned (Some r)) = true.
Proof.
  intros H. unfold presentedAsSuccess, makePurchase, makePurchase_authenticated,
    makePurchase_inner, purchaseService, purchaseService_try.
  rewrite H. simpl.
  destruct (isSuccessful r); simpl; rewrite H; reflexivity.
Qed.

(** The nested body [{response: {code: "000"}}] is presented as a success. *)
Example nested_code_000_presented_as_success :
  presentedAsSuccess true (Returned (Some (nested (withCode "000")))) = true.
Proof. reflexivity. Qed.

(** C1 fails on the code at [{content: {transactions: {status: "delivered"}}}]:
    purchaseService returns this body from the branch it comments as a
    successful transaction, makePurchase passes it on, and the success test of
    the screens, which reads only [code] and [response_description], rejects
    it: the airtime screen ends on its error card.  The same happens with
    status "successful", with the marker nested under [response], and when
    a wrapped failure sits next to a top-level SUCCESSFUL description. *)
Theorem delivered_status_presented_as_failure
    (st : AirtimePage.State) (purchaseData : PurchaseData) :
  purchaseService (Returned (Some (withStatus "delivered")))
  = Returned (Some (withStatus "delivered"))
  /\ presentedAsSuccess true (Returned (Some (withStatus "delivered"))) = false
  /\ presentedAsSuccess true (Returned (Some (withStatus "successful"))) = false
  /\ presentedAsSuccess true (Returned (Some (nested (withStatus "delivered")))) = false
  /\ presentedAsSuccess true
       (Returned (Some (mkResponse None (Some "TRANSACTION SUCCESSFUL") None None None
                          None (Some (withCode "016"))))) = false
  /\ airtimeOutcome st purchaseData (Returned (Some (withStatus "delivered")))
     = (AirtimePage.mkState false (AirtimePage.retryCount st) true
          "Error processing transaction" (AirtimePage.transactionSuccessful st)
          (Some (withRetryCount purchaseData 0)),
        [ToastInfo (Text "Purchase is being processed. Check transactions for updates.");
         ToastError (Text "Error processing transaction")]).
Proof. repeat split. Qed.

(** ** The balance *)

Lemma getVTPassBalance_returns (parseFloat : string -> number)
    (api : Completion (option BalanceResponse) AppError) :
  exists b, getVTPassBalance parseFloat api = Returned b.
Proof.
  unfold getVTPassBalance.
  destruct (getVTPassBalance_try parseFloat api); eexists; reflexivity.
Qed.

(** C10: getVTPassBalance never rejects.  It returns [data.balance] when
    that is a text (through parseFloat) or a number, else the direct
    [balance] in the same way, else zero; a rejected request and a [null]
    body give zero as well. *)
Theorem getVTPassBalance_never_throws (parseFloat : string -> number) :
  (forall api, exists b, getVTPassBalance parseFloat api = Returned b)
  /\ (forall s direct,
        getVTPassBalance parseFloat
          (Returned (Some (mkBalanceResponse (Some (mkBalanceData (Some (Str s)))) direct)))
        = Returned (mkBalance (parseFloat s)))
  /\ (forall n direct,
        getVTPassBalance parseFloat
          (Returned (Some (mkBalanceResponse (Some (mkBalanceData (Some (Num n)))) direct)))
        = Returned (mkBalance n))
  /\ (forall data,
        (data = None \/ data = Some (mkBalanceData None)
         \/ data = Some (mkBalanceData (Some OtherValue))) ->
        (forall n,
           getVTPassBalance parseFloat (Returned (Some (mkBalanceResponse data (Some (Num n)))))
           = Returned (mkBalance n))
        /\ (forall s,
              getVTPassBalance parseFloat
                (Returned (Some (mkBalanceResponse data (Some (Str s)))))
              = Returned (mkBalance (parseFloat s)))
        /\ getVTPassBalance parseFloat (Returned (Some (mkBalanceResponse data None)))
           = Returned (mkBalance zero)
        /\ getVTPassBalance parseFloat
             (Returned (Some (mkBalanceResponse data (Some OtherValue))))
           = Returned (mkBalance zero))
  /\ getVTPassBalance parseFloat (Returned None) = Returned (mkBalance zero)
  /\ (forall error, getVTPassBalance parseFloat (Thrown error) = Returned (mkBalance zero)).
Proof.
  split; [apply getVTPassBalance_returns|].
  repeat split; try (destruct H as [->|[->| ->]]; reflexivity).
Qed.

(** Without the [catch] block the [null] body would reject. *)
Example getVTPassBalance_try_null (parseFloat : string -> number) :
  getVTPassBalance_try parseFloat (Returned None) = Thrown (typeError "data").
Proof. reflexivity. Qed.

Lemma countFetchBalance_app (a b : list Effect) :
  countFetchBalance (a ++ b) = countFetchBalance a + countFetchBalance b.
Proof.
  induction a as [|e a IH]; simpl; [reflexivity|].
  destruct e; simpl; rewrite IH; reflexivity.
Qed.

(** What makePurchase does and returns, by what purchaseService gives. *)
Lemma makePurchase_cases (api : ApiResult) :
  (exists r, purchaseService api = Returned (Some r)
             /\ makePurchase true api
                = (Returned (Some r),
                   if isSuccessful r
                   then [ToastSuccess (Text "Purchase successful!"); FetchTransactions;
                         FetchBalance]
                   else [ToastInfo (Text "Purchase is being processed. Check transactions for updates.")]))
  \/ ((forall r, purchaseService api <> Returned (Some r))
      /\ exists r, makePurchase true api = (Returned (Some r), [])).
Proof.
  unfold makePurchase, makePurchase_authenticated, makePurchase_inner.
  destruct (purchaseService api) as [[r|]|err].
  - left. exists r. split; [reflexivity|]. destruct (isSuccessful r); reflexivity.
  - right. split; [discriminate|]. eexists; reflexivity.
  - right. split; [discriminate|].
    destruct (name err =? "AbortError"); eexists; reflexivity.
Qed.

(** C6, as the code has it: on the airtime screen the balance is refreshed
    once by the screen exactly when the response passes the success test, and
    once more by makePurchase exactly when the object that purchaseService
    returns to it has [transaction.status] "successful", direct or under
    [response]; nothing else refreshes it.  That object is the body when the
    body has a success marker or wraps no [response]; with no marker on the
    body it is the wrapped [response] when that has a marker, nothing when
    that has a failure mark, and the body otherwise.  A request that timed
    out, whether the abort arrives as such or as apiRequest words it, is
    followed by no refresh at all. *)
Theorem airtime_balance_refresh_count
    (st : AirtimePage.State) (purchaseData : PurchaseData) (api : ApiResult) :
  countFetchBalance (snd (airtimeOutcome st purchaseData api))
  = (if refreshedByContext api then 1 else 0)
    + (if presentedAsSuccess true api then 1 else 0)
  /\ refreshedByContext api
     = match api with
       | Returned (Some body) =>
         if bodyMarked body then isSuccessful body
         else match Helpers.response body with
              | Some wrapped =>
                if wrappedMarked wrapped then isSuccessful wrapped
                else if wrappedFailed wrapped then false
                else isSuccessful body
              | None => isSuccessful body
              end
       | Returned None => false
       | Thrown _ => false
       end
  /\ (forall text flag managed handled data prevent,
        countFetchBalance
          (snd (airtimeOutcome st purchaseData
                  (Thrown (mkAppError "AbortError" text flag managed handled data
                             prevent)))) = 0)
  /\ countFetchBalance
       (snd (airtimeOutcome st purchaseData
               (Thrown (ApiRequest.toAppError ApiRequest.timeoutError)))) = 0.
Proof.
  assert (Hcount : forall api,
            countFetchBalance (snd (airtimeOutcome st purchaseData api))
            = (if refreshedByContext api then 1 else 0)
              + (if presentedAsSuccess true api then 1 else 0)).
  { clear api. intros api.
    unfold airtimeOutcome, refreshedByContext, presentedAsSuccess.
    destruct (makePurchase_cases api) as [[r [Hp Hm]]|[Hp [r Hm]]]; rewrite Hm.
    - rewrite Hp. simpl fst.
      unfold AirtimePage.handlePurchaseWithData.
      destruct (isVTPassSuccess (Some r)); simpl snd;
        rewrite countFetchBalance_app; destruct (isSuccessful r); reflexivity.
    - assert (Hctx : match purchaseService api with
                     | Returned (Some response) => isSuccessful response
                     | _ => false
                     end = false).
      { destruct (purchaseService api) as [[r'|]|err]; try reflexivity.
        exfalso. apply (Hp r'). reflexivity. }
      rewrite Hctx. simpl fst.
      unfold AirtimePage.handlePurchaseWithData.
      destruct (isVTPassSuccess (Some r)); reflexivity. }
  split; [apply Hcount|]. split.
  - unfold refreshedByContext, purchaseService, purchaseService_try, purchaseService_catch,
      bodyMarked, wrappedMarked, wrappedFailed.
    destruct api as [[body|]|error].
    + destruct (strictEq (code body) "000" || strictEq (code body) "01"
                || deliveredOrSuccessful body); [reflexivity|].
      destruct (Helpers.response body) as [wrapped|]; [|reflexivity].
      destruct (strictEq (code wrapped) "000" || deliveredOrSuccessful wrapped);
        [reflexivity|].
      destruct (strictEq (code wrapped) "016" || strictEq (code wrapped) "010"
                || statusFailed wrapped); reflexivity.
    + reflexivity.
    + destruct (name error =? "AbortError"); reflexivity.
  - split; [intros text flag managed handled data prevent|]; rewrite Hcount; reflexivity.
Qed.

(** C6 fails as stated: after the failed outcome [{code: "016"}] the balance
    is not refreshed at all, and after a success whose body also carries
    [transaction.status = "successful"] it is refreshed twice. *)
Lemma airtime_balance_refresh_not_once :
  countFetchBalance
    (snd (airtimeOutcome AirtimePage.initialState
            (mkPurchaseData "mtn" None (Finite false 100 0) "08030000000"
               "user@example.com" "1234" "airtime" (Some "air-1-abcde")
               (Some false) None None)
            (Returned (Some (withCode "016"))))) = 0
  /\ countFetchBalance
       (snd (airtimeOutcome AirtimePage.initialState
               (mkPurchaseData "mtn" None (Finite false 100 0) "08030000000"
                  "user@example.com" "1234" "airtime" (Some "air-1-abcde")
                  (Some false) None None)
               (Returned (Some (mkResponse (Some "000") None None None None
                                  (Some (mkTransactionInfo (Some "successful")))
                                  None))))) = 2.
Proof. split; reflexivity. Qed.

(** ** The airtime screen as a state machine *)

Lemma airtime_handlePurchaseWithData_retryCount st purchaseData made :
  AirtimePage.retryCount (fst (AirtimePage.handlePurchaseWithData st purchaseData made))
  = AirtimePage.retryCount st.
Proof.
  unfold AirtimePage.handlePurchaseWithData.
  destruct made as [[r|]|error]; try reflexivity.
  cbv beta iota. destruct (isVTPassSuccess (Some r)); reflexivity.
Qed.

Lemma nth_error_singleton {A} (d x : A) (n : nat) :
  nth_error [d] n = Some x -> n = 0.
Proof. destruct n as [|n]; [reflexivity | destruct n; discriminate]. Qed.

Lemma airtime_step_invariant (isAuthenticated : bool) (p : AirtimePage.Page)
    (e : AirtimePage.Event) :
  airtimeInvariant p -> airtimeInvariant (AirtimePage.step isAuthenticated p e).
Proof.
  intros (Ha & Hr & Hf). unfold airtimeInvariant.
  destruct e as [form env|env|n api]; unfold AirtimePage.step.
  - destruct (AirtimePage.purchaseDisabled (AirtimePage.ui p)) eqn:Hd;
      [repeat split; assumption|].
    unfold AirtimePage.purchaseDisabled in Hd.
    assert (Hnil : AirtimePage.inFlight p = []).
    { destruct Hf as [Hf|[Hf _]]; [exact Hf | congruence]. }
    destruct form; simpl; try (repeat split; [exact Ha | exact Hr | left; exact Hnil]).
    unfold AirtimePage.send. destruct isAuthenticated; simpl.
    + repeat split; [lia | lia |]. right. split; [reflexivity|].
      rewrite Hnil. eexists; reflexivity.
    + repeat split; [lia | lia | left; exact Hnil].
  - destruct (AirtimePage.retryDisabled (AirtimePage.ui p)) eqn:Hd;
      [repeat split; assumption|].
    unfold AirtimePage.retryDisabled in Hd.
    apply orb_false_elim in Hd. destruct Hd as [Hd Hp].
    apply orb_false_elim in Hd. destruct Hd as [_ Hc].
    apply Nat.leb_gt in Hc.
    assert (Hnil : AirtimePage.inFlight p = []).
    { destruct Hf as [Hf|[Hf _]]; [exact Hf | congruence]. }
    unfold AirtimePage.handleRetryTransaction.
    destruct (AirtimePage.failedTransaction (AirtimePage.ui p)) as [failed|]; simpl;
      [|repeat split; [exact Ha | exact Hr | left; exact Hnil]].
    unfold AirtimePage.send. destruct isAuthenticated; simpl.
    + repeat split; [lia | lia |]. right. split; [reflexivity|].
      rewrite Hnil. eexists; reflexivity.
    + repeat split; [lia | lia | left; exact Hnil].
  - destruct (nth_error (AirtimePage.inFlight p) n) as [purchaseData|] eqn:Hn;
      [|repeat split; assumption].
    destruct (makePurchase true api) as [made e1].
    pose proof (airtime_handlePurchaseWithData_retryCount
                  (AirtimePage.ui p) purchaseData made) as Hrc.
    destruct (AirtimePage.handlePurchaseWithData (AirtimePage.ui p) purchaseData made)
      as [st e2].
    simpl in *. rewrite Hrc. repeat split; [exact Ha | exact Hr |]. left.
    destruct Hf as [Hf|[_ [d Hf]]]; rewrite Hf in *.
    + destruct n; discriminate Hn.
    + apply nth_error_singleton in Hn. subst n. reflexivity.
Qed.

Lemma airtime_run_invariant (isAuthenticated : bool) (events : list AirtimePage.Event)
    (p : AirtimePage.Page) :
  airtimeInvariant p -> airtimeInvariant (AirtimePage.run isAuthenticated p events).
Proof.
  revert p; induction events as [|e events IH]; intros p Hp; simpl; [exact Hp|].
  apply IH. apply airtime_step_invariant. exact Hp.
Qed.

Lemma airtime_initial_invariant : airtimeInvariant AirtimePage.initialPage.
Proof. unfold airtimeInvariant. simpl. repeat split; try lia. left. reflexivity. Qed.

(** On the airtime screen a purchase sends at most four requests, the first
    and three retries, whatever the user clicks and the backend answers. *)
Lemma airtime_attempts_bounded (isAuthenticated : bool) (events : list AirtimePage.Event) :
  length (AirtimePage.attempts (AirtimePage.run isAuthenticated AirtimePage.initialPage events))
  <= 4.
Proof.
  destruct (airtime_run_invariant isAuthenticated events _ airtime_initial_invariant)
    as (Ha & Hr & _).
  lia.
Qed.

(** On the airtime screen at most one request is pending at any time: while
    one is, [isPurchasing] disables both buttons. *)
Lemma airtime_single_flight (isAuthenticated : bool) (events : list AirtimePage.Event) :
  length (AirtimePage.inFlight (AirtimePage.run isAuthenticated AirtimePage.initialPage events))
  <= 1.
Proof.
  destruct (airtime_run_invariant isAuthenticated events _ airtime_initial_invariant)
    as (_ & _ & [Hf|[_ [d Hf]]]); rewrite Hf; simpl; lia.
Qed.

(** While a request is pending on the airtime screen, a click on either
    button changes nothing and sends nothing. *)
Lemma airtime_click_refused_while_pending
    (isAuthenticated : bool) (events : list AirtimePage.Event)
    (form : AirtimePage.Form) (env : Entropy) :
  let p := AirtimePage.run isAuthenticated AirtimePage.initialPage events in
  AirtimePage.inFlight p <> [] ->
  AirtimePage.step isAuthenticated p (AirtimePage.ClickPurchase form env) = p
  /\ AirtimePage.step isAuthenticated p (AirtimePage.ClickRetry env) = p.
Proof.
  intros p Hpending.
  destruct (airtime_run_invariant isAuthenticated events _ airtime_initial_invariant)
    as (_ & _ & [Hf|[Hp _]]); [contradiction|].
  fold p in Hp. unfold AirtimePage.step, AirtimePage.purchaseDisabled,
    AirtimePage.retryDisabled.
  rewrite Hp, !orb_true_r. split; reflexivity.
Qed.

(** After three retries a click on the airtime retry button changes nothing
    and sends nothing. *)
Lemma airtime_retry_refused_after_three
    (isAuthenticated : bool) (p : AirtimePage.Page) (env : Entropy) :
  3 <= AirtimePage.retryCount (AirtimePage.ui p) ->
  AirtimePage.step isAuthenticated p (AirtimePage.ClickRetry env) = p.
Proof.
  intros H. unfold AirtimePage.step, AirtimePage.retryDisabled.
  apply Nat.leb_le in H. rewrite H, orb_true_r. reflexivity.
Qed.

(** ** The request ids of one purchase *)



















(** The ids of an airtime purchase with two retries and of a data purchase
    with one, each click at a time of its own. *)
Example attempt_keys_of_two_runs :
  map request_id
    (AirtimePage.attempts (AirtimePage.run true AirtimePage.initialPage airtimeTwoRetries))
  = [Some "air-retry-1700000009000-4fzyo"; Some "air-retry-1700000004000-4fzyo";
     Some "air-1700000000000-4fzyo"]
  /\ map request_id
       (DataPage.sent (DataPage.run true DataPage.initialPage dataOneRetry))
     = [Some "data-1700000004000-retry-04fzyo"; Some "data-1700000000000-4fzyo"].
Proof. split; reflexivity. Qed.

(** The retry does not reuse the id kept with the failed purchase. *)
Lemma airtime_retry_generates_key (st : AirtimePage.State) (failed : PurchaseData)
    (env : Entropy) :
  AirtimePage.failedTransaction st = Some failed ->
  option_map request_id (snd (AirtimePage.handleRetryTransaction st env))
  = Some (Some (generateUniqueRequestId (Some "air-retry") env)).
Proof. intros H. unfold AirtimePage.handleRetryTransaction. rewrite H. reflexivity. Qed.


(** ** The retry ceiling and the single flight on the other screens *)

(** One more failed retry on the electricity screen: from the error card
    back to the same error card, with one more request sent. *)
Lemma electricity_retry_cycle (p : ElectricityPage.Page) (failed : PurchaseData)
    (message : string) (env : Entropy) :
  ElectricityPage.ui p
  = ElectricityPage.mkState false false true "" message (Some failed) ->
  ElectricityPage.inFlight p = [] ->
  let p' := ElectricityPage.run true p
              [ElectricityPage.ClickRetry env; ElectricityPage.Response 0 failedBody] in
  ElectricityPage.ui p'
  = ElectricityPage.mkState false false true ""
      "Transaction failed: An error occurred with your transaction." (Some failed)
  /\ ElectricityPage.inFlight p' = []
  /\ length (ElectricityPage.attempts p') = S (length (ElectricityPage.attempts p)).
Proof.
  intros Hui Hnil. destruct p as [st pending attempts effs].
  simpl in Hui, Hnil. subst st pending. cbv zeta.
  split; [reflexivity | split; reflexivity].
Qed.

(** The electricity screen puts no ceiling on the retries: a payment that
    fails [n + 1] times in a row has sent [n + 1] requests. *)
Lemma electricity_attempts_unbounded (clock : nat -> N) (n : nat) :
  length (ElectricityPage.attempts
            (ElectricityPage.run true ElectricityPage.initialPage
               (electricityRetries clock n))) = n + 1.
Proof.
  unfold electricityRetries, ElectricityPage.run. rewrite fold_left_app.
  set (p0 := fold_left _ [_; _] ElectricityPage.initialPage).
  assert (H0 : (exists failed message,
                  ElectricityPage.ui p0
                  = ElectricityPage.mkState false false true "" message (Some failed))
               /\ ElectricityPage.inFlight p0 = []
               /\ length (ElectricityPage.attempts p0) = 1).
  { split; [do 2 eexists; reflexivity | split; reflexivity]. }
  clearbody p0. replace (n + 1) with (length (ElectricityPage.attempts p0) + n)
    by (destruct H0 as (_ & _ & ->); lia).
  destruct H0 as (Hui & Hnil & _).
  generalize 1 as start. revert p0 Hui Hnil.
  induction n as [|n IH]; intros p0 Hui Hnil start; simpl; [lia|].
  destruct Hui as (failed & message & Hui).
  destruct (electricity_retry_cycle p0 failed message (draw (clock start)) Hui Hnil)
    as (Hui' & Hnil' & Hlen).
  unfold ElectricityPage.run in Hui', Hnil', Hlen. simpl in Hui', Hnil', Hlen.
  rewrite IH.
  - rewrite Hlen. lia.
  - rewrite Hui'. eauto.
  - exact Hnil'.
Qed.

(** C3 fails on the electricity screen: its retry button is disabled only
    while there is no failed payment to retry, so after a payment that fails
    and five retries that fail, six requests have been sent for the one
    payment and the button is still enabled. *)
Theorem electricity_retries_unbounded :
  let p := ElectricityPage.run true ElectricityPage.initialPage electricityFiveRetries in
  length (ElectricityPage.attempts p) = 6
  /\ ElectricityPage.retryDisabled
       (ElectricityPage.ui
          (ElectricityPage.step true p (ElectricityPage.Response 0 failedBody)))
     = false.
Proof. split; reflexivity. Qed.

(** C5 fails on the data screen: handlePurchase never sets [isPurchasing],
    so the purchase button stays enabled after the first click and a second
    click sends a second request while the first is still pending. *)
Theorem data_two_purchases_in_flight :
  let first := DataPage.step true DataPage.initialPage
                 (DataPage.ClickPurchase dataForm (draw 1700000000000)) in
  DataPage.isPurchasing (DataPage.ui first) = false
  /\ DataPage.purchaseDisabled (DataPage.ui first) = false
  /\ length (DataPage.inFlight first) = 1
  /\ length (DataPage.inFlight (DataPage.run true DataPage.initialPage dataDoubleClick)) = 2
  /\ map request_id (DataPage.sent (DataPage.run true DataPage.initialPage dataDoubleClick))
     = [Some "data-1700000000400-4fzyo"; Some "data-1700000000000-4fzyo"].
Proof. repeat split. Qed.

(** * Further properties of the code *)

Import Extra.

(** ** apiRequest *)

Section ApiRequestFacts.
Import ApiRequest.

Variable stringOf : Json -> string.
Variable titleOf : string -> option string.

Lemma insufficientBalanceBlock_returns (r : Response) (bodyUsed : bool) :
  exists bodyUsed',
    insufficientBalanceBlock stringOf r bodyUsed = (Returned tt, bodyUsed').
Proof.
  unfold insufficientBalanceBlock, tryCatch, bind, json, getProperty, throw, ret.
  destruct bodyUsed; [eexists; reflexivity|].
  destruct (bodyJson r) as [j|]; [|eexists; reflexivity].
  destruct (truthyJson j) eqn:Ht; [|eexists; reflexivity].
  destruct j; try discriminate Ht;
    repeat match goal with
           | |- context [if ?b then _ else _] => destruct b
           end; eexists; reflexivity.
Qed.

Lemma jsonErrorBlock_throws (r : Response) (bodyUsed : bool) :
  exists e bodyUsed', jsonErrorBlock stringOf r bodyUsed = (Thrown e, bodyUsed').
Proof.
  unfold jsonErrorBlock, bind, json, getProperty, throw, ret.
  destruct bodyUsed; [do 2 eexists; reflexivity|].
  destruct (bodyJson r) as [j|]; [|do 2 eexists; reflexivity].
  destruct j; do 2 eexists; reflexivity.
Qed.

Lemma textErrorBlock_throws (r : Response) (bodyUsed : bool) :
  exists e bodyUsed', textErrorBlock titleOf r bodyUsed = (Thrown e, bodyUsed').
Proof.
  unfold textErrorBlock, bind, text, throw.
  destruct bodyUsed; [do 2 eexists; reflexivity|].
  destruct (includes (bodyText r) "<!DOCTYPE html>" || includes (bodyText r) "<html>");
    do 2 eexists; reflexivity.
Qed.

Lemma notOk_throws (r : Response) (bodyUsed : bool) :
  fst (notOk stringOf titleOf r bodyUsed) = Thrown (requestFailed (status r)).
Proof.
  unfold notOk, bind.
  assert (H : exists bodyUsed',
            (if (status r =? 400)%nat then insufficientBalanceBlock stringOf r else ret tt)
              bodyUsed = (Returned tt, bodyUsed')).
  { destruct (status r =? 400)%nat;
      [apply insufficientBalanceBlock_returns | eexists; reflexivity]. }
  destruct H as [used1 ->]. unfold tryCatch.
  destruct (jsonErrorBlock_throws r used1) as (e1 & used2 & ->).
  destruct (textErrorBlock_throws r used2) as (e2 & used3 & ->).
  reflexivity.
Qed.

(** X1: for a response whose status is not 2xx, outside the 401 case of an
    authenticated call, apiRequest rejects with "Request failed with
    status N" whatever the body holds: the errors built from the body, the
    insufficient-balance one among them, are thrown inside [try] blocks whose
    own [catch] drops them. *)
Theorem apiRequest_error_status_drops_body
    (isAuthenticated : bool) (r : Response)
    (refreshed : Completion bool ApiError) (retried : Completion Json ApiError) :
  ok r = false ->
  (status r =? 401)%nat && isAuthenticated = false ->
  apiRequest stringOf titleOf isAuthenticated (Responded r) refreshed retried
  = Thrown (mkApiError "Error" ("Request failed with status " ++ showStatus (status r))
              false
              (Some (status r,
                     JObject [("error", JString ("HTTP " ++ showStatus (status r)))]))).
Proof.
  intros Hok H401. unfold apiRequest, tryBlock. rewrite Hok, H401. simpl negb.
  cbv iota. rewrite notOk_throws. reflexivity.
Qed.

(** X2: a 2xx response never makes apiRequest reject: it returns the parsed
    body, and [{success: true}] when the body is not JSON. *)
Theorem apiRequest_ok_returns
    (isAuthenticated : bool) (r : Response)
    (refreshed : Completion bool ApiError) (retried : Completion Json ApiError) :
  ok r = true ->
  apiRequest stringOf titleOf isAuthenticated (Responded r) refreshed retried
  = Returned (match bodyJson r with
              | Some data => data
              | None => JObject [("success", JBool true)]
              end).
Proof.
  intros Hok. unfold apiRequest, tryBlock. rewrite Hok. simpl negb. cbv iota.
  unfold okBody, tryCatch, json.
  destruct (bodyJson r) as [data|]; [reflexivity|].
  unfold ok in Hok. apply andb_prop in Hok. destruct Hok as [Hlo Hhi].
  rewrite Hlo. apply Nat.leb_le in Hhi.
  assert (Hlt : (status r <? 300)%nat = true) by (apply Nat.ltb_lt; lia).
  rewrite Hlt. reflexivity.
Qed.

(** X3: an error that apiRequest throws itself, as opposed to the rejection
    of the repeated call after a refreshed token, always carries a
    [response] and is never an AbortError. *)
Theorem apiRequest_rejections_structured
    (isAuthenticated : bool) (fetched : FetchOutcome)
    (refreshed : Completion bool ApiError) (retried : Completion Json ApiError)
    (e : ApiError) :
  apiRequest stringOf titleOf isAuthenticated fetched refreshed retried = Thrown e ->
  retried = Thrown e
  \/ (response e <> None /\ name e <> "AbortError").
Proof.
  assert (Hcatch : forall e0, response (outerCatch e0) <> None
                              /\ name (outerCatch e0) <> "AbortError").
  { intros e0. unfold outerCatch.
    destruct ((name e0 =? "TypeError") && includes (message e0) "NetworkError");
      [split; discriminate|].
    destruct (name e0 =? "AbortError") eqn:Ha; [split; discriminate|].
    destruct (response e0) eqn:Hr; [|split; discriminate].
    split; [congruence | apply String.eqb_neq; exact Ha]. }
  unfold apiRequest.
  destruct (tryBlock stringOf titleOf isAuthenticated fetched refreshed retried)
    as [result|e0] eqn:Ht.
  - intros ->. unfold tryBlock in Ht.
    destruct fetched as [e0|r]; [discriminate|].
    destruct (negb (ok r)).
    + destruct ((status r =? 401)%nat && isAuthenticated).
      * destruct refreshed as [[|]|e0]; try discriminate. left. congruence.
      * rewrite notOk_throws in Ht. discriminate.
    + destruct (fst (okBody r false)); [|discriminate].
      injection Ht as Ht. discriminate.
  - intros H. injection H as <-. right. apply Hcatch.
Qed.

End ApiRequestFacts.

(** X1 at a 400 response whose body announces an insufficient balance. *)
Lemma apiRequest_error_status_drops_body_witness :
  ApiRequest.apiRequest (fun _ => "") (fun _ => None) true
    (ApiRequest.Responded badRequest) (Returned true) (Returned ApiRequest.JNull)
  = Thrown (ApiRequest.mkApiError "Error" "Request failed with status 400" false
              (Some (400, ApiRequest.JObject
                            [("error", ApiRequest.JString "HTTP 400")]))).
Proof.
  exact (apiRequest_error_status_drops_body (fun _ => "") (fun _ => None) true
           badRequest (Returned true) (Returned ApiRequest.JNull) eq_refl eq_refl).
Defined.

(** X2 at a 200 response with an empty body. *)
Lemma apiRequest_ok_returns_witness :
  ApiRequest.apiRequest (fun _ => "") (fun _ => None) true
    (ApiRequest.Responded emptyOk) (Returned true) (Returned ApiRequest.JNull)
  = Returned (ApiRequest.JObject [("success", ApiRequest.JBool true)]).
Proof.
  exact (apiRequest_ok_returns (fun _ => "") (fun _ => None) true emptyOk
           (Returned true) (Returned ApiRequest.JNull) eq_refl).
Defined.

(** X3 at an aborted request: what comes out is the timeout error. *)
Lemma apiRequest_rejections_structured_witness :
  ApiRequest.apiRequest (fun _ => "") (fun _ => None) true
    (ApiRequest.Rejected aborted) (Returned true) (Returned ApiRequest.JNull)
  = Thrown ApiRequest.timeoutError
  /\ (Returned ApiRequest.JNull = Thrown ApiRequest.timeoutError
      \/ (ApiRequest.response ApiRequest.timeoutError <> None
          /\ ApiRequest.name ApiRequest.timeoutError <> "AbortError")).
Proof.
  split; [reflexivity|].
  exact (apiRequest_rejections_structured (fun _ => "") (fun _ => None) true
           (ApiRequest.Rejected aborted) (Returned true) (Returned ApiRequest.JNull)
           ApiRequest.timeoutError eq_refl).
Defined.

(** ** purchaseService and makePurchase *)

(** X4: purchaseService turns a resolved request into a rejection exactly
    when the body carries no success marker, wraps a [response] that carries
    none either, and that [response] has code 016 or 010 or the status
    "failed"; the error then brings the wrapped response along as
    [responseData], with its description (else its [error_message], else a
    fixed text) as message. *)
Theorem purchaseService_rejects_iff (rawResponse : option VTPassResponseData)
    (error : AppError) :
  purchaseService (Returned rawResponse) = Thrown error
  <-> exists body wrapped,
        rawResponse = Some body
        /\ Helpers.response body = Some wrapped
        /\ strictEq (code body) "000" || strictEq (code body) "01"
           || deliveredOrSuccessful body = false
        /\ strictEq (code wrapped) "000" || deliveredOrSuccessful wrapped = false
        /\ strictEq (code wrapped) "016" || strictEq (code wrapped) "010"
           || statusFailed wrapped = true
        /\ error = mkAppError "Error"
                     (orDefault (response_description wrapped)
                        (orDefault (error_message wrapped)
                           "Transaction failed on VTPass"))
                     false true true (Some wrapped) true.
Proof.
  unfold purchaseService, purchaseService_try. split.
  - destruct rawResponse as [body|]; [|discriminate].
    destruct (strictEq (code body) "000" || strictEq (code body) "01"
              || deliveredOrSuccessful body) eqn:Htop; [discriminate|].
    destruct (Helpers.response body) as [wrapped|] eqn:Hw; [|discriminate].
    destruct (strictEq (code wrapped) "000" || deliveredOrSuccessful wrapped) eqn:Hin;
      [discriminate|].
    destruct (strictEq (code wrapped) "016" || strictEq (code wrapped) "010"
              || statusFailed wrapped) eqn:Hfail; [|discriminate].
    unfold purchaseService_catch. simpl. intros H. injection H as <-.
    exists body, wrapped. repeat split; assumption.
  - intros (body & wrapped & -> & Hw & Htop & Hin & Hfail & ->).
    rewrite Htop, Hw, Hin, Hfail. reflexivity.
Qed.

(** X5: what purchaseService returns for a resolved request is the body as
    it came, or the [response] it wraps when the body has no success marker
    and that [response] has one; nothing else is ever returned. *)
Theorem purchaseService_returns_body_or_wrapped
    (rawResponse returned : option VTPassResponseData) :
  purchaseService (Returned rawResponse) = Returned returned ->
  returned = rawResponse
  \/ exists body wrapped,
       rawResponse = Some body
       /\ Helpers.response body = Some wrapped
       /\ returned = Some wrapped
       /\ strictEq (code wrapped) "000" || deliveredOrSuccessful wrapped = true.
Proof.
  unfold purchaseService, purchaseService_try.
  destruct rawResponse as [body|]; [|intros H; injection H as <-; left; reflexivity].
  destruct (strictEq (code body) "000" || strictEq (code body) "01"
            || deliveredOrSuccessful body);
    [intros H; injection H as <-; left; reflexivity|].
  destruct (Helpers.response body) as [wrapped|] eqn:Hw;
    [|intros H; injection H as <-; left; reflexivity].
  destruct (strictEq (code wrapped) "000" || deliveredOrSuccessful wrapped) eqn:Hin.
  - intros H. injection H as <-. right. exists body, wrapped. auto.
  - destruct (strictEq (code wrapped) "016" || strictEq (code wrapped) "010"
              || statusFailed wrapped).
    + unfold purchaseService_catch. simpl. discriminate.
    + intros H. injection H as <-. left. reflexivity.
Qed.

(** X5 at [{response: {code: "000"}}]. *)
Lemma purchaseService_returns_body_or_wrapped_witness :
  purchaseService (Returned (Some (nested (withCode "000"))))
  = Returned (Some (withCode "000"))
  /\ (Some (withCode "000") = Some (nested (withCode "000"))
      \/ exists body wrapped,
           Some (nested (withCode "000")) = Some body
           /\ Helpers.response body = Some wrapped
           /\ Some (withCode "000") = Some wrapped
           /\ strictEq (code wrapped) "000" || deliveredOrSuccessful wrapped = true).
Proof.
  split; [reflexivity|].
  exact (purchaseService_returns_body_or_wrapped
           (Some (nested (withCode "000"))) (Some (withCode "000")) eq_refl).
Defined.

(** X6: makePurchase never rejects.  Without a session it shows the login
    toast and returns [null].  With one, an object that purchaseService
    returns is passed on as it is, after the success toast and the two
    refreshes when its [transaction.status] (direct or under [response]) is
    "successful" and after the info toast otherwise; everything else becomes
    a response with code "error" and no toast: a [null] from purchaseService
    through the TypeError of reading its [transaction], a rejection through
    its message (the time-out text for an AbortError), with the two fixed
    texts for an empty message. *)
Theorem makePurchase_never_rejects :
  (forall isAuthenticated api,
     exists response, fst (makePurchase isAuthenticated api) = Returned response)
  /\ (forall api,
        makePurchase false api
        = (Returned None, [ToastError (Text "You must be logged in to make a purchase")]))
  /\ (forall api, exists r, fst (makePurchase true api) = Returned (Some r))
  /\ (forall api r,
        purchaseService api = Returned (Some r) ->
        makePurchase true api
        = (Returned (Some r),
           if isSuccessful r
           then [ToastSuccess (Text "Purchase successful!"); FetchTransactions;
                 FetchBalance]
           else [ToastInfo
                   (Text "Purchase is being processed. Check transactions for updates.")]))
  /\ (forall api,
        purchaseService api = Returned None ->
        makePurchase true api
        = (Returned (Some (errorResponse (Api.message (typeError "transaction")))), []))
  /\ (forall api error,
        purchaseService api = Thrown error ->
        let text :=
          if Api.name error =? "AbortError"
          then "The purchase request timed out. Please check your network connection and try again."
          else Api.message error in
        makePurchase true api
        = (Returned (Some (mkResponse (Some "error")
                             (Some (orElse text "Purchase failed")) None
                             (Some (orElse text "An unknown error occurred"))
                             None None None)), [])
        /\ orElse text "Purchase failed" <> ""
        /\ orElse text "An unknown error occurred" <> "")
  /\ (forall error,
        let text :=
          if Api.name error =? "AbortError"
          then "The purchase request timed out. Please check your network connection and try again."
          else Api.message error in
        makePurchase true (Thrown error)
        = (Returned (Some (mkResponse (Some "error")
                             (Some (orElse text "Purchase failed")) None
                             (Some (orElse text "An unknown error occurred"))
                             None None None)), [])).
Proof.
  split; [apply makePurchase_returns|].
  split; [reflexivity|].
  split.
  { intros api. destruct (makePurchase_cases api) as [(r & _ & ->)|[_ (r & ->)]];
      exists r; reflexivity. }
  split.
  { intros api r Hp. unfold makePurchase, makePurchase_authenticated, makePurchase_inner.
    rewrite Hp. destruct (isSuccessful r); reflexivity. }
  split.
  { intros api Hp. unfold makePurchase, makePurchase_authenticated, makePurchase_inner.
    rewrite Hp. reflexivity. }
  split.
  { intros api error Hp text.
    split; [|split; apply orElse_nonempty; discriminate].
    subst text.
    unfold makePurchase, makePurchase_authenticated, makePurchase_inner.
    rewrite Hp. destruct (Api.name error =? "AbortError"); reflexivity. }
  intros error text. subst text.
  unfold makePurchase, makePurchase_authenticated, makePurchase_inner,
    purchaseService, purchaseService_catch.
  destruct (Api.name error =? "AbortError") eqn:Ha; simpl; rewrite Ha; reflexivity.
Qed.

(** ** From the request to the error card *)

Lemma includes_needs_first (s needle : string) (c : ascii) :
  (forall pre post, s <> pre ++ String c post) ->
  includes s (String c needle) = false.
Proof.
  intros H. destruct (includes s (String c needle)) eqn:E; [|reflexivity].
  apply includes_occurs in E. destruct E as (pre & post & E).
  exfalso. apply (H pre (needle ++ post)). exact E.
Qed.

Lemma digits_have_no_S (s : string) :
  allDigits s = true -> forall pre post, s <> pre ++ String "S" post.
Proof.
  induction s as [|c s IH]; intros Hd pre post H.
  - destruct pre; discriminate H.
  - simpl in Hd. apply andb_prop in Hd. destruct Hd as [Hc Hs].
    destruct pre as [|c' pre]; simpl in H; injection H as Hc' H.
    + subst c. discriminate Hc.
    + exact (IH Hs pre post H).
Qed.

Lemma request_failed_not_successful (status : nat) :
  includes ("Request failed with status " ++ ApiRequest.showStatus status) "SUCCESSFUL"
  = false.
Proof.
  apply includes_needs_first. intros pre post H.
  pose proof (numberToString_digits (N.of_nat status)) as Hd.
  fold (ApiRequest.showStatus status) in Hd.
  simpl in H.
  repeat (destruct pre as [|? pre]; simpl in H;
          [discriminate H | injection H as _ H]).
  exact (digits_have_no_S _ Hd pre post H).
Qed.

(** X7: when the request of a purchase is aborted, the airtime screen ends
    on its error card with apiRequest's "Request timed out. Please try
    again."; the time-out text of makePurchase, which waits for an
    AbortError, is not the one shown. *)
Theorem airtime_timeout_message
    (stringOf : ApiRequest.Json -> string) (titleOf : string -> option string)
    (decode : ApiRequest.Json -> option VTPassResponseData)
    (text : string) (flag : bool) (attached : option (nat * ApiRequest.Json))
    (refreshed : Completion bool ApiRequest.ApiError)
    (retried : Completion ApiRequest.Json ApiRequest.ApiError)
    (st : AirtimePage.State) (purchaseData : PurchaseData) :
  airtimeOutcome st purchaseData
    (asApiResult decode
       (ApiRequest.apiRequest stringOf titleOf true
          (ApiRequest.Rejected (ApiRequest.mkApiError "AbortError" text flag attached))
          refreshed retried))
  = (AirtimePage.mkState false (AirtimePage.retryCount st) true
       "Request timed out. Please try again."
       (AirtimePage.transactionSuccessful st) (Some (withRetryCount purchaseData 0)),
     [ToastError (Text "Request timed out. Please try again.")]).
Proof.
  assert (Hrequest :
            ApiRequest.apiRequest stringOf titleOf true
              (ApiRequest.Rejected (ApiRequest.mkApiError "AbortError" text flag attached))
              refreshed retried
            = Thrown ApiRequest.timeoutError) by reflexivity.
  rewrite Hrequest. unfold airtimeOutcome, asApiResult.
  assert (Hmade :
            makePurchase true (Thrown (ApiRequest.toAppError ApiRequest.timeoutError))
            = (Returned (Some (errorResponse "Request timed out. Please try again.")),
               [])) by reflexivity.
  rewrite Hmade. reflexivity.
Qed.

(** X8: when the backend answers a purchase with an error status (outside
    the 401 case), the airtime screen ends on its error card with "Request
    failed with status N", whatever reason the body gives. *)
Theorem airtime_error_status_message
    (stringOf : ApiRequest.Json -> string) (titleOf : string -> option string)
    (decode : ApiRequest.Json -> option VTPassResponseData)
    (r : ApiRequest.Response)
    (refreshed : Completion bool ApiRequest.ApiError)
    (retried : Completion ApiRequest.Json ApiRequest.ApiError)
    (st : AirtimePage.State) (purchaseData : PurchaseData) :
  ApiRequest.ok r = false ->
  ApiRequest.status r <> 401 ->
  airtimeOutcome st purchaseData
    (asApiResult decode
       (ApiRequest.apiRequest stringOf titleOf true (ApiRequest.Responded r)
          refreshed retried))
  = (AirtimePage.mkState false (AirtimePage.retryCount st) true
       ("Request failed with status " ++ ApiRequest.showStatus (ApiRequest.status r))
       (AirtimePage.transactionSuccessful st) (Some (withRetryCount purchaseData 0)),
     [ToastError (Text ("Request failed with status "
                        ++ ApiRequest.showStatus (ApiRequest.status r)))]).
Proof.
  intros Hok H401.
  apply Nat.eqb_neq in H401.
  unfold ApiRequest.apiRequest, ApiRequest.tryBlock. rewrite Hok, H401. simpl negb.
  cbv iota. rewrite notOk_throws.
  unfold airtimeOutcome, asApiResult, makePurchase, makePurchase_authenticated,
    makePurchase_inner, purchaseService, purchaseService_catch, ApiRequest.toAppError.
  simpl.
  unfold AirtimePage.handlePurchaseWithData, isVTPassSuccess. simpl.
  pose proof (request_failed_not_successful (ApiRequest.status r)) as Hinc.
  simpl in Hinc. rewrite Hinc. reflexivity.
Qed.

(** X8 at a 400 response whose body announces an insufficient balance. *)
Lemma airtime_error_status_message_witness :
  AirtimePage.errorMessage
    (fst (airtimeOutcome AirtimePage.initialState samplePurchase
            (asApiResult (fun _ => None)
               (ApiRequest.apiRequest (fun _ => "") (fun _ => None) true
                  (ApiRequest.Responded badRequest) (Returned true)
                  (Returned ApiRequest.JNull)))))
  = "Request failed with status 400".
Proof.
  rewrite (airtime_error_status_message (fun _ => "") (fun _ => None) (fun _ => None)
             badRequest (Returned true) (Returned ApiRequest.JNull)
             AirtimePage.initialState samplePurchase eq_refl);
    [reflexivity | discriminate].
Defined.

(** ** The screens *)

Lemma airtime_handlePurchaseWithData_isPurchasing st purchaseData made :
  AirtimePage.isPurchasing (fst (AirtimePage.handlePurchaseWithData st purchaseData made))
  = false.
Proof.
  unfold AirtimePage.handlePurchaseWithData.
  destruct made as [[r|]|error]; try reflexivity.
  cbv beta iota. destruct (isVTPassSuccess (Some r)); reflexivity.
Qed.

Lemma airtime_step_pending (isAuthenticated : bool) (p : AirtimePage.Page)
    (e : AirtimePage.Event) :
  airtimePending p -> airtimePending (AirtimePage.step isAuthenticated p e).
Proof.
  intros Hp. unfold airtimePending in *.
  destruct e as [form env|env|n api]; unfold AirtimePage.step.
  - destruct (AirtimePage.purchaseDisabled (AirtimePage.ui p)) eqn:Hd; [exact Hp|].
    unfold AirtimePage.purchaseDisabled in Hd.
    destruct Hp as [[Hp _]|[_ Hnil]]; [congruence|].
    destruct form; simpl; try (right; split; [exact Hd | exact Hnil]);
      try (right; split; [reflexivity | exact Hnil]).
    unfold AirtimePage.send. destruct isAuthenticated; simpl.
    + left. split; [reflexivity|]. rewrite Hnil. eexists; reflexivity.
    + right. split; [reflexivity | exact Hnil].
  - destruct (AirtimePage.retryDisabled (AirtimePage.ui p)) eqn:Hd; [exact Hp|].
    unfold AirtimePage.retryDisabled in Hd.
    apply orb_false_elim in Hd. destruct Hd as [_ Hd].
    destruct Hp as [[Hp _]|[_ Hnil]]; [congruence|].
    unfold AirtimePage.handleRetryTransaction.
    destruct (AirtimePage.failedTransaction (AirtimePage.ui p)) as [failed|]; simpl;
      [|right; split; [exact Hd | exact Hnil]].
    unfold AirtimePage.send. destruct isAuthenticated; simpl.
    + left. split; [reflexivity|]. rewrite Hnil. eexists; reflexivity.
    + right. split; [reflexivity | exact Hnil].
  - destruct (nth_error (AirtimePage.inFlight p) n) as [purchaseData|] eqn:Hn;
      [|exact Hp].
    destruct (makePurchase true api) as [made e1].
    pose proof (airtime_handlePurchaseWithData_isPurchasing
                  (AirtimePage.ui p) purchaseData made) as Hfalse.
    destruct (AirtimePage.handlePurchaseWithData (AirtimePage.ui p) purchaseData made)
      as [st e2].
    simpl in *. right. split; [exact Hfalse|].
    destruct Hp as [[_ [d Hf]]|[_ Hf]]; rewrite Hf in *.
    + apply nth_error_singleton in Hn. subst n. reflexivity.
    + destruct n; discriminate Hn.
Qed.

(** X9: on the airtime screen the processing state cannot get stuck and
    cannot be skipped: after every run of clicks and answers, [isPurchasing]
    is set exactly when a request is pending, and then exactly one is. *)
Theorem airtime_isPurchasing_iff_pending
    (isAuthenticated : bool) (events : list AirtimePage.Event) :
  let p := AirtimePage.run isAuthenticated AirtimePage.initialPage events in
  (AirtimePage.isPurchasing (AirtimePage.ui p) = true
   /\ length (AirtimePage.inFlight p) = 1)
  \/ (AirtimePage.isPurchasing (AirtimePage.ui p) = false
      /\ AirtimePage.inFlight p = []).
Proof.
  assert (H : forall events p, airtimePending p ->
                airtimePending (AirtimePage.run isAuthenticated p events)).
  { clear events. induction events as [|e events IH]; intros p Hp; simpl;
      [exact Hp | apply IH, airtime_step_pending, Hp]. }
  destruct (H events AirtimePage.initialPage) as [[Ht [d Hd]]|[Hf Hnil]].
  - right. split; reflexivity.
  - left. split; [exact Ht | rewrite Hd; reflexivity].
  - right. split; assumption.
Qed.

(** X10: on the airtime screen one purchase sends at most four requests
    and counts at most three retries, whatever the user clicks and the
    backend answers. *)
Theorem airtime_at_most_four_requests
    (isAuthenticated : bool) (events : list AirtimePage.Event) :
  let p := AirtimePage.run isAuthenticated AirtimePage.initialPage events in
  length (AirtimePage.attempts p) <= 4
  /\ AirtimePage.retryCount (AirtimePage.ui p) <= 3
  /\ length (AirtimePage.attempts p) <= AirtimePage.retryCount (AirtimePage.ui p) + 1.
Proof.
  destruct (airtime_run_invariant isAuthenticated events _ airtime_initial_invariant)
    as (Ha & Hr & _).
  cbv zeta. lia.
Qed.

Lemma purchased_withRetryCount (d : PurchaseData) (n : nat) :
  purchased (withRetryCount d n) = purchased d.
Proof. reflexivity. Qed.

Lemma purchased_withRequestId (d : PurchaseData) (id : string) :
  purchased (withRequestId d id) = purchased d.
Proof. reflexivity. Qed.

Lemma airtime_handlePurchaseWithData_failedTransaction st purchaseData made d :
  AirtimePage.failedTransaction
    (fst (AirtimePage.handlePurchaseWithData st purchaseData made)) = Some d ->
  AirtimePage.failedTransaction st = Some d \/ d = withRetryCount purchaseData 0.
Proof.
  unfold AirtimePage.handlePurchaseWithData.
  destruct made as [[r|]|error]; cbv beta iota zeta.
  - destruct (isVTPassSuccess (Some r)); simpl; intros H;
      [left; exact H | right; congruence].
  - simpl. intros H. right. congruence.
  - simpl. intros H. left. exact H.
Qed.

Lemma airtime_step_samePurchase (isAuthenticated : bool) (p : AirtimePage.Page)
    (e : AirtimePage.Event) :
  airtimePending p -> airtimeSamePurchase p ->
  airtimeSamePurchase (AirtimePage.step isAuthenticated p e).
Proof.
  intros Hpend (base & Ha & Hf & Hk).
  assert (Hsame : forall st,
            AirtimePage.failedTransaction st
            = AirtimePage.failedTransaction (AirtimePage.ui p) ->
            airtimeSamePurchase
              (AirtimePage.mkPage st (AirtimePage.inFlight p) (AirtimePage.attempts p)
                 (AirtimePage.effects p))).
  { intros st Hst. exists base. simpl. rewrite Hst. auto. }
  destruct e as [form env|env|n api]; unfold AirtimePage.step.
  - destruct (AirtimePage.purchaseDisabled (AirtimePage.ui p)) eqn:Hd;
      [exists base; auto|].
    unfold AirtimePage.purchaseDisabled in Hd.
    assert (Hnil : AirtimePage.inFlight p = []).
    { destruct Hpend as [[Hp _]|[_ Hnil]]; [congruence | exact Hnil]. }
    destruct form; simpl AirtimePage.handlePurchase; cbv beta iota zeta;
      try (exists base; simpl; auto; fail).
    match goal with
    | |- airtimeSamePurchase (AirtimePage.send _ _ ?req _ _ _) =>
      exists (purchased req)
    end.
    unfold AirtimePage.send. destruct isAuthenticated; simpl; rewrite ?Hnil; simpl.
    + split; [|split].
      * intros x [<-|[]]. reflexivity.
      * intros x [<-|[]]. reflexivity.
      * discriminate.
    + split; [|split].
      * intros x [].
      * intros x [].
      * intros x H. injection H as <-. reflexivity.
  - destruct (AirtimePage.retryDisabled (AirtimePage.ui p)) eqn:Hd;
      [exists base; auto|].
    unfold AirtimePage.handleRetryTransaction.
    destruct (AirtimePage.failedTransaction (AirtimePage.ui p)) as [failed|] eqn:Hft;
      [|exists base; simpl; rewrite Hft; repeat split; auto; discriminate].
    pose proof (Hk failed eq_refl) as Hfailed.
    exists base. unfold AirtimePage.send. destruct isAuthenticated; simpl.
    + repeat split.
      * intros d [<-|Hd']; [exact Hfailed | apply Ha; exact Hd'].
      * intros d Hd'. apply in_app_or in Hd'. destruct Hd' as [Hd'|[<-|[]]];
          [apply Hf; exact Hd' | exact Hfailed].
      * intros d H. injection H as <-. exact Hfailed.
    + repeat split; try assumption.
      intros d H. injection H as <-. exact Hfailed.
  - destruct (nth_error (AirtimePage.inFlight p) n) as [purchaseData|] eqn:Hn;
      [|exists base; auto].
    destruct (makePurchase true api) as [made e1].
    pose proof (airtime_handlePurchaseWithData_failedTransaction
                  (AirtimePage.ui p) purchaseData made) as Hft.
    destruct (AirtimePage.handlePurchaseWithData (AirtimePage.ui p) purchaseData made)
      as [st e2].
    simpl in Hft. exists base. simpl. repeat split.
    + exact Ha.
    + intros d Hd. apply Hf.
      clear - Hd. revert n Hd.
      induction (AirtimePage.inFlight p) as [|x l IH]; intros n Hd; [destruct n; exact Hd|].
      destruct n as [|n]; simpl in Hd; [right; exact Hd|].
      destruct Hd as [<-|Hd]; [left; reflexivity | right; exact (IH n Hd)].
    + intros d Hd. destruct (Hft d Hd) as [H| ->]; [apply Hk; exact H|].
      rewrite purchased_withRetryCount. apply Hf. exact (nth_error_In _ _ Hn).
Qed.

(** X11: on the airtime screen a retry never changes what is bought: all
    requests of one purchase carry the same service, amount, phone, email
    and PIN; only the request id and the retry count differ. *)
Theorem airtime_retries_same_purchase
    (isAuthenticated : bool) (events : list AirtimePage.Event) (a b : PurchaseData) :
  let p := AirtimePage.run isAuthenticated AirtimePage.initialPage events in
  In a (AirtimePage.attempts p) -> In b (AirtimePage.attempts p) ->
  purchased a = purchased b.
Proof.
  assert (H : forall events p, airtimePending p -> airtimeSamePurchase p ->
                airtimeSamePurchase (AirtimePage.run isAuthenticated p events)).
  { clear events. induction events as [|e events IH]; intros p Hp Hs; simpl;
      [exact Hs|].
    apply IH; [apply airtime_step_pending; exact Hp
              | apply airtime_step_samePurchase; assumption]. }
  intros p Ha Hb.
  destruct (H events AirtimePage.initialPage) as (base & Hbase & _).
  - right. split; reflexivity.
  - exists (purchased samplePurchase). simpl.
    split; [intros d [] | split; [intros d [] | intros d Hnone; discriminate Hnone]].
  - fold p in Hbase. rewrite (Hbase a Ha), (Hbase b Hb). reflexivity.
Qed.

(** X11 on the purchase with two retries: the first request and the second
    retry. *)
Lemma airtime_retries_same_purchase_witness :
  let attempts :=
    AirtimePage.attempts (AirtimePage.run true AirtimePage.initialPage airtimeTwoRetries) in
  In (nth 0 attempts samplePurchase) attempts
  /\ In (nth 2 attempts samplePurchase) attempts
  /\ purchased (nth 0 attempts samplePurchase) = purchased (nth 2 attempts samplePurchase).
Proof.
  assert (Ha : In (nth 0 (AirtimePage.attempts
                            (AirtimePage.run true AirtimePage.initialPage
                               airtimeTwoRetries)) samplePurchase)
                 (AirtimePage.attempts
                    (AirtimePage.run true AirtimePage.initialPage airtimeTwoRetries)))
    by (left; reflexivity).
  assert (Hb : In (nth 2 (AirtimePage.attempts
                            (AirtimePage.run true AirtimePage.initialPage
                               airtimeTwoRetries)) samplePurchase)
                 (AirtimePage.attempts
                    (AirtimePage.run true AirtimePage.initialPage airtimeTwoRetries)))
    by (right; right; left; reflexivity).
  split; [exact Ha | split; [exact Hb|]].
  exact (airtime_retries_same_purchase true airtimeTwoRetries _ _ Ha Hb).
Defined.

Lemma electricity_resume_isPurchasing st origin purchaseData made :
  ElectricityPage.isPurchasing
    (fst (ElectricityPage.resume st origin purchaseData made)) = false.
Proof.
  unfold ElectricityPage.resume, ElectricityPage.handlePurchase_resume,
    ElectricityPage.handleRetry_resume, ElectricityPage.handleError.
  destruct origin, made as [response|error]; try reflexivity;
    destruct (isVTPassSuccess response); reflexivity.
Qed.

Lemma electricity_step_pending (isAuthenticated : bool) (p : ElectricityPage.Page)
    (e : ElectricityPage.Event) :
  electricityPending p -> electricityPending (ElectricityPage.step isAuthenticated p e).
Proof.
  intros Hp. unfold electricityPending in *.
  destruct e as [form env|env| |n api]; unfold ElectricityPage.step.
  - destruct (ElectricityPage.purchaseDisabled (ElectricityPage.ui p)) eqn:Hd;
      [exact Hp|].
    unfold ElectricityPage.purchaseDisabled in Hd.
    apply orb_false_elim in Hd. destruct Hd as [_ Hd].
    assert (Hnil : ElectricityPage.inFlight p = []).
    { destruct Hp as [Hnil|[Hp _]]; [exact Hnil | congruence]. }
    destruct form; simpl; [left; exact Hnil|].
    unfold ElectricityPage.send. destruct isAuthenticated; simpl.
    + right. rewrite Hnil. repeat split. eexists; reflexivity.
    + left. exact Hnil.
  - destruct (ElectricityPage.retryDisabled (ElectricityPage.ui p)) eqn:Hd;
      [exact Hp|].
    unfold ElectricityPage.retryDisabled in Hd.
    apply orb_false_elim in Hd. destruct Hd as [Hd _].
    apply orb_false_elim in Hd. destruct Hd as [Hs Hd].
    apply negb_false_iff in Hd.
    assert (Hnil : ElectricityPage.inFlight p = []).
    { destruct Hp as [Hnil|(_ & Hp & _)]; [exact Hnil | congruence]. }
    unfold ElectricityPage.handleRetry.
    destruct (ElectricityPage.failedTransaction (ElectricityPage.ui p)) as [failed|];
      simpl; [|left; exact Hnil].
    unfold ElectricityPage.send. destruct isAuthenticated; simpl.
    + right. rewrite Hnil. repeat split; [exact Hs|]. eexists; reflexivity.
    + left. exact Hnil.
  - destruct (ElectricityPage.transactionSuccessful (ElectricityPage.ui p)
              || ElectricityPage.transactionFailed (ElectricityPage.ui p)) eqn:Hd;
      [|exact Hp].
    simpl. left.
    destruct Hp as [Hnil|(_ & Hf & Hs & _)]; [exact Hnil|].
    rewrite Hf, Hs in Hd. discriminate Hd.
  - destruct (nth_error (ElectricityPage.inFlight p) n) as [[origin purchaseData]|] eqn:Hn;
      [|exact Hp].
    destruct (makePurchase true api) as [made e1].
    destruct (ElectricityPage.resume (ElectricityPage.ui p) origin purchaseData made)
      as [st e2].
    simpl. left.
    destruct Hp as [Hnil|(_ & _ & _ & [x Hx])]; rewrite ?Hnil, ?Hx in *.
    + destruct n; discriminate Hn.
    + apply nth_error_singleton in Hn. subst n. reflexivity.
Qed.

(** X12: the electricity screen never has two requests pending: while one
    is, the form is shown with [isPurchasing] set, so its button is disabled
    and the error card with the retry button is not rendered. *)
Theorem electricity_single_flight
    (isAuthenticated : bool) (events : list ElectricityPage.Event) :
  length (ElectricityPage.inFlight
            (ElectricityPage.run isAuthenticated ElectricityPage.initialPage events))
  <= 1.
Proof.
  assert (H : forall events p, electricityPending p ->
                electricityPending (ElectricityPage.run isAuthenticated p events)).
  { clear events. induction events as [|e events IH]; intros p Hp; simpl;
      [exact Hp | apply IH, electricity_step_pending, Hp]. }
  destruct (H events ElectricityPage.initialPage) as [Hnil|(_ & _ & _ & [x Hx])].
  - left. reflexivity.
  - rewrite Hnil. simpl. lia.
  - rewrite Hx. simpl. lia.
Qed.

Lemma data_handlePurchaseWithData_isPurchasing st purchaseData made :
  DataPage.isPurchasing (fst (DataPage.handlePurchaseWithData st purchaseData made))
  = false.
Proof.
  unfold DataPage.handlePurchaseWithData.
  destruct made as [[r|]|error]; try reflexivity.
  cbv beta iota zeta.
  match goal with |- context [if ?b then _ else _] => destruct b end; reflexivity.
Qed.

Lemma data_step_isPurchasing (isAuthenticated : bool) (p : DataPage.Page)
    (e : DataPage.Event) :
  DataPage.isPurchasing (DataPage.ui p) = false ->
  DataPage.isPurchasing (DataPage.ui (DataPage.step isAuthenticated p e)) = false.
Proof.
  intros Hp.
  assert (Hsend : forall st d toasts,
            DataPage.isPurchasing st = false ->
            DataPage.isPurchasing
              (DataPage.ui (DataPage.send isAuthenticated st d p toasts)) = false).
  { intros st d toasts Hst. unfold DataPage.send. destruct isAuthenticated; [exact Hst|].
    destruct (makePurchase false (Returned None)) as [made e1].
    pose proof (data_handlePurchaseWithData_isPurchasing st d made) as H.
    destruct (DataPage.handlePurchaseWithData st d made) as [st' e2]. exact H. }
  destruct e as [form env|form env| |n api]; unfold DataPage.step.
  - destruct (DataPage.purchaseDisabled (DataPage.ui p)); [exact Hp|].
    destruct form; simpl DataPage.handlePurchase; cbv beta iota zeta;
      try exact Hp.
    apply Hsend. exact Hp.
  - destruct (DataPage.retryDisabled (DataPage.ui p)); [exact Hp|].
    destruct form; simpl DataPage.handleRetryTransaction; cbv beta iota zeta;
      try exact Hp.
    apply Hsend. exact Hp.
  - destruct (DataPage.transactionFailed (DataPage.ui p)); exact Hp.
  - destruct (nth_error (DataPage.inFlight p) n) as [purchaseData|]; [|exact Hp].
    destruct (makePurchase true api) as [made e1].
    pose proof (data_handlePurchaseWithData_isPurchasing (DataPage.ui p) purchaseData made)
      as H.
    destruct (DataPage.handlePurchaseWithData (DataPage.ui p) purchaseData made)
      as [st e2].
    exact H.
Qed.

(** X13: on the data screen [isPurchasing] is never set: in no reachable
    state does the screen show its processing state, and a pending request
    never disables the purchase button. *)
Theorem data_isPurchasing_never_set
    (isAuthenticated : bool) (events : list DataPage.Event) :
  let p := DataPage.run isAuthenticated DataPage.initialPage events in
  DataPage.isPurchasing (DataPage.ui p) = false
  /\ DataPage.purchaseDisabled (DataPage.ui p) = false.
Proof.
  assert (H : forall events p, DataPage.isPurchasing (DataPage.ui p) = false ->
                DataPage.isPurchasing
                  (DataPage.ui (DataPage.run isAuthenticated p events)) = false).
  { clear events. induction events as [|e events IH]; intros p Hp; simpl;
      [exact Hp | apply IH, data_step_isPurchasing, Hp]. }
  split; apply H; reflexivity.
Qed.

(** X14: a response with the pending code 099 whose description lacks
    SUCCESSFUL is handled as a failure: the helper words it as pending, and
    the electricity screen puts that text on its error card, keeps the
    payment for a retry and, unless a success is on display, enables the
    retry button. *)
Theorem pending_code_offered_for_retry
    (r : VTPassResponseData) (st : ElectricityPage.State) (purchaseData : PurchaseData) :
  code r = Some "099" ->
  optIncludes (response_description r) "SUCCESSFUL" = false ->
  ElectricityPage.transactionSuccessful st = false ->
  isVTPassSuccess (Some r) = false
  /\ Helpers.extractVTPassErrorMessage (Some r)
     = "Transaction is pending. Please wait for confirmation."
  /\ ElectricityPage.handlePurchase_resume st purchaseData (Returned (Some r))
     = (ElectricityPage.mkState false false true (ElectricityPage.errorMessage st)
          "Transaction is pending. Please wait for confirmation." (Some purchaseData),
        [ToastError (Text "Transaction is pending. Please wait for confirmation.")])
  /\ ElectricityPage.retryDisabled
       (fst (ElectricityPage.handlePurchase_resume st purchaseData (Returned (Some r))))
     = false.
Proof.
  intros Hc Hd Hs.
  assert (Hsucc : isVTPassSuccess (Some r) = false).
  { unfold isVTPassSuccess. rewrite Hc, Hd. simpl. apply andb_false_r. }
  assert (Hmsg : Helpers.extractVTPassErrorMessage (Some r)
                 = "Transaction is pending. Please wait for confirmation.").
  { unfold Helpers.extractVTPassErrorMessage, switchOnCode. simpl. rewrite Hc.
    reflexivity. }
  assert (Hres : ElectricityPage.handlePurchase_resume st purchaseData (Returned (Some r))
                 = (ElectricityPage.mkState false false true
                      (ElectricityPage.errorMessage st)
                      "Transaction is pending. Please wait for confirmation."
                      (Some purchaseData),
                    [ToastError
                       (Text "Transaction is pending. Please wait for confirmation.")])).
  { unfold ElectricityPage.handlePurchase_resume. rewrite Hsucc, Hmsg, Hs. reflexivity. }
  repeat split; try assumption. rewrite Hres. reflexivity.
Qed.

(** X14 at [{code: "099", response_description: "TRANSACTION PROCESSING"}]. *)
Lemma pending_code_offered_for_retry_witness :
  ElectricityPage.retryDisabled
    (fst (ElectricityPage.handlePurchase_resume ElectricityPage.initialState
            samplePurchase
            (Returned (Some (mkResponse (Some "099") (Some "TRANSACTION PROCESSING")
                               None None None None None))))) = false.
Proof.
  exact (proj2 (proj2 (proj2
    (pending_code_offered_for_retry
       (mkResponse (Some "099") (Some "TRANSACTION PROCESSING") None None None None None)
       ElectricityPage.initialState samplePurchase eq_refl eq_refl eq_refl)))).
Defined.

(** ** The route middleware *)

Lemma middleware_follow_cookies (r : Middleware.Request) (path : string) :
  Middleware.isAuthenticated (Middleware.follow r path) = Middleware.isAuthenticated r
  /\ Middleware.hasPinSet (Middleware.follow r path) = Middleware.hasPinSet r.
Proof. split; reflexivity. Qed.

Lemma middleware_cases (r : Middleware.Request) :
  Middleware.middleware r = Middleware.Next
  \/ (Middleware.isAuthenticated r = false
      /\ Middleware.middleware r = Middleware.Redirect "/auth/login")
  \/ (Middleware.isAuthenticated r = true /\ Middleware.hasPinSet r = false
      /\ Middleware.middleware r = Middleware.Redirect "/auth/setpin")
  \/ (Middleware.isAuthenticated r = true
      /\ Middleware.middleware r = Middleware.Redirect "/dashboard").
Proof.
  unfold Middleware.middleware.
  destruct (Middleware.isPublicPath (Middleware.pathname r)),
    (Middleware.isAuthenticated r), (Middleware.hasPinSet r),
    (Middleware.safeIncludes (Some (Middleware.pathname r)) "/auth/setpin"),
    (existsb (String.eqb (Middleware.pathname r)) Middleware.authPaths),
    (Middleware.pathname r =? "/auth/setpin"); simpl; auto 10.
Qed.

(** X15: the middleware never sends the browser round in circles: from any
    request, following its redirects reaches a page after at most two of
    them, and that page is the one asked for, the login page (no token),
    the dashboard (token and PIN) or the PIN page (token, no PIN). *)
Theorem middleware_redirects_settle (r : Middleware.Request) :
  Middleware.landing 2 r
  = Some (match Middleware.middleware r with
          | Middleware.Next => Middleware.pathname r
          | Middleware.Redirect _ =>
            if Middleware.isAuthenticated r
            then if Middleware.hasPinSet r then "/dashboard" else "/auth/setpin"
            else "/auth/login"
          end).
Proof.
  assert (Hlogin : forall r, Middleware.isAuthenticated r = false ->
                   Middleware.middleware (Middleware.follow r "/auth/login")
                   = Middleware.Next).
  { intros r0 Ha. unfold Middleware.middleware.
    destruct (middleware_follow_cookies r0 "/auth/login") as [-> ->]. rewrite Ha.
    reflexivity. }
  assert (Hsetpin : forall r, Middleware.isAuthenticated r = true ->
                    Middleware.hasPinSet r = false ->
                    Middleware.middleware (Middleware.follow r "/auth/setpin")
                    = Middleware.Next).
  { intros r0 Ha Hp. unfold Middleware.middleware.
    destruct (middleware_follow_cookies r0 "/auth/setpin") as [-> ->]. rewrite Ha, Hp.
    reflexivity. }
  assert (Hdash : forall r, Middleware.isAuthenticated r = true ->
                  Middleware.middleware (Middleware.follow r "/dashboard")
                  = if Middleware.hasPinSet r then Middleware.Next
                    else Middleware.Redirect "/auth/setpin").
  { intros r0 Ha. unfold Middleware.middleware.
    destruct (middleware_follow_cookies r0 "/dashboard") as [-> ->]. rewrite Ha.
    destruct (Middleware.hasPinSet r0); reflexivity. }
  unfold Middleware.landing.
  destruct (middleware_cases r) as [Hm|[[Ha Hm]|[(Ha & Hp & Hm)|[Ha Hm]]]]; rewrite Hm.
  - reflexivity.
  - rewrite (Hlogin r Ha), Ha. reflexivity.
  - rewrite (Hsetpin r Ha Hp), Ha, Hp. reflexivity.
  - rewrite (Hdash r Ha), Ha. destruct (Middleware.hasPinSet r) eqn:Hp; [reflexivity|].
    rewrite (Hsetpin (Middleware.follow r "/dashboard") Ha Hp). reflexivity.
Qed.

(** X16: a page outside the public paths is served only to a request that
    carries a token, and then only if its PIN cookie is set or the path
    contains /auth/setpin. *)
Theorem middleware_guards_protected_paths (r : Middleware.Request) :
  Middleware.middleware r = Middleware.Next ->
  Middleware.isPublicPath (Middleware.pathname r) = false ->
  Middleware.isAuthenticated r = true
  /\ (Middleware.hasPinSet r = true
      \/ Middleware.safeIncludes (Some (Middleware.pathname r)) "/auth/setpin" = true).
Proof.
  unfold Middleware.middleware. intros Hnext Hpub. rewrite Hpub in Hnext.
  simpl negb in Hnext.
  destruct (Middleware.isAuthenticated r); [|discriminate Hnext].
  split; [reflexivity|].
  simpl in Hnext.
  destruct (Middleware.hasPinSet r); [left; reflexivity|].
  destruct (Middleware.safeIncludes (Some (Middleware.pathname r)) "/auth/setpin");
    [right; reflexivity|].
  discriminate Hnext.
Qed.

(** X16 at the dashboard, asked for with a token and the PIN cookie. *)
Lemma middleware_guards_protected_paths_witness :
  Middleware.isAuthenticated
    (Middleware.mkRequest "/dashboard" (Some "token") None (Some "true")) = true.
Proof.
  exact (proj1 (middleware_guards_protected_paths
                  (Middleware.mkRequest "/dashboard" (Some "token") None (Some "true"))
                  eq_refl eq_refl)).
Defined.

(** ** Recent phone numbers *)

Lemma firstn_In {A} (n : nat) (l : list A) (x : A) : In x (firstn n l) -> In x l.
Proof.
  revert n. induction l as [|y l IH]; intros [|n]; simpl; try tauto.
  intros [->|Hin]; [left; reflexivity | right; exact (IH n Hin)].
Qed.

Lemma firstn_NoDup {A} (n : nat) (l : list A) : NoDup l -> NoDup (firstn n l).
Proof.
  intros H. revert n. induction H as [|x l Hx H IH]; intros [|n]; simpl;
    try constructor.
  - intros Hin. apply Hx. exact (firstn_In _ _ _ Hin).
  - apply IH.
Qed.

Lemma map_firstn {A B} (f : A -> B) (n : nat) (l : list A) :
  map f (firstn n l) = firstn n (map f l).
Proof.
  revert n. induction l as [|x l IH]; intros [|n]; simpl; try reflexivity.
  rewrite IH. reflexivity.
Qed.

Lemma pushRecent_kept (newRecent : RecentNumbers.RecentPhoneNumber)
    (recents : list RecentNumbers.RecentPhoneNumber) :
  NoDup (map RecentNumbers.number recents) ->
  length (RecentNumbers.pushRecent newRecent recents) <= 5
  /\ NoDup (map RecentNumbers.number (RecentNumbers.pushRecent newRecent recents)).
Proof.
  intros Hnd. unfold RecentNumbers.pushRecent. split.
  - apply firstn_le_length.
  - rewrite map_firstn. apply firstn_NoDup. simpl. constructor.
    + intros Hin. apply in_map_iff in Hin. destruct Hin as (r & Hr & Hin).
      apply filter_In in Hin. destruct Hin as [_ Hneq].
      apply negb_true_iff in Hneq. apply String.eqb_neq in Hneq. congruence.
    + induction recents as [|r recents IH]; simpl; [constructor|].
      inversion Hnd as [|? ? Hr Hrest]; subst.
      destruct (negb (RecentNumbers.number r =? RecentNumbers.number newRecent)); simpl.
      * constructor; [|exact (IH Hrest)].
        intros Hin. apply Hr. apply in_map_iff in Hin. destruct Hin as (x & Hx & Hin).
        apply filter_In in Hin. apply in_map_iff. exists x. tauto.
      * exact (IH Hrest).
Qed.

Lemma filterIndexed_In {A} (f : nat -> A -> bool) (start : nat) (l : list A) (y : A) :
  In y (RecentNumbers.filterIndexed f start l) ->
  In y l /\ exists index, start <= index /\ f index y = true.
Proof.
  revert start. induction l as [|x l IH]; intros start; simpl; [tauto|].
  destruct (f start x) eqn:Hf; simpl.
  - intros [->|Hin].
    + split; [left; reflexivity | exists start; split; [lia | exact Hf]].
    + destruct (IH _ Hin) as [Hl (index & Hle & Hi)].
      split; [right; exact Hl | exists index; split; [lia | exact Hi]].
  - intros Hin. destruct (IH _ Hin) as [Hl (index & Hle & Hi)].
    split; [right; exact Hl | exists index; split; [lia | exact Hi]].
Qed.

Lemma filterIndexed_first_NoDup (all l : list RecentNumbers.RecentPhoneNumber)
    (start : nat) :
  NoDup (map RecentNumbers.number
           (RecentNumbers.filterIndexed
              (fun index item =>
                 RecentNumbers.isIndex
                   (RecentNumbers.findIndex
                      (fun t => RecentNumbers.number t =? RecentNumbers.number item) all)
                   index)
              start l)).
Proof.
  revert start. induction l as [|x l IH]; intros start; simpl; [constructor|].
  destruct (RecentNumbers.isIndex _ start) eqn:Hx; [|apply IH].
  simpl. constructor; [|apply IH].
  intros Hin. apply in_map_iff in Hin. destruct Hin as (y & Hy & Hin).
  apply filterIndexed_In in Hin. destruct Hin as [_ (index & Hle & Hi)].
  rewrite Hy in Hi.
  destruct (RecentNumbers.findIndex
              (fun t => RecentNumbers.number t =? RecentNumbers.number x) all)
    as [i|]; simpl in Hx, Hi; [|discriminate Hx].
  apply Nat.eqb_eq in Hx, Hi. lia.
Qed.

Lemma recentFromTransactions_fiveDistinct
    (transactionsData : list RecentNumbers.Transaction) :
  fiveDistinct (RecentNumbers.recentFromTransactions transactionsData).
Proof.
  unfold fiveDistinct, RecentNumbers.recentFromTransactions. cbv zeta.
  split; [apply firstn_le_length|].
  rewrite map_firstn. apply firstn_NoDup, filterIndexed_first_NoDup.
Qed.

Lemma recentChange_kept (networks : list RecentNumbers.NetworkProvider)
    (st : RecentNumbers.Recents) (change : RecentChange) :
  recentsKept st -> recentsKept (recentChange networks st change).
Proof.
  unfold recentsKept. intros [Hscreen Hstored].
  destruct change as [[transactionsData|]|phone networkId]; simpl.
  - split; [apply recentFromTransactions_fiveDistinct | exact Hstored].
  - split; assumption.
  - unfold RecentNumbers.saveRecentPhoneNumber.
    destruct (find (fun n => RecentNumbers.id n =? networkId) networks) as [found|];
      [|split; assumption].
    destruct (RecentNumbers.stored st) as [| |existing]; simpl.
    + destruct (pushRecent_kept
                  (RecentNumbers.mkRecent phone networkId
                     (RecentNumbers.provider_image found))
                  [] (NoDup_nil _)) as [Hlen Hnd].
      split; split; assumption.
    + destruct Hstored.
    + destruct Hstored as [_ Hnd0].
      destruct (pushRecent_kept
                  (RecentNumbers.mkRecent phone networkId
                     (RecentNumbers.provider_image found))
                  existing Hnd0) as [Hlen Hnd].
      split; split; assumption.
Qed.

(** X17: from a fresh browser (nothing stored, nothing on screen), whatever
    transaction loads and saved purchases follow in whatever order, the
    recent numbers on screen are at most five with no phone number twice, and
    so are the stored ones once something is stored.  The screen need not
    show the stored list: a load replaces the numbers on screen and leaves
    the storage, and a save builds both from the storage alone. *)
Theorem recent_numbers_bounded_distinct
    (networks : list RecentNumbers.NetworkProvider) (changes : list RecentChange) :
  let st := recentChanges networks (RecentNumbers.mkRecents RecentNumbers.Absent [])
              changes in
  fiveDistinct (RecentNumbers.recentNumbers st)
  /\ (RecentNumbers.stored st = RecentNumbers.Absent
      \/ exists recents,
           RecentNumbers.stored st = RecentNumbers.Items recents
           /\ fiveDistinct recents)
  /\ (forall transactionsData,
        let loaded := recentChange networks st (TransactionsLoaded (Some transactionsData)) in
        RecentNumbers.stored loaded = RecentNumbers.stored st
        /\ RecentNumbers.recentNumbers loaded
           = RecentNumbers.recentFromTransactions transactionsData)
  /\ (forall phone networkId found,
        find (fun n => RecentNumbers.id n =? networkId) networks = Some found ->
        let saved := recentChange networks st (PurchaseSaved phone networkId) in
        RecentNumbers.stored saved = RecentNumbers.Items (RecentNumbers.recentNumbers saved)
        /\ RecentNumbers.recentNumbers saved
           = RecentNumbers.pushRecent
               (RecentNumbers.mkRecent phone networkId (RecentNumbers.provider_image found))
               match RecentNumbers.stored st with
               | RecentNumbers.Items existing => existing
               | _ => []
               end).
Proof.
  assert (H : forall changes st, recentsKept st ->
                recentsKept (recentChanges networks st changes)).
  { clear changes. induction changes as [|change changes IH]; intros st Hst; simpl;
      [exact Hst | apply IH, recentChange_kept, Hst]. }
  assert (Hinit : recentsKept (RecentNumbers.mkRecents RecentNumbers.Absent [])).
  { split; [split; simpl; [lia | constructor] | exact I]. }
  specialize (H changes _ Hinit). cbv zeta.
  destruct H as [Hscreen Hstored].
  split; [exact Hscreen|]. split.
  - destruct (RecentNumbers.stored
                (recentChanges networks
                   (RecentNumbers.mkRecents RecentNumbers.Absent []) changes))
      as [| |recents].
    + left. reflexivity.
    + destruct Hstored.
    + right. exists recents. split; [reflexivity | exact Hstored].
  - split.
    + intros transactionsData. split; reflexivity.
    + intros phone networkId found Hfind. simpl.
      unfold RecentNumbers.saveRecentPhoneNumber. rewrite Hfind.
      destruct (RecentNumbers.stored
                  (recentChanges networks
                     (RecentNumbers.mkRecents RecentNumbers.Absent []) changes))
        as [| |existing]; simpl.
      * split; reflexivity.
      * destruct Hstored.
      * split; reflexivity.
Qed.

(** X18: saving a purchase on a known network, with a usable storage, puts
    its number first, with the network's image, and nowhere else in the
    list. *)
Theorem saved_number_comes_first
    (networks : list RecentNumbers.NetworkProvider) (st : RecentNumbers.Recents)
    (phone networkId : string) (found : RecentNumbers.NetworkProvider) :
  find (fun n => RecentNumbers.id n =? networkId) networks = Some found ->
  RecentNumbers.stored st <> RecentNumbers.Unusable ->
  exists rest,
    RecentNumbers.recentNumbers
      (RecentNumbers.saveRecentPhoneNumber networks st phone networkId)
    = RecentNumbers.mkRecent phone networkId (RecentNumbers.provider_image found) :: rest
    /\ ~ In phone (map RecentNumbers.number rest).
Proof.
  intros Hfind Hs. unfold RecentNumbers.saveRecentPhoneNumber. rewrite Hfind.
  assert (Hpush : forall existing,
            exists rest,
              RecentNumbers.pushRecent
                (RecentNumbers.mkRecent phone networkId (RecentNumbers.provider_image found))
                existing
              = RecentNumbers.mkRecent phone networkId (RecentNumbers.provider_image found)
                :: rest
              /\ ~ In phone (map RecentNumbers.number rest)).
  { intros existing. unfold RecentNumbers.pushRecent.
    change (firstn 5 (?x :: ?l)) with (x :: firstn 4 l).
    eexists. split; [reflexivity|]. cbv beta iota.
    intros Hin. apply in_map_iff in Hin. destruct Hin as (r & Hr & Hin).
    apply firstn_In in Hin. apply filter_In in Hin. destruct Hin as [_ Hneq].
    apply negb_true_iff in Hneq. apply String.eqb_neq in Hneq. simpl in Hneq.
    congruence. }
  destruct (RecentNumbers.stored st) as [| |existing]; simpl.
  - apply Hpush.
  - contradiction Hs. reflexivity.
  - apply Hpush.
Qed.

(** X18 on saving a second purchase for a number that is already stored. *)
Lemma saved_number_comes_first_witness :
  exists rest,
    RecentNumbers.recentNumbers
      (RecentNumbers.saveRecentPhoneNumber RecentNumbers.defaultNetworks
         (RecentNumbers.mkRecents
            (RecentNumbers.Items
               [RecentNumbers.mkRecent "08051111111" "glo" "/providers/glo.png";
                RecentNumbers.mkRecent "08030000000" "mtn" "/providers/mtn.jpg"])
            [])
         "08030000000" "airtel")
    = RecentNumbers.mkRecent "08030000000" "airtel" "/providers/airtel.png" :: rest
    /\ ~ In "08030000000" (map RecentNumbers.number rest).
Proof.
  apply (saved_number_comes_first RecentNumbers.defaultNetworks
           (RecentNumbers.mkRecents
              (RecentNumbers.Items
                 [RecentNumbers.mkRecent "08051111111" "glo" "/providers/glo.png";
                  RecentNumbers.mkRecent "08030000000" "mtn" "/providers/mtn.jpg"])
              [])
           "08030000000" "airtel"
           (RecentNumbers.mkNetworkProvider "airtel" "AIRTEL" "/providers/airtel.png"
              "airtel")).
  - reflexivity.
  - simpl. discriminate.
Defined.

(** X19: the recent numbers that the airtime screen derives from the
    transactions are at most five, hold no phone number twice and no empty
    one, and each names one of the four networks with that network's image. *)
Theorem recentFromTransactions_wellformed
    (transactionsData : list RecentNumbers.Transaction) :
  let recents := RecentNumbers.recentFromTransactions transactionsData in
  length recents <= 5
  /\ NoDup (map RecentNumbers.number recents)
  /\ Forall (fun r =>
               RecentNumbers.number r <> ""
               /\ exists n, In n RecentNumbers.defaultNetworks
                            /\ RecentNumbers.network r = RecentNumbers.id n
                            /\ RecentNumbers.image r = RecentNumbers.provider_image n)
       recents.
Proof.
  cbv zeta. unfold RecentNumbers.recentFromTransactions. cbv zeta.
  split; [apply firstn_le_length|].
  split; [rewrite map_firstn; apply firstn_NoDup, filterIndexed_first_NoDup|].
  apply Forall_forall. intros r Hin.
  apply firstn_In in Hin. apply filterIndexed_In in Hin. destruct Hin as [Hin _].
  apply filter_In in Hin. destruct Hin as [Hin Hne].
  split.
  - apply negb_true_iff in Hne. apply String.eqb_neq in Hne. exact Hne.
  - apply in_map_iff in Hin. destruct Hin as (tx & <- & _).
    destruct (find (fun n => RecentNumbers.serviceID n =? RecentNumbers.service_id tx)
                RecentNumbers.defaultNetworks) as [n|] eqn:Hfind.
    + exists n. split; [exact (proj1 (find_some _ _ Hfind)) | split; reflexivity].
    + eexists. split; [left; reflexivity | split; reflexivity].
Qed.

(** ** The balance shown by the context *)

(** X20: refreshing the balance never reports a failure: getVTPassBalance
    turns every failed request into a zero balance, so fetchBalance raises
    no toast, shows the text of a number, and on a failed request the text
    of zero; its own fallback text and error toast are never reached. *)
Theorem balance_refresh_never_reports_failure
    (numberToText : number -> string) (parseFloat : string -> number)
    (st : BalanceContext.State) (api : Completion (option BalanceResponse) AppError) :
  (exists n, BalanceContext.refresh numberToText parseFloat true st api
             = (BalanceContext.mkState (Some (numberToText n)) false, [])
             /\ match api with
                | Thrown _ | Returned None => n = zero
                | Returned (Some _) => True
                end)
  /\ BalanceContext.refresh numberToText parseFloat false st api = (st, []).
Proof.
  split; [|reflexivity].
  unfold BalanceContext.refresh, getVTPassBalance, getVTPassBalance_try.
  destruct api as [[typedResponse|]|error].
  - destruct (data typedResponse) as [[[[s|n|]|]]|];
      try (eexists; split; [reflexivity | exact I]);
      destruct (balance typedResponse) as [[s'|n'|]|];
      eexists; split; try reflexivity; exact I.
  - exists zero. split; reflexivity.
  - exists zero. split; reflexivity.
Qed.

(** ** Variation codes and service ids *)

Lemma assoc_In {A} (fields : list (string * A)) (key : string) (v : A) :
  VariationCodes.assoc fields key = Some v -> In (key, v) fields.
Proof.
  induction fields as [|[k w] fields IH]; simpl; [discriminate|].
  destruct (k =? key) eqn:Hk.
  - apply String.eqb_eq in Hk. intros H. injection H as ->. left. congruence.
  - intros H. right. exact (IH H).
Qed.

(** No corrected code of the table is empty, an old code of its own list, or
    the name of an inherited property. *)
Lemma corrected_codes_are_fixed (networkKey service : string)
    (services : list (string * list (string * string)))
    (codes : list (string * string)) (oldCode code : string) :
  VariationCodes.assoc VariationCodes.VTPASS_VARIATION_CODES networkKey = Some services ->
  VariationCodes.assoc services service = Some codes ->
  VariationCodes.assoc codes oldCode = Some code ->
  (code =? "") = false
  /\ VariationCodes.assoc codes code = None
  /\ existsb (String.eqb code) VariationCodes.objectPrototypeKeys = false.
Proof.
  intros Hs Hc Ho. apply assoc_In in Hs, Hc, Ho.
  assert (Hall : forallb (fun network =>
            forallb (fun service =>
              forallb (fun entry =>
                negb (snd entry =? "")
                && match VariationCodes.assoc (snd service) (snd entry) with
                   | None => true
                   | Some _ => false
                   end
                && negb (existsb (String.eqb (snd entry))
                           VariationCodes.objectPrototypeKeys))
                (snd service))
              (snd network))
            VariationCodes.VTPASS_VARIATION_CODES = true) by reflexivity.
  pose proof (proj1 (forallb_forall _ _) Hall _ Hs) as H1. simpl in H1.
  pose proof (proj1 (forallb_forall _ _) H1 _ Hc) as H2. simpl in H2.
  pose proof (proj1 (forallb_forall _ _) H2 _ Ho) as H3. cbv beta in H3.
  change (snd (oldCode, code)) with code in H3.
  apply andb_true_iff in H3. destruct H3 as [H3 Hp].
  apply andb_true_iff in H3. destruct H3 as [He Ha].
  apply negb_true_iff in He, Hp.
  destruct (VariationCodes.assoc codes code); [discriminate Ha|].
  repeat split; assumption.
Qed.

(** Every network of the table has its list of data codes. *)
Lemma known_network_has_data_codes (networkKey : string)
    (services : list (string * list (string * string))) :
  VariationCodes.assoc VariationCodes.VTPASS_VARIATION_CODES networkKey = Some services ->
  exists codes,
    VariationCodes.assoc services (VariationCodes.serviceText VariationCodes.DATA)
    = Some codes
    /\ forall key, In key VariationCodes.objectPrototypeKeys ->
                   VariationCodes.assoc codes key = None.
Proof.
  intros Hs. apply assoc_In in Hs.
  assert (Hall : forallb (fun network =>
            match VariationCodes.assoc (snd network)
                    (VariationCodes.serviceText VariationCodes.DATA) with
            | Some codes =>
              forallb (fun key => match VariationCodes.assoc codes key with
                                  | None => true
                                  | Some _ => false
                                  end)
                VariationCodes.objectPrototypeKeys
            | None => false
            end)
            VariationCodes.VTPASS_VARIATION_CODES = true) by reflexivity.
  pose proof (proj1 (forallb_forall _ _) Hall _ Hs) as H1. cbv beta in H1.
  change (snd (networkKey, services)) with services in H1.
  destruct (VariationCodes.assoc services (VariationCodes.serviceText VariationCodes.DATA))
    as [codes|]; [|discriminate H1].
  exists codes. split; [reflexivity|]. intros key Hkey.
  pose proof (proj1 (forallb_forall _ _) H1 _ Hkey) as H2. cbv beta in H2.
  destruct (VariationCodes.assoc codes key); [discriminate H2 | reflexivity].
Qed.

Lemma append_cancel (a x y : string) : (a ++ x = a ++ y)%string -> x = y.
Proof.
  induction a as [|c a IH]; simpl; intros H; [exact H|].
  injection H as H. exact (IH H).
Qed.

(** X21: converting a variation code twice gives what converting it once
    gives: no corrected code is itself an old code of its network. *)
Theorem getCorrectVariationCode_idempotent (networkId oldCode code : string) :
  VariationCodes.isAscii networkId = true ->
  VariationCodes.getCorrectVariationCode networkId oldCode = VariationCodes.Code code ->
  VariationCodes.getCorrectVariationCode networkId code = VariationCodes.Code code.
Proof.
  intros _.
  unfold VariationCodes.getCorrectVariationCode, VariationCodes.getProperty.
  cbv zeta. generalize (VariationCodes.toUpperCase networkId). intros networkKey.
  destruct (VariationCodes.assoc VariationCodes.VTPASS_VARIATION_CODES networkKey)
    as [services|] eqn:Hs.
  2:{ destruct (existsb _ _); intros H; injection H as <-; reflexivity. }
  destruct (VariationCodes.assoc services (VariationCodes.serviceText VariationCodes.DATA))
    as [codes|] eqn:Hc.
  2:{ destruct (existsb _ _); intros H; injection H as <-; reflexivity. }
  destruct (VariationCodes.assoc codes oldCode) as [c|] eqn:Ho.
  - destruct (corrected_codes_are_fixed _ _ _ _ _ _ Hs Hc Ho) as (He & Ha & Hp).
    rewrite He. intros H. injection H as <-. rewrite Ha, Hp. reflexivity.
  - destruct (existsb (String.eqb oldCode) VariationCodes.objectPrototypeKeys) eqn:Hp;
      intros H; [discriminate H|]. injection H as <-. rewrite Ho, Hp. reflexivity.
Qed.

(** X21 at an old MTN code. *)
Lemma getCorrectVariationCode_idempotent_witness :
  VariationCodes.getCorrectVariationCode "mtn" "mtn-weekly-1gb"
  = VariationCodes.Code "mtn-weekly-1gb".
Proof.
  exact (getCorrectVariationCode_idempotent "mtn" "1GB-7Days" "mtn-weekly-1gb"
           eq_refl eq_refl).
Defined.

(** X22: for a network of the table, an old code that names a property every
    object inherits (constructor, toString, ...) is answered with that
    inherited value, which is not a text: the lookup does not stop at the
    codes of the table. *)
Theorem getCorrectVariationCode_inherited_key (networkId oldCode : string) :
  VariationCodes.isAscii networkId = true ->
  In (VariationCodes.toUpperCase networkId) (map fst VariationCodes.VTPASS_VARIATION_CODES) ->
  In oldCode VariationCodes.objectPrototypeKeys ->
  VariationCodes.getCorrectVariationCode networkId oldCode
  = VariationCodes.InheritedValue oldCode.
Proof.
  intros _ Hnet Hkey.
  unfold VariationCodes.getCorrectVariationCode, VariationCodes.getProperty. cbv zeta.
  destruct (VariationCodes.assoc VariationCodes.VTPASS_VARIATION_CODES
              (VariationCodes.toUpperCase networkId)) as [services|] eqn:Hs.
  - destruct (known_network_has_data_codes _ _ Hs) as (codes & -> & Hnone).
    rewrite (Hnone _ Hkey).
    assert (Hex : existsb (String.eqb oldCode) VariationCodes.objectPrototypeKeys = true).
    { apply existsb_exists. exists oldCode. split; [exact Hkey | apply String.eqb_refl]. }
    rewrite Hex. reflexivity.
  - exfalso. revert Hnet Hs.
    generalize (VariationCodes.toUpperCase networkId). intros networkKey.
    simpl. intros [<-|[<-|[<-|[<-|[]]]]]; discriminate.
Qed.

(** X22 at MTN and the old code [constructor]. *)
Lemma getCorrectVariationCode_inherited_key_witness :
  VariationCodes.getCorrectVariationCode "mtn" "constructor"
  = VariationCodes.InheritedValue "constructor".
Proof.
  apply getCorrectVariationCode_inherited_key.
  - reflexivity.
  - left. reflexivity.
  - left. reflexivity.
Defined.

(** X23: the service id is never empty, and a network's airtime and data
    purchases never go under the same service id, whether the network is in
    the table or the fallback id is built from its name. *)
Theorem getCorrectServiceId_nonempty_distinct
    (networkId : string) (service : VariationCodes.Service) :
  VariationCodes.isAscii networkId = true ->
  VariationCodes.getCorrectServiceId networkId service <> ""
  /\ VariationCodes.getCorrectServiceId networkId VariationCodes.AIRTIME
     <> VariationCodes.getCorrectServiceId networkId VariationCodes.DATA.
Proof.
  intros _.
  assert (Hfallback : forall s, (networkId ++ "-" ++ s)%string <> "").
  { intros s. destruct networkId; discriminate. }
  assert (Hall : forallb (fun network =>
            match VariationCodes.assoc (snd network) "AIRTIME",
                  VariationCodes.assoc (snd network) "DATA" with
            | Some a, Some d => negb (a =? "") && negb (d =? "") && negb (a =? d)
            | _, _ => false
            end) VariationCodes.VTPASS_SERVICE_IDS = true) by reflexivity.
  unfold VariationCodes.getCorrectServiceId, VariationCodes.getProperty. cbv zeta.
  destruct (VariationCodes.assoc VariationCodes.VTPASS_SERVICE_IDS
              (VariationCodes.toUpperCase networkId)) as [services|] eqn:Hs.
  - apply assoc_In in Hs.
    pose proof (proj1 (forallb_forall _ _) Hall _ Hs) as H1. cbv beta in H1.
    change (snd (VariationCodes.toUpperCase networkId, services)) with services in H1.
    assert (Hboth : exists a d,
               VariationCodes.assoc services "AIRTIME" = Some a
               /\ VariationCodes.assoc services "DATA" = Some d
               /\ (a =? "") = false /\ (d =? "") = false /\ a <> d).
    { destruct (VariationCodes.assoc services "AIRTIME") as [a|]; [|discriminate H1].
      destruct (VariationCodes.assoc services "DATA") as [d|]; [|discriminate H1].
      apply andb_true_iff in H1. destruct H1 as [H1 Had].
      apply andb_true_iff in H1. destruct H1 as [Ha Hd].
      apply negb_true_iff in Ha, Hd, Had. apply String.eqb_neq in Had.
      exists a, d. repeat split; assumption. }
    destruct Hboth as (a & d & Hsa & Hsd & Ha & Hd & Had).
    split.
    + destruct service; simpl VariationCodes.serviceText;
        rewrite ?Hsa, ?Hsd, ?Ha, ?Hd; apply String.eqb_neq; assumption.
    + simpl VariationCodes.serviceText. rewrite Hsa, Hsd, Ha, Hd. exact Had.
  - destruct (existsb (String.eqb (VariationCodes.toUpperCase networkId))
                VariationCodes.objectPrototypeKeys).
    + split; [apply Hfallback|].
      intros H. apply append_cancel in H. discriminate H.
    + split; [apply Hfallback|].
      intros H. apply append_cancel in H. discriminate H.
Qed.

(** X23 at a network that is not in the table. *)
Lemma getCorrectServiceId_nonempty_distinct_witness :
  VariationCodes.getCorrectServiceId "smile" VariationCodes.DATA <> "".
Proof.
  exact (proj1 (getCorrectServiceId_nonempty_distinct "smile" VariationCodes.DATA eq_refl)).
Defined.

(** ** Services, PIN and session cookies *)

Lemma getVTPassServices_returns
    (api : Completion ApiRequest.Json ApiRequest.ApiError) :
  exists response,
    Services.getVTPassServices api = Returned response
    /\ ApiRequest.truthyJson response = true
    /\ Services.truthyValue (Services.property response "content") = true.
Proof.
  unfold Services.getVTPassServices, Services.getVTPassServices_inner.
  destruct api as [rawResponse|err].
  - destruct (ApiRequest.truthyJson rawResponse) eqn:Ht; simpl.
    + destruct (Services.truthyValue (Services.property rawResponse "content")) eqn:Hc;
        simpl.
      * exists rawResponse. repeat split; auto.
      * eexists. repeat split.
    + eexists. repeat split.
  - destruct (ApiRequest.name err =? "AbortError"); eexists; repeat split.
Qed.

(** What the outer [catch] of apiRequest throws is never named AbortError. *)
Lemma outerCatch_not_abort (e : ApiRequest.ApiError) :
  ApiRequest.name (ApiRequest.outerCatch e) <> "AbortError".
Proof.
  unfold ApiRequest.outerCatch.
  destruct ((ApiRequest.name e =? "TypeError")
            && includes (ApiRequest.message e) "NetworkError"); [discriminate|].
  destruct (ApiRequest.name e =? "AbortError") eqn:Ha; [discriminate|].
  destruct (ApiRequest.response e); [apply String.eqb_neq; exact Ha | discriminate].
Qed.

(** A rejection of apiRequest comes from its outer [catch] or is that of the
    repeated call. *)
Lemma apiRequest_thrown_cases
    (stringOf : ApiRequest.Json -> string) (titleOf : string -> option string)
    (isAuthenticated : bool) (fetched : ApiRequest.FetchOutcome)
    (refreshed : Completion bool ApiRequest.ApiError)
    (retried : Completion ApiRequest.Json ApiRequest.ApiError)
    (err : ApiRequest.ApiError) :
  ApiRequest.apiRequest stringOf titleOf isAuthenticated fetched refreshed retried
  = Thrown err ->
  retried = Thrown err \/ exists e, err = ApiRequest.outerCatch e.
Proof.
  unfold ApiRequest.apiRequest.
  destruct (ApiRequest.tryBlock stringOf titleOf isAuthenticated fetched refreshed retried)
    as [result|e0] eqn:Ht.
  - intros ->. unfold ApiRequest.tryBlock in Ht.
    destruct fetched as [e0|r]; [discriminate|].
    destruct (negb (ApiRequest.ok r)).
    + destruct ((ApiRequest.status r =? 401)%nat && isAuthenticated).
      * destruct refreshed as [[|]|e0]; try discriminate. left. congruence.
      * rewrite notOk_throws in Ht. discriminate.
    + destruct (fst (ApiRequest.okBody r false)); [|discriminate].
      injection Ht as Ht. discriminate.
  - intros H. injection H as <-. right. exists e0. reflexivity.
Qed.

(** X24: getVTPassServices never rejects and its result always has a truthy
    [content]: the backend's response when that is truthy with a truthy
    [content]; otherwise a response of its own asking for the default
    bundles, with code "error" for an unusable body, code "timeout" when the
    awaited call rejects with an error named AbortError, and code "error"
    with the error's message for any other rejection.  Through apiRequest
    the code "timeout" is out of reach: an aborted fetch arrives reworded and
    gets code "error" with "Request timed out. Please try again.", and so
    does every rejection that is not that of apiRequest's repeated call. *)
Theorem getVTPassServices_always_has_content
    (api : Completion ApiRequest.Json ApiRequest.ApiError) :
  (exists response,
     Services.getVTPassServices api = Returned response
     /\ ApiRequest.truthyJson response = true
     /\ Services.truthyValue (Services.property response "content") = true)
  /\ Services.getVTPassServices api
     = Returned
         match api with
         | Returned rawResponse =>
           if ApiRequest.truthyJson rawResponse
              && Services.truthyValue (Services.property rawResponse "content")
           then rawResponse
           else Services.softResponse "error" "Invalid response from VTPass"
         | Thrown err =>
           if ApiRequest.name err =? "AbortError"
           then Services.softResponse "timeout" "Request timed out"
           else Services.softResponse "error"
                  (orElse (ApiRequest.message err) "Connection error")
         end
  /\ (forall stringOf titleOf isAuthenticated refreshed retried text flag attached,
        Services.getVTPassServices
          (ApiRequest.apiRequest stringOf titleOf isAuthenticated
             (ApiRequest.Rejected (ApiRequest.mkApiError "AbortError" text flag attached))
             refreshed retried)
        = Returned (Services.softResponse "error" "Request timed out. Please try again."))
  /\ (forall stringOf titleOf isAuthenticated fetched refreshed retried err,
        ApiRequest.apiRequest stringOf titleOf isAuthenticated fetched refreshed retried
        = Thrown err ->
        retried <> Thrown err ->
        Services.getVTPassServices (Thrown err)
        = Returned (Services.softResponse "error"
                      (orElse (ApiRequest.message err) "Connection error"))).
Proof.
  split; [apply getVTPassServices_returns|].
  split.
  { unfold Services.getVTPassServices, Services.getVTPassServices_inner.
    destruct api as [rawResponse|err].
    - destruct (ApiRequest.truthyJson rawResponse); simpl; [|reflexivity].
      destruct (Services.truthyValue (Services.property rawResponse "content"));
        reflexivity.
    - destruct (ApiRequest.name err =? "AbortError"); reflexivity. }
  split.
  { intros. reflexivity. }
  intros stringOf titleOf isAuthenticated fetched refreshed retried err Hthrown Hown.
  destruct (apiRequest_thrown_cases _ _ _ _ _ _ _ Hthrown) as [Hretried|[e ->]];
    [contradiction|].
  pose proof (outerCatch_not_abort e) as Hname. apply String.eqb_neq in Hname.
  unfold Services.getVTPassServices, Services.getVTPassServices_inner.
  rewrite Hname. reflexivity.
Qed.

(** X25: fetching the services never reports a failure: getVTPassServices
    answers every failed request with a response of its own, so fetchServices
    raises no toast, and when the request itself failed it returns the empty
    list and stores it. *)
Theorem fetchServices_never_reports_failure
    (isAuthenticated : bool) (st : Services.State)
    (api : Completion ApiRequest.Json ApiRequest.ApiError) :
  snd (Services.fetchServices isAuthenticated st (Services.getVTPassServices api)) = []
  /\ forall error,
       Services.fetchServices true st (Services.getVTPassServices (Thrown error))
       = (ApiRequest.JArray [], Services.mkState (ApiRequest.JArray []) false, []).
Proof.
  split.
  - destruct (getVTPassServices_returns api) as (response & -> & Ht & Hc).
    unfold Services.fetchServices. destruct isAuthenticated; [|reflexivity]. simpl negb.
    cbv iota.
    destruct response; try discriminate Ht;
      try (simpl in Hc; discriminate Hc).
    rewrite Hc, andb_true_r.
    destruct (Services.codeIsSuccess (ApiRequest.JObject fields)).
    + destruct (Services.property (ApiRequest.JObject fields) "content");
        reflexivity.
    + destruct (Services.truthyValue (Services.nestedContent (ApiRequest.JObject fields)));
        [|reflexivity].
      destruct (Services.nestedContent (ApiRequest.JObject fields)); reflexivity.
  - intros error. unfold Services.getVTPassServices, Services.getVTPassServices_inner.
    destruct (ApiRequest.name error =? "AbortError"); reflexivity.
Qed.

(** X26: once setPin reports success, the middleware serves every page
    outside the public paths to the logged-in browser: the PIN cookie is
    written by the same call. *)
Theorem setPin_unlocks_protected_pages
    (cookies : AuthContext.Cookies)
    (api : Completion ApiRequest.Json ApiRequest.ApiError) (path : string) :
  truthy (AuthContext.access_token cookies) = true ->
  AuthContext.succeeded (fst (AuthContext.setPin cookies api)) = true ->
  Middleware.isPublicPath path = false ->
  Middleware.middleware (AuthContext.request path (snd (AuthContext.setPin cookies api)))
  = Middleware.Next.
Proof.
  intros Hlogged Hok Hpub.
  destruct api as [typedResponse|error]; simpl in Hok; [|discriminate Hok].
  simpl AuthContext.setPin. simpl snd. rewrite Hok.
  unfold Middleware.middleware, Middleware.isAuthenticated, Middleware.hasPinSet.
  simpl. rewrite Hpub, Hlogged. simpl.
  unfold Middleware.isPublicPath in Hpub.
  apply orb_false_elim in Hpub. destruct Hpub as [Hpub _].
  apply orb_false_elim in Hpub. destruct Hpub as [Hpub _].
  apply orb_false_elim in Hpub. destruct Hpub as [Hpub _].
  simpl in Hpub. apply orb_false_elim in Hpub. destruct Hpub as [_ Hauth].
  rewrite Hauth. reflexivity.
Qed.

(** X26 at the dashboard, for a browser that holds a token and no PIN
    cookie, and the response [{success: true}]. *)
Lemma setPin_unlocks_protected_pages_witness :
  Middleware.middleware
    (AuthContext.request "/dashboard"
       (snd (AuthContext.setPin (AuthContext.mkCookies (Some "token") None None)
               (Returned (ApiRequest.JObject [("success", ApiRequest.JBool true)])))))
  = Middleware.Next.
Proof.
  exact (setPin_unlocks_protected_pages
           (AuthContext.mkCookies (Some "token") None None)
           (Returned (ApiRequest.JObject [("success", ApiRequest.JBool true)]))
           "/dashboard" eq_refl eq_refl eq_refl).
Defined.

(** X27: setPin never rejects: a failed request is answered with
    [success: false] and a message that is not empty, and leaves the cookies
    as they were. *)
Theorem setPin_failure_is_reported
    (cookies : AuthContext.Cookies) (error : ApiRequest.ApiError) :
  exists text,
    AuthContext.setPin cookies (Thrown error)
    = (ApiRequest.JObject [("success", ApiRequest.JBool false);
                           ("message", ApiRequest.JString text)],
       cookies)
    /\ text <> ""
    /\ AuthContext.succeeded (fst (AuthContext.setPin cookies (Thrown error))) = false.
Proof.
  eexists. split; [reflexivity|]. split; [|reflexivity].
  unfold orElse. destruct (ApiRequest.message error =? "") eqn:He.
  - discriminate.
  - apply String.eqb_neq. exact He.
Qed.

(** X28: after logout the middleware sends every page outside the public
    paths to the login page, and serves the login page itself, whatever the
    PIN cookie says. *)
Theorem logout_locks_protected_pages (cookies : AuthContext.Cookies) (path : string) :
  truthy (AuthContext.auth_tokens cookies) = false ->
  Middleware.isPublicPath path = false ->
  Middleware.middleware (AuthContext.request path (AuthContext.logout cookies))
  = Middleware.Redirect "/auth/login"
  /\ Middleware.middleware (AuthContext.request "/auth/login" (AuthContext.logout cookies))
     = Middleware.Next.
Proof.
  intros Hnone Hpub.
  unfold Middleware.middleware, Middleware.isAuthenticated. simpl.
  rewrite Hpub, Hnone. split; reflexivity.
Qed.

(** X28 at the dashboard, for a browser that held a token and the PIN
    cookie. *)
Lemma logout_locks_protected_pages_witness :
  Middleware.middleware
    (AuthContext.request "/dashboard"
       (AuthContext.logout (AuthContext.mkCookies (Some "token") None (Some "true"))))
  = Middleware.Redirect "/auth/login".
Proof.
  exact (proj1 (logout_locks_protected_pages
                  (AuthContext.mkCookies (Some "token") None (Some "true"))
                  "/dashboard" eq_refl eq_refl)).
Defined.

(** ** The cable TV screen *)

(** X29: when a cable TV payment is answered with a failure, the retry
    button is enabled and the retry sends the nine fields kept for it: the
    service, package, smart card, amount, phone, email, PIN and type of the
    first request and a new request id, but none of the other fields the
    first request carried, [subscription_type] among them. *)
Theorem cable_retry_sends_fewer_fields
    (st : CableTvPage.State) (pay : CableTvPage.Payment) (env env' : Entropy)
    (response : option VTPassResponseData) :
  isVTPassSuccess response = false ->
  let purchaseRequestId := generateUniqueRequestId (Some "cable-tv") env in
  let purchaseData := CableTvPage.purchaseDataOf pay purchaseRequestId in
  let clicked := fst (fst (CableTvPage.handlePurchase st (CableTvPage.FormValid pay) env)) in
  let failed :=
    fst (CableTvPage.handlePurchase_resume clicked pay purchaseRequestId
           (Returned response)) in
  CableTvPage.retryDisabled failed = false
  /\ exists retryData,
       snd (CableTvPage.handleRetry failed env') = Some retryData
       /\ map fst retryData
          = ["service_id"; "variation_code"; "billersCode"; "amount"; "phone"; "email";
             "pin"; "transaction_type"; "request_id"]
       /\ (forall key,
             In key ["service_id"; "variation_code"; "billersCode"; "amount"; "phone";
                     "email"; "pin"; "transaction_type"] ->
             CableTvPage.get retryData key = CableTvPage.get purchaseData key)
       /\ CableTvPage.get retryData "request_id"
          = Some (CableTvPage.VText (generateUniqueRequestId (Some "cable-retry") env'))
       /\ CableTvPage.get purchaseData "subscription_type"
          = Some (CableTvPage.VText "change")
       /\ CableTvPage.get retryData "subscription_type" = None.
Proof.
  intros Hfail. cbv zeta.
  unfold CableTvPage.handlePurchase, CableTvPage.handlePurchase_resume.
  rewrite Hfail. simpl fst.
  split; [reflexivity|].
  unfold CableTvPage.handleRetry. simpl CableTvPage.failedTransaction. cbv iota beta zeta.
  simpl snd. eexists. split; [reflexivity|].
  split; [reflexivity|].
  split.
  - intros key Hkey. simpl in Hkey.
    destruct Hkey as [<-|[<-|[<-|[<-|[<-|[<-|[<-|[<-|[]]]]]]]]]; reflexivity.
  - repeat split; reflexivity.
Qed.

(** X29 at a DStv payment answered with the code 016. *)
Lemma cable_retry_sends_fewer_fields_witness :
  CableTvPage.retryDisabled
    (fst (CableTvPage.handlePurchase_resume
            (fst (fst (CableTvPage.handlePurchase CableTvPage.initialState
                         (CableTvPage.FormValid
                            (CableTvPage.mkPayment "dstv" "dstv-padi" "1212121212"
                               (Finite false 2500 0) "08030000000" "user@example.com"
                               "1234"))
                         (mkEntropy 1700000000000 "4fzyo"))))
            (CableTvPage.mkPayment "dstv" "dstv-padi" "1212121212"
               (Finite false 2500 0) "08030000000" "user@example.com" "1234")
            (generateUniqueRequestId (Some "cable-tv") (mkEntropy 1700000000000 "4fzyo"))
            (Returned (Some (mkResponse (Some "016") (Some "TRANSACTION FAILED")
                               None None None None None)))))
  = false.
Proof.
  exact (proj1 (cable_retry_sends_fewer_fields CableTvPage.initialState
                  (CableTvPage.mkPayment "dstv" "dstv-padi" "1212121212"
                     (Finite false 2500 0) "08030000000" "user@example.com" "1234")
                  (mkEntropy 1700000000000 "4fzyo") (mkEntropy 1700000005000 "k2j8d")
                  (Some (mkResponse (Some "016") (Some "TRANSACTION FAILED")
                           None None None None None))
                  eq_refl)).
Defined.
